(** * Incremental retail ETL pipeline: a shallow embedding

    The development follows [etl/incremental_etl_pipeline.py] and the
    connection wrapper of [config/snowflake_config.py].  The warehouse is an
    explicit store of six tables; every method of [IncrementalETLPipeline]
    is a computation in a small state-and-exception monad over that store;
    every SQL text the pipeline sends is one constructor of [Sql], and
    [run_sql] gives it the meaning of the statement.

    Numbers: quantities are integers ([Z]), prices and amounts are
    rationals ([Q]); timestamps are seconds since the epoch ([Z]).  SQL NULL
    and pandas NaN/NaT are [None].  A number of the extract stands for the
    value the INSERT carries for it.  pandas types every column of the
    frame it reads: the types decide whether the key of line 144 can be
    built and in which arithmetic the product of line 134 is taken, and
    they are part of the model.  The product of two int64 columns is exact
    up to wrap-around; the product in binary64 is not computed here: it is
    a function of the environment. *)

From Stdlib Require Import ZArith QArith List String Ascii Bool Lia.
From Stdlib Require Import DecimalString DecimalPos DecimalZ.
Import ListNotations.

Open Scope Z_scope.
Open Scope string_scope.

(* ------------------------------------------------------------------ *)
(** ** Rendering of integers in strings (Python [str], SQL [CONCAT])  *)
(* ------------------------------------------------------------------ *)

Definition str (z : Z) : string := NilZero.string_of_int (Z.to_int z).

(* ------------------------------------------------------------------ *)
(** ** The source extract (what [pd.read_csv] returns)                 *)
(* ------------------------------------------------------------------ *)

(** A cell of a column that the pipeline converts with [pd.to_numeric]:
    empty, a well-formed value, or text that does not parse.  A quantity
    or customer id is an integer; a price is the number as it is written,
    an integer [n] being [n # 1] and a decimal its digits over the power
    of ten of its decimals ([2.50] is [250 # 100]). *)
Inductive Cell (A : Type) : Type :=
| Empty
| Parsed (a : A)
| Text (raw : string).
Arguments Empty {A}.
Arguments Parsed {A} a.
Arguments Text {A} raw.

(** A cell of a column that [read_csv] types by itself, as the invoice
    number and the stock code are: empty (or one of the markers pandas
    reads as missing), text that reads as an integer, text that reads as
    a floating-point number, or any other text.  [as_int] and [as_float]
    are what [str] gives for the value once the column is held as int64
    or as float64 ([536365] and [536365.0] for the text 536365).  A column
    of truth values is not covered: [Word] is text that pandas keeps as
    text. *)
Inductive Field : Type :=
| Blank
| Integer (raw as_int as_float : string)
| Decimal (raw as_float : string)
| Word (raw : string).

(** A cell of the date column: empty, a date written in a format that
    [pd.to_datetime] can infer, or text that is no date.  A date is taken
    to match the format it is written in and no other. *)
Inductive Date_cell : Type :=
| No_date
| Date (format : string) (t : Z)
| Not_a_date (raw : string).

(** The description and the country are only ever rendered with [str]:
    such a cell is the text [str] gives for it, or missing. *)
Module CSV.
Record row : Type := {
  InvoiceNo : Field;
  StockCode : Field;
  Description : option string;
  Quantity : Cell Z;
  InvoiceDate : Date_cell;
  UnitPrice : Cell Q;
  CustomerID : Cell Z;
  Country : option string
}.
End CSV.

(** The types pandas gives the columns of a frame. *)
Inductive Dtype : Type := int64 | float64 | object.

Record Dtypes : Type := {
  INVOICE_NO_dtype : Dtype;
  STOCK_CODE_dtype : Dtype;
  QUANTITY_dtype : Dtype;
  UNIT_PRICE_dtype : Dtype;
  INVOICE_DATE_format : option string
}.

(** The data frame after the four conversions of lines 114-117.  The key
    columns hold what [str] gives for their values; every row carries the
    types of the columns of its frame, as the values of a row of
    [iterrows] do. *)
Module DF.
Record row : Type := {
  INVOICE_NO : option string;
  STOCK_CODE : option string;
  DESCRIPTION : option string;
  QUANTITY : option Z;
  INVOICE_DATE : option Z;
  UNIT_PRICE : option Q;
  CUSTOMER_ID : option Z;
  COUNTRY : option string;
  dtypes : Dtypes
}.
End DF.

(* ------------------------------------------------------------------ *)
(** ** The warehouse tables                                            *)
(* ------------------------------------------------------------------ *)

Module STAGING.
Record row : Type := {
  INVOICE_NO : string;
  STOCK_CODE : string;
  DESCRIPTION : option string;
  QUANTITY : Z;
  INVOICE_DATE : Z;
  UNIT_PRICE : Q;
  CUSTOMER_ID : option Z;
  COUNTRY : string;
  LOAD_TIMESTAMP : Z;
  FILE_NAME : string;
  ROW_NUMBER_IN_FILE : Z;
  DATA_SOURCE : string;
  HAS_MISSING_CUSTOMER_ID : bool;
  IS_RETURN : bool;
  TOTAL_AMOUNT : Q
}.
End STAGING.

Module PRODUCTS.
Record row : Type := {
  STOCK_CODE : string;
  DESCRIPTION : option string;
  TOTAL_QUANTITY_SOLD : Z;
  TOTAL_REVENUE : Q;
  AVERAGE_UNIT_PRICE : option Q;
  MIN_UNIT_PRICE : option Q;
  MAX_UNIT_PRICE : option Q;
  FIRST_SALE_DATE : option Z;
  LAST_SALE_DATE : option Z;
  UNIQUE_CUSTOMERS : Z;
  UPDATED_AT : Z
}.
End PRODUCTS.

Inductive Segment : Type := NEW | LOW_VALUE | MEDIUM_VALUE | HIGH_VALUE | VIP.

Module CUSTOMERS.
Record row : Type := {
  CUSTOMER_ID : Z;
  COUNTRY : option string;
  FIRST_PURCHASE_DATE : option Z;
  LAST_PURCHASE_DATE : option Z;
  TOTAL_ORDERS : Z;
  TOTAL_ITEMS_PURCHASED : Z;
  TOTAL_AMOUNT_SPENT : Q;
  AVERAGE_ORDER_VALUE : option Q;
  CUSTOMER_SEGMENT : option Segment;
  DAYS_SINCE_LAST_PURCHASE : option Z;
  UPDATED_AT : Z
}.
End CUSTOMERS.

Module COUNTRIES.
Record row : Type := {
  COUNTRY : string;
  TOTAL_CUSTOMERS : Z;
  TOTAL_ORDERS : Z;
  TOTAL_REVENUE : Q;
  FIRST_ORDER_DATE : option Z;
  LAST_ORDER_DATE : option Z;
  UPDATED_AT : Z
}.
End COUNTRIES.

Inductive TransactionType : Type := SALE | RETURN | UNKNOWN.

Module TRANSACTIONS.
Record row : Type := {
  TRANSACTION_ID : string;
  INVOICE_NO : string;
  STOCK_CODE : string;
  CUSTOMER_ID : option Z;
  DESCRIPTION : option string;
  QUANTITY : Z;
  UNIT_PRICE : Q;
  TOTAL_AMOUNT : Q;
  INVOICE_DATE : Z;
  INVOICE_YEAR : Z;
  INVOICE_MONTH : Z;
  INVOICE_DAY_OF_WEEK : Z;
  COUNTRY : string;
  TRANSACTION_TYPE : TransactionType;
  IS_GUEST_PURCHASE : bool;
  SOURCE_FILE : string
}.
End TRANSACTIONS.

Inductive Status : Type := RUNNING | COMPLETED | FAILED.

Module LOG.
Record row : Type := {
  PIPELINE_NAME : string;
  PIPELINE_VERSION : string;
  EXECUTION_TYPE : string;
  STATUS : Status;
  EXECUTED_BY : string;
  ROWS_PROCESSED : Z;
  ROWS_INSERTED : option Z;
  ERROR_MESSAGE : option string;
  START_TIME : Z;
  END_TIME : option Z;
  (* EXECUTION_CONTEXT: batch_number, start_row, end_row *)
  EXECUTION_CONTEXT : Z * Z * Z
}.
End LOG.

Record Warehouse : Type := {
  ONLINE_RETAIL_STAGING : list STAGING.row;
  PRODUCTS : list PRODUCTS.row;
  CUSTOMERS : list CUSTOMERS.row;
  COUNTRIES : list COUNTRIES.row;
  TRANSACTIONS : list TRANSACTIONS.row;
  PIPELINE_EXECUTION_LOG : list LOG.row
}.

Definition empty_warehouse : Warehouse :=
  {| ONLINE_RETAIL_STAGING := []; PRODUCTS := []; CUSTOMERS := [];
     COUNTRIES := []; TRANSACTIONS := []; PIPELINE_EXECUTION_LOG := [] |}.

Definition with_staging (l : list STAGING.row) (w : Warehouse) : Warehouse :=
  {| ONLINE_RETAIL_STAGING := l; PRODUCTS := PRODUCTS w;
     CUSTOMERS := CUSTOMERS w; COUNTRIES := COUNTRIES w;
     TRANSACTIONS := TRANSACTIONS w;
     PIPELINE_EXECUTION_LOG := PIPELINE_EXECUTION_LOG w |}.

Definition with_products (l : list PRODUCTS.row) (w : Warehouse) : Warehouse :=
  {| ONLINE_RETAIL_STAGING := ONLINE_RETAIL_STAGING w; PRODUCTS := l;
     CUSTOMERS := CUSTOMERS w; COUNTRIES := COUNTRIES w;
     TRANSACTIONS := TRANSACTIONS w;
     PIPELINE_EXECUTION_LOG := PIPELINE_EXECUTION_LOG w |}.

Definition with_customers (l : list CUSTOMERS.row) (w : Warehouse) : Warehouse :=
  {| ONLINE_RETAIL_STAGING := ONLINE_RETAIL_STAGING w; PRODUCTS := PRODUCTS w;
     CUSTOMERS := l; COUNTRIES := COUNTRIES w;
     TRANSACTIONS := TRANSACTIONS w;
     PIPELINE_EXECUTION_LOG := PIPELINE_EXECUTION_LOG w |}.

Definition with_countries (l : list COUNTRIES.row) (w : Warehouse) : Warehouse :=
  {| ONLINE_RETAIL_STAGING := ONLINE_RETAIL_STAGING w; PRODUCTS := PRODUCTS w;
     CUSTOMERS := CUSTOMERS w; COUNTRIES := l;
     TRANSACTIONS := TRANSACTIONS w;
     PIPELINE_EXECUTION_LOG := PIPELINE_EXECUTION_LOG w |}.

Definition with_transactions (l : list TRANSACTIONS.row) (w : Warehouse) : Warehouse :=
  {| ONLINE_RETAIL_STAGING := ONLINE_RETAIL_STAGING w; PRODUCTS := PRODUCTS w;
     CUSTOMERS := CUSTOMERS w; COUNTRIES := COUNTRIES w;
     TRANSACTIONS := l;
     PIPELINE_EXECUTION_LOG := PIPELINE_EXECUTION_LOG w |}.

Definition with_log (l : list LOG.row) (w : Warehouse) : Warehouse :=
  {| ONLINE_RETAIL_STAGING := ONLINE_RETAIL_STAGING w; PRODUCTS := PRODUCTS w;
     CUSTOMERS := CUSTOMERS w; COUNTRIES := COUNTRIES w;
     TRANSACTIONS := TRANSACTIONS w;
     PIPELINE_EXECUTION_LOG := l |}.

(* ------------------------------------------------------------------ *)
(** ** Computations over the warehouse that may raise                  *)
(* ------------------------------------------------------------------ *)

(** A Python exception is represented by its message, [str(e)]. *)
Definition Exception : Type := string.

(** Every statement is committed on its own ([conn.commit()] in
    [execute_sql]), so the store reached when an exception is raised is
    the store the handler sees. *)
Definition M (A : Type) : Type := Warehouse -> (Exception + A) * Warehouse.

Definition ret {A} (a : A) : M A := fun w => (inr a, w).

Definition raise {A} (e : Exception) : M A := fun w => (inl e, w).

Definition bind {A B} (m : M A) (k : A -> M B) : M B :=
  fun w =>
    match m w with
    | (inr a, w') => k a w'
    | (inl e, w') => (inl e, w')
    end.

(** [try: m except Exception as e: h e] *)
Definition try_except {A} (m : M A) (h : Exception -> M A) : M A :=
  fun w =>
    match m w with
    | (inr a, w') => (inr a, w')
    | (inl e, w') => h e w'
    end.

Definition get : M Warehouse := fun w => (inr w, w).

Definition modify (f : Warehouse -> Warehouse) : M unit := fun w => (inr tt, f w).

Declare Scope etl_scope.
Delimit Scope etl_scope with etl.
Notation "x <- m ;; k" := (bind m (fun x => k))
  (at level 100, m at next level, right associativity) : etl_scope.
Notation "m ;;; k" := (bind m (fun _ => k))
  (at level 100, right associativity) : etl_scope.
Open Scope etl_scope.

(** The value, and the store, a computation ends with. *)
Definition outcome {A} (m : M A) (w : Warehouse) : Exception + A := fst (m w).
Definition store {A} (m : M A) (w : Warehouse) : Warehouse := snd (m w).

(* ------------------------------------------------------------------ *)
(** ** SQL operators used by the pipeline's statements                 *)
(* ------------------------------------------------------------------ *)

Module SQL.

(** [LIKE]: [%] matches any run of characters, [_] exactly one. *)
Inductive pat : Type := any_run | any_one | lit (c : ascii).

Definition pat_of (c : ascii) : pat :=
  if Ascii.eqb c "%" then any_run
  else if Ascii.eqb c "_" then any_one
  else lit c.

Fixpoint matches (p : list pat) (s : list ascii) {struct p} : bool :=
  match p with
  | [] => match s with [] => true | _ :: _ => false end
  | any_run :: p' =>
      (fix skip (s : list ascii) : bool :=
         matches p' s || match s with [] => false | _ :: s' => skip s' end) s
  | any_one :: p' =>
      match s with [] => false | _ :: s' => matches p' s' end
  | lit c :: p' =>
      match s with
      | [] => false
      | c' :: s' => Ascii.eqb c c' && matches p' s'
      end
  end.

Definition LIKE (s pattern : string) : bool :=
  matches (map pat_of (list_ascii_of_string pattern)) (list_ascii_of_string s).

(** Aggregates skip NULLs; over no value at all they are NULL. *)
Definition non_null {A} (l : list (option A)) : list A :=
  flat_map (fun o => match o with Some a => [a] | None => [] end) l.

Definition SUM_Z (l : list Z) : Z := fold_right Z.add 0 l.
Definition SUM_Q (l : list Q) : Q := fold_right Qplus 0%Q l.

Definition AVG (l : list (option Q)) : option Q :=
  match non_null l with
  | [] => None
  | v :: vs => Some (SUM_Q (v :: vs) / inject_Z (Z.of_nat (List.length (v :: vs))))%Q
  end.

Definition pick {A} (first : A -> A -> bool) (l : list (option A)) : option A :=
  match non_null l with
  | [] => None
  | v :: vs => Some (fold_left (fun a b => if first a b then a else b) vs v)
  end.

Definition MIN_Z := pick Z.leb.
Definition MAX_Z := pick Z.geb.
Definition MIN_Q := pick Qle_bool.
Definition MAX_Q := pick (fun a b => Qle_bool b a).
Definition MAX_S := pick (fun a b => String.leb b a).

Fixpoint distinct {A} (eqb : A -> A -> bool) (l : list A) : list A :=
  match l with
  | [] => []
  | a :: l' => a :: filter (fun b => negb (eqb a b)) (distinct eqb l')
  end.

Definition COUNT_DISTINCT {A} (eqb : A -> A -> bool) (l : list (option A)) : Z :=
  Z.of_nat (List.length (distinct eqb (non_null l))).

(** [LEAST] and [GREATEST] are NULL as soon as one argument is. *)
Definition lift2 {A} (f : A -> A -> A) (a b : option A) : option A :=
  match a, b with
  | Some x, Some y => Some (f x y)
  | _, _ => None
  end.

Definition LEAST_Z := lift2 Z.min.
Definition GREATEST_Z := lift2 Z.max.
Definition LEAST_Q := lift2 (fun a b : Q => if Qle_bool a b then a else b).
Definition GREATEST_Q := lift2 (fun a b : Q => if Qle_bool a b then b else a).

Definition COALESCE {A} (a b : option A) : option A :=
  match a with Some _ => a | None => b end.

(** [(a + b) / 2] on nullable numbers. *)
Definition mean2 (a b : option Q) : option Q :=
  lift2 (fun x y : Q => (x + y) / 2)%Q a b.

(** [MERGE INTO target USING source ON on WHEN MATCHED THEN UPDATE ...
    WHEN NOT MATCHED THEN INSERT ...] *)
Definition MERGE {T S} (on : T -> S -> bool) (update : T -> S -> T)
    (insert : S -> T) (target : list T) (source : list S) : list T :=
  map (fun t => match find (on t) source with
                | Some s => update t s
                | None => t
                end) target
  ++ map insert (filter (fun s => negb (existsb (fun t => on t s) target)) source).

(** Calendar parts of a timestamp (proleptic Gregorian, UTC). *)
Definition day_of (ts : Z) : Z := ts / 86400.

Definition civil (days : Z) : Z * Z * Z :=
  let z := days + 719468 in
  let era := z / 146097 in
  let doe := z - era * 146097 in
  let yoe := (doe - doe / 1460 + doe / 36524 - doe / 146096) / 365 in
  let doy := doe - (365 * yoe + yoe / 4 - yoe / 100) in
  let mp := (5 * doy + 2) / 153 in
  let d := doy - (153 * mp + 2) / 5 + 1 in
  let m := if (mp <? 10)%Z then mp + 3 else mp - 9 in
  let y := yoe + era * 400 in
  (if (m <=? 2)%Z then y + 1 else y, m, d).

Definition YEAR (ts : Z) : Z := fst (fst (civil (day_of ts))).
Definition MONTH (ts : Z) : Z := snd (fst (civil (day_of ts))).
(** 0 is Sunday. *)
Definition DAYOFWEEK (ts : Z) : Z := (day_of ts + 4) mod 7.
Definition CURRENT_DATE (now : Z) : Z := day_of now * 86400.
Definition DATEDIFF_day (a b : Z) : Z := day_of b - day_of a.

End SQL.

Example like_batch_tag : SQL.LIKE "CSV_BATCH_12" "%BATCH_%" = true.
Proof. reflexivity. Qed.

Example like_needs_a_character : SQL.LIKE "CSV_BATCH" "%BATCH_%" = false.
Proof. reflexivity. Qed.

Example calendar_parts :
  (SQL.YEAR 1291191960, SQL.MONTH 1291191960, SQL.DAYOFWEEK 1291191960)
  = (2010, 12, 3).
Proof. reflexivity. Qed.

(* ------------------------------------------------------------------ *)
(** ** The statements the pipeline sends, and what they do             *)
(* ------------------------------------------------------------------ *)

(** Rows of the three [USING] sub-queries. *)
Module PRODUCT_DELTA.
Record row : Type := {
  STOCK_CODE : string;
  DESCRIPTION : option string;
  NEW_QUANTITY_SOLD : Z;
  NEW_REVENUE : Q;
  AVG_UNIT_PRICE : option Q;
  MIN_UNIT_PRICE : option Q;
  MAX_UNIT_PRICE : option Q;
  FIRST_SALE_DATE : option Z;
  LAST_SALE_DATE : option Z;
  NEW_UNIQUE_CUSTOMERS : Z
}.
End PRODUCT_DELTA.

Module CUSTOMER_DELTA.
Record row : Type := {
  CUSTOMER_ID : Z;
  COUNTRY : option string;
  FIRST_PURCHASE_DATE : option Z;
  LAST_PURCHASE_DATE : option Z;
  NEW_ORDERS : Z;
  NEW_ITEMS_PURCHASED : Z;
  NEW_AMOUNT_SPENT : Q;
  AVG_ORDER_VALUE : option Q
}.
End CUSTOMER_DELTA.

Module COUNTRY_DELTA.
Record row : Type := {
  COUNTRY : string;
  NEW_CUSTOMERS : Z;
  NEW_ORDERS : Z;
  NEW_REVENUE : Q;
  FIRST_ORDER_DATE : option Z;
  LAST_ORDER_DATE : option Z
}.
End COUNTRY_DELTA.

(** [WHERE DATA_SOURCE LIKE '%BATCH_%'] *)
Definition from_a_batch (r : STAGING.row) : bool :=
  SQL.LIKE (STAGING.DATA_SOURCE r) "%BATCH_%".

(** [CASE WHEN QUANTITY > 0 THEN v ELSE NULL END] *)
Definition when_sold {A} (r : STAGING.row) (v : A) : option A :=
  if (0 <? STAGING.QUANTITY r)%Z then Some v else None.

Definition sold_quantity (r : STAGING.row) : Z :=
  if (0 <? STAGING.QUANTITY r)%Z then STAGING.QUANTITY r else 0.

Definition sold_amount (r : STAGING.row) : Q :=
  if (0 <? STAGING.QUANTITY r)%Z then STAGING.TOTAL_AMOUNT r else 0%Q.

Definition sold_customer (r : STAGING.row) : option Z :=
  if (0 <? STAGING.QUANTITY r)%Z then STAGING.CUSTOMER_ID r else None.

Definition products_source (staging : list STAGING.row) : list PRODUCT_DELTA.row :=
  let rows := filter from_a_batch staging in
  map (fun k =>
         let g := filter (fun r => String.eqb (STAGING.STOCK_CODE r) k) rows in
         {| PRODUCT_DELTA.STOCK_CODE := k;
            PRODUCT_DELTA.DESCRIPTION := SQL.MAX_S (map STAGING.DESCRIPTION g);
            PRODUCT_DELTA.NEW_QUANTITY_SOLD := SQL.SUM_Z (map sold_quantity g);
            PRODUCT_DELTA.NEW_REVENUE := SQL.SUM_Q (map sold_amount g);
            PRODUCT_DELTA.AVG_UNIT_PRICE :=
              SQL.AVG (map (fun r => when_sold r (STAGING.UNIT_PRICE r)) g);
            PRODUCT_DELTA.MIN_UNIT_PRICE :=
              SQL.MIN_Q (map (fun r => when_sold r (STAGING.UNIT_PRICE r)) g);
            PRODUCT_DELTA.MAX_UNIT_PRICE :=
              SQL.MAX_Q (map (fun r => when_sold r (STAGING.UNIT_PRICE r)) g);
            PRODUCT_DELTA.FIRST_SALE_DATE :=
              SQL.MIN_Z (map (fun r => when_sold r (STAGING.INVOICE_DATE r)) g);
            PRODUCT_DELTA.LAST_SALE_DATE :=
              SQL.MAX_Z (map (fun r => when_sold r (STAGING.INVOICE_DATE r)) g);
            PRODUCT_DELTA.NEW_UNIQUE_CUSTOMERS :=
              SQL.COUNT_DISTINCT Z.eqb (map sold_customer g) |})
      (SQL.distinct String.eqb (map STAGING.STOCK_CODE rows)).

(** Modelled from the spec: the table declarations (schema-provisioning
    scripts) are not part of the sources, so the defaults of the columns
    that the pipeline's INSERTs leave out are taken from the data model:
    [UPDATED_AT] and [START_TIME] default to the current timestamp, every
    other omitted column to NULL. *)
Definition default_timestamp (now : Z) : Z := now.

Definition products_update (now : Z) (t : PRODUCTS.row) (s : PRODUCT_DELTA.row)
  : PRODUCTS.row :=
  {| PRODUCTS.STOCK_CODE := PRODUCTS.STOCK_CODE t;
     PRODUCTS.DESCRIPTION :=
       SQL.COALESCE (PRODUCT_DELTA.DESCRIPTION s) (PRODUCTS.DESCRIPTION t);
     PRODUCTS.TOTAL_QUANTITY_SOLD :=
       PRODUCTS.TOTAL_QUANTITY_SOLD t + PRODUCT_DELTA.NEW_QUANTITY_SOLD s;
     PRODUCTS.TOTAL_REVENUE :=
       (PRODUCTS.TOTAL_REVENUE t + PRODUCT_DELTA.NEW_REVENUE s)%Q;
     PRODUCTS.AVERAGE_UNIT_PRICE :=
       SQL.mean2 (PRODUCTS.AVERAGE_UNIT_PRICE t) (PRODUCT_DELTA.AVG_UNIT_PRICE s);
     PRODUCTS.MIN_UNIT_PRICE :=
       SQL.LEAST_Q (PRODUCTS.MIN_UNIT_PRICE t) (PRODUCT_DELTA.MIN_UNIT_PRICE s);
     PRODUCTS.MAX_UNIT_PRICE :=
       SQL.GREATEST_Q (PRODUCTS.MAX_UNIT_PRICE t) (PRODUCT_DELTA.MAX_UNIT_PRICE s);
     PRODUCTS.FIRST_SALE_DATE :=
       SQL.LEAST_Z (PRODUCTS.FIRST_SALE_DATE t) (PRODUCT_DELTA.FIRST_SALE_DATE s);
     PRODUCTS.LAST_SALE_DATE :=
       SQL.GREATEST_Z (PRODUCTS.LAST_SALE_DATE t) (PRODUCT_DELTA.LAST_SALE_DATE s);
     PRODUCTS.UNIQUE_CUSTOMERS :=
       PRODUCTS.UNIQUE_CUSTOMERS t + PRODUCT_DELTA.NEW_UNIQUE_CUSTOMERS s;
     PRODUCTS.UPDATED_AT := now |}.

Definition products_insert (now : Z) (s : PRODUCT_DELTA.row) : PRODUCTS.row :=
  {| PRODUCTS.STOCK_CODE := PRODUCT_DELTA.STOCK_CODE s;
     PRODUCTS.DESCRIPTION := PRODUCT_DELTA.DESCRIPTION s;
     PRODUCTS.TOTAL_QUANTITY_SOLD := PRODUCT_DELTA.NEW_QUANTITY_SOLD s;
     PRODUCTS.TOTAL_REVENUE := PRODUCT_DELTA.NEW_REVENUE s;
     PRODUCTS.AVERAGE_UNIT_PRICE := PRODUCT_DELTA.AVG_UNIT_PRICE s;
     PRODUCTS.MIN_UNIT_PRICE := PRODUCT_DELTA.MIN_UNIT_PRICE s;
     PRODUCTS.MAX_UNIT_PRICE := PRODUCT_DELTA.MAX_UNIT_PRICE s;
     PRODUCTS.FIRST_SALE_DATE := PRODUCT_DELTA.FIRST_SALE_DATE s;
     PRODUCTS.LAST_SALE_DATE := PRODUCT_DELTA.LAST_SALE_DATE s;
     PRODUCTS.UNIQUE_CUSTOMERS := PRODUCT_DELTA.NEW_UNIQUE_CUSTOMERS s;
     PRODUCTS.UPDATED_AT := default_timestamp now |}.

Definition products_on (t : PRODUCTS.row) (s : PRODUCT_DELTA.row) : bool :=
  String.eqb (PRODUCTS.STOCK_CODE t) (PRODUCT_DELTA.STOCK_CODE s).

Definition merge_products (now : Z) (w : Warehouse) : Warehouse :=
  with_products
    (SQL.MERGE products_on (products_update now) (products_insert now)
       (PRODUCTS w) (products_source (ONLINE_RETAIL_STAGING w))) w.

(** [WHERE DATA_SOURCE LIKE '%BATCH_%' AND CUSTOMER_ID IS NOT NULL AND
    QUANTITY > 0] *)
Definition customer_sale (r : STAGING.row) : bool :=
  from_a_batch r
  && match STAGING.CUSTOMER_ID r with Some _ => true | None => false end
  && (0 <? STAGING.QUANTITY r)%Z.

Definition customer_is (k : Z) (r : STAGING.row) : bool :=
  match STAGING.CUSTOMER_ID r with Some c => Z.eqb c k | None => false end.

Definition customers_source (staging : list STAGING.row) : list CUSTOMER_DELTA.row :=
  let rows := filter customer_sale staging in
  map (fun k =>
         let g := filter (customer_is k) rows in
         {| CUSTOMER_DELTA.CUSTOMER_ID := k;
            CUSTOMER_DELTA.COUNTRY :=
              SQL.MAX_S (map (fun r => Some (STAGING.COUNTRY r)) g);
            CUSTOMER_DELTA.FIRST_PURCHASE_DATE :=
              SQL.MIN_Z (map (fun r => Some (STAGING.INVOICE_DATE r)) g);
            CUSTOMER_DELTA.LAST_PURCHASE_DATE :=
              SQL.MAX_Z (map (fun r => Some (STAGING.INVOICE_DATE r)) g);
            CUSTOMER_DELTA.NEW_ORDERS :=
              SQL.COUNT_DISTINCT String.eqb
                (map (fun r => Some (STAGING.INVOICE_NO r)) g);
            CUSTOMER_DELTA.NEW_ITEMS_PURCHASED := SQL.SUM_Z (map sold_quantity g);
            CUSTOMER_DELTA.NEW_AMOUNT_SPENT := SQL.SUM_Q (map sold_amount g);
            CUSTOMER_DELTA.AVG_ORDER_VALUE :=
              SQL.AVG (map (fun r => when_sold r (STAGING.TOTAL_AMOUNT r)) g) |})
      (SQL.distinct Z.eqb (SQL.non_null (map STAGING.CUSTOMER_ID rows))).

Definition customers_update (now : Z) (t : CUSTOMERS.row) (s : CUSTOMER_DELTA.row)
  : CUSTOMERS.row :=
  {| CUSTOMERS.CUSTOMER_ID := CUSTOMERS.CUSTOMER_ID t;
     CUSTOMERS.COUNTRY :=
       SQL.COALESCE (CUSTOMER_DELTA.COUNTRY s) (CUSTOMERS.COUNTRY t);
     CUSTOMERS.FIRST_PURCHASE_DATE :=
       SQL.LEAST_Z (CUSTOMERS.FIRST_PURCHASE_DATE t)
         (CUSTOMER_DELTA.FIRST_PURCHASE_DATE s);
     CUSTOMERS.LAST_PURCHASE_DATE :=
       SQL.GREATEST_Z (CUSTOMERS.LAST_PURCHASE_DATE t)
         (CUSTOMER_DELTA.LAST_PURCHASE_DATE s);
     CUSTOMERS.TOTAL_ORDERS :=
       CUSTOMERS.TOTAL_ORDERS t + CUSTOMER_DELTA.NEW_ORDERS s;
     CUSTOMERS.TOTAL_ITEMS_PURCHASED :=
       CUSTOMERS.TOTAL_ITEMS_PURCHASED t + CUSTOMER_DELTA.NEW_ITEMS_PURCHASED s;
     CUSTOMERS.TOTAL_AMOUNT_SPENT :=
       (CUSTOMERS.TOTAL_AMOUNT_SPENT t + CUSTOMER_DELTA.NEW_AMOUNT_SPENT s)%Q;
     CUSTOMERS.AVERAGE_ORDER_VALUE :=
       SQL.mean2 (CUSTOMERS.AVERAGE_ORDER_VALUE t) (CUSTOMER_DELTA.AVG_ORDER_VALUE s);
     CUSTOMERS.CUSTOMER_SEGMENT := CUSTOMERS.CUSTOMER_SEGMENT t;
     CUSTOMERS.DAYS_SINCE_LAST_PURCHASE := CUSTOMERS.DAYS_SINCE_LAST_PURCHASE t;
     CUSTOMERS.UPDATED_AT := now |}.

Definition customers_insert (now : Z) (s : CUSTOMER_DELTA.row) : CUSTOMERS.row :=
  {| CUSTOMERS.CUSTOMER_ID := CUSTOMER_DELTA.CUSTOMER_ID s;
     CUSTOMERS.COUNTRY := CUSTOMER_DELTA.COUNTRY s;
     CUSTOMERS.FIRST_PURCHASE_DATE := CUSTOMER_DELTA.FIRST_PURCHASE_DATE s;
     CUSTOMERS.LAST_PURCHASE_DATE := CUSTOMER_DELTA.LAST_PURCHASE_DATE s;
     CUSTOMERS.TOTAL_ORDERS := CUSTOMER_DELTA.NEW_ORDERS s;
     CUSTOMERS.TOTAL_ITEMS_PURCHASED := CUSTOMER_DELTA.NEW_ITEMS_PURCHASED s;
     CUSTOMERS.TOTAL_AMOUNT_SPENT := CUSTOMER_DELTA.NEW_AMOUNT_SPENT s;
     CUSTOMERS.AVERAGE_ORDER_VALUE := CUSTOMER_DELTA.AVG_ORDER_VALUE s;
     CUSTOMERS.CUSTOMER_SEGMENT := None;
     CUSTOMERS.DAYS_SINCE_LAST_PURCHASE := None;
     CUSTOMERS.UPDATED_AT := default_timestamp now |}.

Definition customers_on (t : CUSTOMERS.row) (s : CUSTOMER_DELTA.row) : bool :=
  Z.eqb (CUSTOMERS.CUSTOMER_ID t) (CUSTOMER_DELTA.CUSTOMER_ID s).

Definition merge_customers (now : Z) (w : Warehouse) : Warehouse :=
  with_customers
    (SQL.MERGE customers_on (customers_update now) (customers_insert now)
       (CUSTOMERS w) (customers_source (ONLINE_RETAIL_STAGING w))) w.

(** The [CASE] of the segmentation statement. *)
Definition segment_of (spent : Q) : Segment :=
  if Qle_bool 10000 spent then VIP
  else if Qle_bool 5000 spent then HIGH_VALUE
  else if Qle_bool 1000 spent then MEDIUM_VALUE
  else if negb (Qle_bool spent 0) then LOW_VALUE
  else NEW.

Definition segment_row (now : Z) (c : CUSTOMERS.row) : CUSTOMERS.row :=
  if (SQL.CURRENT_DATE now <=? CUSTOMERS.UPDATED_AT c)%Z then
    {| CUSTOMERS.CUSTOMER_ID := CUSTOMERS.CUSTOMER_ID c;
       CUSTOMERS.COUNTRY := CUSTOMERS.COUNTRY c;
       CUSTOMERS.FIRST_PURCHASE_DATE := CUSTOMERS.FIRST_PURCHASE_DATE c;
       CUSTOMERS.LAST_PURCHASE_DATE := CUSTOMERS.LAST_PURCHASE_DATE c;
       CUSTOMERS.TOTAL_ORDERS := CUSTOMERS.TOTAL_ORDERS c;
       CUSTOMERS.TOTAL_ITEMS_PURCHASED := CUSTOMERS.TOTAL_ITEMS_PURCHASED c;
       CUSTOMERS.TOTAL_AMOUNT_SPENT := CUSTOMERS.TOTAL_AMOUNT_SPENT c;
       CUSTOMERS.AVERAGE_ORDER_VALUE := CUSTOMERS.AVERAGE_ORDER_VALUE c;
       CUSTOMERS.CUSTOMER_SEGMENT := Some (segment_of (CUSTOMERS.TOTAL_AMOUNT_SPENT c));
       CUSTOMERS.DAYS_SINCE_LAST_PURCHASE :=
         option_map (fun d => SQL.DATEDIFF_day d (SQL.CURRENT_DATE now))
           (CUSTOMERS.LAST_PURCHASE_DATE c);
       CUSTOMERS.UPDATED_AT := CUSTOMERS.UPDATED_AT c |}
  else c.

Definition update_segments (now : Z) (w : Warehouse) : Warehouse :=
  with_customers (map (segment_row now) (CUSTOMERS w)) w.

Definition countries_source (staging : list STAGING.row) : list COUNTRY_DELTA.row :=
  let rows := filter from_a_batch staging in
  map (fun k =>
         let g := filter (fun r => String.eqb (STAGING.COUNTRY r) k) rows in
         {| COUNTRY_DELTA.COUNTRY := k;
            COUNTRY_DELTA.NEW_CUSTOMERS :=
              SQL.COUNT_DISTINCT Z.eqb (map STAGING.CUSTOMER_ID g);
            COUNTRY_DELTA.NEW_ORDERS :=
              SQL.COUNT_DISTINCT String.eqb
                (map (fun r => Some (STAGING.INVOICE_NO r)) g);
            COUNTRY_DELTA.NEW_REVENUE := SQL.SUM_Q (map sold_amount g);
            COUNTRY_DELTA.FIRST_ORDER_DATE :=
              SQL.MIN_Z (map (fun r => Some (STAGING.INVOICE_DATE r)) g);
            COUNTRY_DELTA.LAST_ORDER_DATE :=
              SQL.MAX_Z (map (fun r => Some (STAGING.INVOICE_DATE r)) g) |})
      (SQL.distinct String.eqb (map STAGING.COUNTRY rows)).

Definition countries_update (now : Z) (t : COUNTRIES.row) (s : COUNTRY_DELTA.row)
  : COUNTRIES.row :=
  {| COUNTRIES.COUNTRY := COUNTRIES.COUNTRY t;
     COUNTRIES.TOTAL_CUSTOMERS :=
       COUNTRIES.TOTAL_CUSTOMERS t + COUNTRY_DELTA.NEW_CUSTOMERS s;
     COUNTRIES.TOTAL_ORDERS := COUNTRIES.TOTAL_ORDERS t + COUNTRY_DELTA.NEW_ORDERS s;
     COUNTRIES.TOTAL_REVENUE :=
       (COUNTRIES.TOTAL_REVENUE t + COUNTRY_DELTA.NEW_REVENUE s)%Q;
     COUNTRIES.FIRST_ORDER_DATE :=
       SQL.LEAST_Z (COUNTRIES.FIRST_ORDER_DATE t) (COUNTRY_DELTA.FIRST_ORDER_DATE s);
     COUNTRIES.LAST_ORDER_DATE :=
       SQL.GREATEST_Z (COUNTRIES.LAST_ORDER_DATE t) (COUNTRY_DELTA.LAST_ORDER_DATE s);
     COUNTRIES.UPDATED_AT := now |}.

Definition countries_insert (now : Z) (s : COUNTRY_DELTA.row) : COUNTRIES.row :=
  {| COUNTRIES.COUNTRY := COUNTRY_DELTA.COUNTRY s;
     COUNTRIES.TOTAL_CUSTOMERS := COUNTRY_DELTA.NEW_CUSTOMERS s;
     COUNTRIES.TOTAL_ORDERS := COUNTRY_DELTA.NEW_ORDERS s;
     COUNTRIES.TOTAL_REVENUE := COUNTRY_DELTA.NEW_REVENUE s;
     COUNTRIES.FIRST_ORDER_DATE := COUNTRY_DELTA.FIRST_ORDER_DATE s;
     COUNTRIES.LAST_ORDER_DATE := COUNTRY_DELTA.LAST_ORDER_DATE s;
     COUNTRIES.UPDATED_AT := default_timestamp now |}.

Definition countries_on (t : COUNTRIES.row) (s : COUNTRY_DELTA.row) : bool :=
  String.eqb (COUNTRIES.COUNTRY t) (COUNTRY_DELTA.COUNTRY s).

Definition merge_countries (now : Z) (w : Warehouse) : Warehouse :=
  with_countries
    (SQL.MERGE countries_on (countries_update now) (countries_insert now)
       (COUNTRIES w) (countries_source (ONLINE_RETAIL_STAGING w))) w.

(** [CONCAT(INVOICE_NO, '_', STOCK_CODE, '_', ROW_NUMBER_IN_FILE)], and the
    same key as pandas builds it on line 144 from two text columns. *)
Definition TRANSACTION_KEY (r : STAGING.row) : string :=
  STAGING.INVOICE_NO r ++ "_" ++ STAGING.STOCK_CODE r ++ "_"
  ++ str (STAGING.ROW_NUMBER_IN_FILE r).

Definition batch_tag (batch_number : Z) : string := "CSV_BATCH_" ++ str batch_number.

Definition fact_of (r : STAGING.row) : TRANSACTIONS.row :=
  {| TRANSACTIONS.TRANSACTION_ID := TRANSACTION_KEY r;
     TRANSACTIONS.INVOICE_NO := STAGING.INVOICE_NO r;
     TRANSACTIONS.STOCK_CODE := STAGING.STOCK_CODE r;
     TRANSACTIONS.CUSTOMER_ID := STAGING.CUSTOMER_ID r;
     TRANSACTIONS.DESCRIPTION := STAGING.DESCRIPTION r;
     TRANSACTIONS.QUANTITY := STAGING.QUANTITY r;
     TRANSACTIONS.UNIT_PRICE := STAGING.UNIT_PRICE r;
     TRANSACTIONS.TOTAL_AMOUNT := STAGING.TOTAL_AMOUNT r;
     TRANSACTIONS.INVOICE_DATE := STAGING.INVOICE_DATE r;
     TRANSACTIONS.INVOICE_YEAR := SQL.YEAR (STAGING.INVOICE_DATE r);
     TRANSACTIONS.INVOICE_MONTH := SQL.MONTH (STAGING.INVOICE_DATE r);
     TRANSACTIONS.INVOICE_DAY_OF_WEEK := SQL.DAYOFWEEK (STAGING.INVOICE_DATE r);
     TRANSACTIONS.COUNTRY := STAGING.COUNTRY r;
     TRANSACTIONS.TRANSACTION_TYPE :=
       if (0 <? STAGING.QUANTITY r)%Z then SALE
       else if (STAGING.QUANTITY r <? 0)%Z then RETURN
       else UNKNOWN;
     TRANSACTIONS.IS_GUEST_PURCHASE :=
       match STAGING.CUSTOMER_ID r with None => true | Some _ => false end;
     TRANSACTIONS.SOURCE_FILE := STAGING.FILE_NAME r |}.

(** [WHERE DATA_SOURCE = 'CSV_BATCH_n' AND ... AND QUANTITY != 0]; the
    four IS NOT NULL conjuncts hold of every staged row. *)
Definition publishable (batch_number : Z) (r : STAGING.row) : bool :=
  String.eqb (STAGING.DATA_SOURCE r) (batch_tag batch_number)
  && negb (STAGING.QUANTITY r =? 0)%Z.

Definition insert_transactions (batch_number : Z) (w : Warehouse) : Warehouse :=
  with_transactions
    (TRANSACTIONS w
     ++ map fact_of (filter (publishable batch_number) (ONLINE_RETAIL_STAGING w)))%list
    w.

Definition execution_type (batch_number : Z) : string := "BATCH_" ++ str batch_number.

Definition log_insert (now batch_number start_row end_row : Z) (w : Warehouse)
  : Warehouse :=
  with_log
    (PIPELINE_EXECUTION_LOG w
     ++ [ {| LOG.PIPELINE_NAME := "INCREMENTAL_ETL";
             LOG.PIPELINE_VERSION := "1.0";
             LOG.EXECUTION_TYPE := execution_type batch_number;
             LOG.STATUS := RUNNING;
             LOG.EXECUTED_BY := "ETL_PIPELINE";
             LOG.ROWS_PROCESSED := end_row - start_row + 1;
             LOG.ROWS_INSERTED := None;
             LOG.ERROR_MESSAGE := None;
             LOG.START_TIME := default_timestamp now;
             LOG.END_TIME := None;
             LOG.EXECUTION_CONTEXT := (batch_number, start_row, end_row) |} ])%list
    w.

Definition is_running (s : Status) : bool :=
  match s with RUNNING => true | _ => false end.

(** The sub-query [SELECT MAX(START_TIME) ... WHERE PIPELINE_NAME =
    'INCREMENTAL_ETL' AND EXECUTION_TYPE = 'BATCH_n']. *)
Definition of_batch (batch_number : Z) (e : LOG.row) : bool :=
  String.eqb (LOG.PIPELINE_NAME e) "INCREMENTAL_ETL"
  && String.eqb (LOG.EXECUTION_TYPE e) (execution_type batch_number).

Definition latest_start (batch_number : Z) (log : list LOG.row) : option Z :=
  SQL.MAX_Z (map (fun e => Some (LOG.START_TIME e)) (filter (of_batch batch_number) log)).

Definition log_update_row (now : Z) (status : Status) (rows_loaded : Z)
    (error_clause : option string) (e : LOG.row) : LOG.row :=
  {| LOG.PIPELINE_NAME := LOG.PIPELINE_NAME e;
     LOG.PIPELINE_VERSION := LOG.PIPELINE_VERSION e;
     LOG.EXECUTION_TYPE := LOG.EXECUTION_TYPE e;
     LOG.STATUS := status;
     LOG.EXECUTED_BY := LOG.EXECUTED_BY e;
     LOG.ROWS_PROCESSED := LOG.ROWS_PROCESSED e;
     LOG.ROWS_INSERTED := Some rows_loaded;
     LOG.ERROR_MESSAGE :=
       match error_clause with Some m => Some m | None => LOG.ERROR_MESSAGE e end;
     LOG.START_TIME := LOG.START_TIME e;
     LOG.END_TIME := Some now;
     LOG.EXECUTION_CONTEXT := LOG.EXECUTION_CONTEXT e |}.

Definition log_update (now batch_number : Z) (status : Status) (rows_loaded : Z)
    (error_clause : option string) (w : Warehouse) : Warehouse :=
  let log := PIPELINE_EXECUTION_LOG w in
  with_log
    (map (fun e =>
            if of_batch batch_number e && is_running (LOG.STATUS e)
               && match latest_start batch_number log with
                  | Some t => (LOG.START_TIME e =? t)%Z
                  | None => false
                  end
            then log_update_row now status rows_loaded error_clause e
            else e) log)
    w.

Inductive Table : Type :=
| T_STAGING | T_TRANSACTIONS | T_PRODUCTS | T_CUSTOMERS | T_COUNTRIES.

(** One constructor per SQL text of the pipeline, with the values the
    text is formatted with. *)
Inductive Sql : Type :=
| SELECT_MAX_ROW_NUMBER_IN_FILE
| INSERT_EXECUTION_LOG (batch_number start_row end_row : Z)
| UPDATE_EXECUTION_LOG (batch_number : Z) (status : Status) (rows_loaded : Z)
    (error_clause : option string)
| SELECT_TRANSACTION_KEYS
| INSERT_STAGING (r : STAGING.row)
| MERGE_PRODUCTS
| MERGE_CUSTOMERS
| UPDATE_CUSTOMER_SEGMENTS
| MERGE_COUNTRIES
| INSERT_TRANSACTIONS (batch_number : Z)
| SELECT_COUNT (t : Table).

(** What a SELECT returns. *)
Inductive DataFrame : Type :=
| Scalar (v : option Z)
| Keys (l : list string).

Definition count_rows (t : Table) (w : Warehouse) : Z :=
  match t with
  | T_STAGING => Z.of_nat (List.length (ONLINE_RETAIL_STAGING w))
  | T_TRANSACTIONS => Z.of_nat (List.length (TRANSACTIONS w))
  | T_PRODUCTS => Z.of_nat (List.length (PRODUCTS w))
  | T_CUSTOMERS => Z.of_nat (List.length (CUSTOMERS w))
  | T_COUNTRIES => Z.of_nat (List.length (COUNTRIES w))
  end.

Definition max_row_number (w : Warehouse) : option Z :=
  SQL.MAX_Z (map (fun r => Some (STAGING.ROW_NUMBER_IN_FILE r)) (ONLINE_RETAIL_STAGING w)).

Definition transaction_keys (w : Warehouse) : list string :=
  SQL.distinct String.eqb (map TRANSACTION_KEY (ONLINE_RETAIL_STAGING w)).

Definition run_sql (now : Z) (q : Sql) (w : Warehouse) : option DataFrame * Warehouse :=
  match q with
  | SELECT_MAX_ROW_NUMBER_IN_FILE => (Some (Scalar (max_row_number w)), w)
  | INSERT_EXECUTION_LOG n s e => (None, log_insert now n s e w)
  | UPDATE_EXECUTION_LOG n st rows err => (None, log_update now n st rows err w)
  | SELECT_TRANSACTION_KEYS => (Some (Keys (transaction_keys w)), w)
  | INSERT_STAGING r =>
      (None, with_staging (ONLINE_RETAIL_STAGING w ++ [r])%list w)
  | MERGE_PRODUCTS => (None, merge_products now w)
  | MERGE_CUSTOMERS => (None, merge_customers now w)
  | UPDATE_CUSTOMER_SEGMENTS => (None, update_segments now w)
  | MERGE_COUNTRIES => (None, merge_countries now w)
  | INSERT_TRANSACTIONS n => (None, insert_transactions n w)
  | SELECT_COUNT t => (Some (Scalar (Some (count_rows t w))), w)
  end.

(** The world a run executes in: the source extract ([None] when it
    cannot be read), the statements the warehouse refuses and with which
    message, the clock, and binary64 arithmetic: [float64_mul q p] is the
    number the INSERT carries for the product of the quantity [q] and the
    price [p] when pandas takes it in float64. *)
Record Env : Type := {
  csv_file : option (list CSV.row);
  sql_error : Sql -> option Exception;
  now : Z;
  float64_mul : Z -> Q -> Q
}.

(** [SnowflakeConnection.execute_sql]: the error is logged and raised
    again; otherwise a SELECT returns its rows and anything else is
    committed and returns [None]. *)
Definition execute_sql (env : Env) (q : Sql) : M (option DataFrame) :=
  fun w =>
    match sql_error env q with
    | Some e => (inl e, w)
    | None => let (r, w') := run_sql (now env) q w in (inr r, w')
    end.

(* ------------------------------------------------------------------ *)
(** ** [IncrementalETLPipeline]                                        *)
(* ------------------------------------------------------------------ *)

Definition batch_size : Z := 1000.

Definition get_last_processed_row (env : Env) : M Z :=
  try_except
    (result <- execute_sql env SELECT_MAX_ROW_NUMBER_IN_FILE ;;
     match result with
     | Some (Scalar (Some last_row)) => ret last_row
     | _ => ret 0
     end)
    (fun _ => ret 0).

Definition log_batch_start (env : Env) (batch_number start_row end_row : Z) : M unit :=
  try_except
    (execute_sql env (INSERT_EXECUTION_LOG batch_number start_row end_row) ;;; ret tt)
    (fun _ => ret tt).

(** [f", ERROR_MESSAGE = '{error_msg}'" if error_msg else ""] *)
Definition error_clause (error_msg : option string) : option string :=
  match error_msg with
  | Some EmptyString => None
  | Some m => Some m
  | None => None
  end.

Definition log_batch_end (env : Env) (batch_number : Z) (status : Status)
    (rows_loaded : Z) (error_msg : option string) : M unit :=
  try_except
    (execute_sql env
       (UPDATE_EXECUTION_LOG batch_number status rows_loaded (error_clause error_msg)) ;;;
     ret tt)
    (fun _ => ret tt).

(** [pd.read_csv(csv_file, skiprows=range(1, start_row), nrows=end_row - start_row + 1)] *)
Definition read_csv (env : Env) (start_row end_row : Z) : M (list CSV.row) :=
  match csv_file env with
  | None => raise "No such file or directory"
  | Some rows =>
      ret (firstn (Z.to_nat (end_row - start_row + 1))
             (skipn (Z.to_nat (start_row - 1)) rows))
  end.

(** The type [read_csv] gives a column it types by itself: text as soon
    as one cell is neither a number nor empty (and for a frame without
    rows), int64 when every cell is an integer, float64 otherwise. *)
Definition is_word (c : Field) : bool :=
  match c with Word _ => true | _ => false end.

Definition is_integer (c : Field) : bool :=
  match c with Integer _ _ _ => true | _ => false end.

Definition dtype_of (column : list Field) : Dtype :=
  match column with
  | [] => object
  | _ :: _ =>
      if existsb is_word column then object
      else if forallb is_integer column then int64
      else float64
  end.

(** [str] of a value of such a column. *)
Definition str_of (dtype : Dtype) (c : Field) : option string :=
  match c with
  | Blank => None
  | Word raw => Some raw
  | Integer raw as_int as_float =>
      match dtype with
      | object => Some raw
      | int64 => Some as_int
      | float64 => Some as_float
      end
  | Decimal raw as_float =>
      match dtype with
      | object => Some raw
      | _ => Some as_float
      end
  end.

(** [pd.to_numeric(..., errors='coerce')] *)
Definition to_numeric {A} (c : Cell A) : option A :=
  match c with Parsed a => Some a | _ => None end.

(** The type of a converted column: int64 when every cell is an integer,
    float64 as soon as one cell is empty, coerced to NaN, or a decimal. *)
Definition is_int (c : Cell Z) : bool :=
  match c with Parsed _ => true | _ => false end.

Definition is_whole (c : Cell Q) : bool :=
  match c with Parsed q => Pos.eqb (Qden q) 1 | _ => false end.

Definition numeric_dtype {A} (integer : Cell A -> bool) (column : list (Cell A))
  : Dtype :=
  if forallb integer column then int64 else float64.

(** The format [pd.to_datetime] infers for a column (pandas 2): the
    format of its first cell that is not empty, if that cell is a date. *)
Fixpoint inferred_format (column : list Date_cell) : option string :=
  match column with
  | [] => None
  | No_date :: rest => inferred_format rest
  | Date format _ :: _ => Some format
  | Not_a_date _ :: _ => None
  end.

(** The types of the columns of the frame read from a window. *)
Definition read_dtypes (raw : list CSV.row) : Dtypes :=
  {| INVOICE_NO_dtype := dtype_of (map CSV.InvoiceNo raw);
     STOCK_CODE_dtype := dtype_of (map CSV.StockCode raw);
     QUANTITY_dtype := numeric_dtype is_int (map CSV.Quantity raw);
     UNIT_PRICE_dtype := numeric_dtype is_whole (map CSV.UnitPrice raw);
     INVOICE_DATE_format := inferred_format (map CSV.InvoiceDate raw) |}.

(** [pd.to_datetime(...)] on one cell of a column; the default is
    [errors='raise'].  With a format inferred the cell has to be written
    in it; without one every cell is parsed on its own. *)
Definition to_datetime (format : option string) (c : Date_cell)
  : Exception + option Z :=
  match c with
  | No_date => inr None
  | Date written t =>
      match format with
      | Some inferred =>
          if String.eqb written inferred then inr (Some t)
          else inl ("time data doesn't match format " ++ inferred)
      | None => inr (Some t)
      end
  | Not_a_date raw => inl ("Unknown datetime string format, unable to parse: " ++ raw)
  end.

(** Lines 114-117 on the rows of a frame of the given types: the date
    column is converted first and raises at the first cell it cannot
    read. *)
Fixpoint convert_rows (types : Dtypes) (df : list CSV.row) : Exception + list DF.row :=
  match df with
  | [] => inr []
  | r :: rest =>
      match to_datetime (INVOICE_DATE_format types) (CSV.InvoiceDate r) with
      | inl e => inl e
      | inr d =>
          match convert_rows types rest with
          | inl e => inl e
          | inr rest' =>
              inr ({| DF.INVOICE_NO := str_of (INVOICE_NO_dtype types) (CSV.InvoiceNo r);
                      DF.STOCK_CODE := str_of (STOCK_CODE_dtype types) (CSV.StockCode r);
                      DF.DESCRIPTION := CSV.Description r;
                      DF.QUANTITY := to_numeric (CSV.Quantity r);
                      DF.INVOICE_DATE := d;
                      DF.UNIT_PRICE := to_numeric (CSV.UnitPrice r);
                      DF.CUSTOMER_ID := to_numeric (CSV.CustomerID r);
                      DF.COUNTRY := CSV.Country r;
                      DF.dtypes := types |} :: rest')
          end
      end
  end.

(** Lines 93 and 114-117 on the window that was read. *)
Definition convert (raw : list CSV.row) : Exception + list DF.row :=
  convert_rows (read_dtypes raw) raw.

(** A frame row none of whose five required columns is missing. *)
Module CLEAN.
Record row : Type := {
  INVOICE_NO : string;
  STOCK_CODE : string;
  DESCRIPTION : option string;
  QUANTITY : Z;
  INVOICE_DATE : Z;
  UNIT_PRICE : Q;
  CUSTOMER_ID : option Z;
  COUNTRY : option string;
  dtypes : Dtypes
}.
End CLEAN.

(** [df.dropna(subset=['INVOICE_NO', 'STOCK_CODE', 'INVOICE_DATE',
    'QUANTITY', 'UNIT_PRICE'])] *)
Definition complete (r : DF.row) : option CLEAN.row :=
  match DF.INVOICE_NO r, DF.STOCK_CODE r, DF.INVOICE_DATE r,
        DF.QUANTITY r, DF.UNIT_PRICE r with
  | Some i, Some s, Some d, Some q, Some p =>
      Some {| CLEAN.INVOICE_NO := i; CLEAN.STOCK_CODE := s;
              CLEAN.DESCRIPTION := DF.DESCRIPTION r;
              CLEAN.QUANTITY := q; CLEAN.INVOICE_DATE := d;
              CLEAN.UNIT_PRICE := p;
              CLEAN.CUSTOMER_ID := DF.CUSTOMER_ID r;
              CLEAN.COUNTRY := DF.COUNTRY r;
              CLEAN.dtypes := DF.dtypes r |}
  | _, _, _, _, _ => None
  end.

Definition dropna (df : list DF.row) : list CLEAN.row :=
  flat_map (fun r => match complete r with Some c => [c] | None => [] end) df.

(** [df[df['QUANTITY'] != 0]] *)
Definition nonzero_quantity (r : CLEAN.row) : bool := negb (CLEAN.QUANTITY r =? 0)%Z.

(** A product of int64 values wraps around. *)
Definition int64_wrap (z : Z) : Z := (z + 2 ^ 63) mod 2 ^ 64 - 2 ^ 63.

(** [df['QUANTITY'] * df['UNIT_PRICE']] (line 134) for one row: int64
    arithmetic when both columns are int64, binary64 otherwise. *)
Definition multiply (env : Env) (types : Dtypes) (quantity : Z) (unit_price : Q) : Q :=
  match QUANTITY_dtype types, UNIT_PRICE_dtype types with
  | int64, int64 => inject_Z (int64_wrap (quantity * Qnum unit_price))
  | _, _ => float64_mul env quantity unit_price
  end.

(** Lines 128-134 together with the value preparation of the INSERT
    (lines 166-182): a description that reads [NULL] is stored as NULL, a
    missing country as the text [nan].  [ordinal] is the element of
    [range(start_row, start_row + len(df))] at the row's position. *)
Definition staged (env : Env) (batch_number ordinal : Z) (r : CLEAN.row) : STAGING.row :=
  {| STAGING.INVOICE_NO := CLEAN.INVOICE_NO r;
     STAGING.STOCK_CODE := CLEAN.STOCK_CODE r;
     STAGING.DESCRIPTION :=
       match CLEAN.DESCRIPTION r with
       | Some d => if String.eqb d "NULL" then None else Some d
       | None => None
       end;
     STAGING.QUANTITY := CLEAN.QUANTITY r;
     STAGING.INVOICE_DATE := CLEAN.INVOICE_DATE r;
     STAGING.UNIT_PRICE := CLEAN.UNIT_PRICE r;
     STAGING.CUSTOMER_ID := CLEAN.CUSTOMER_ID r;
     STAGING.COUNTRY :=
       match CLEAN.COUNTRY r with Some c => c | None => "nan" end;
     STAGING.LOAD_TIMESTAMP := now env;
     STAGING.FILE_NAME := "online_retail_batch_" ++ str batch_number ++ ".csv";
     STAGING.ROW_NUMBER_IN_FILE := ordinal;
     STAGING.DATA_SOURCE := batch_tag batch_number;
     STAGING.HAS_MISSING_CUSTOMER_ID :=
       match CLEAN.CUSTOMER_ID r with None => true | Some _ => false end;
     STAGING.IS_RETURN := (CLEAN.QUANTITY r <? 0)%Z;
     STAGING.TOTAL_AMOUNT :=
       multiply env (CLEAN.dtypes r) (CLEAN.QUANTITY r) (CLEAN.UNIT_PRICE r) |}.

Fixpoint add_metadata (env : Env) (batch_number ordinal : Z) (df : list CLEAN.row)
  : list STAGING.row :=
  match df with
  | [] => []
  | r :: rest =>
      staged env batch_number ordinal r
      :: add_metadata env batch_number (ordinal + 1) rest
  end.

(** Line 144: the key column is built by string concatenation on the two
    key columns, which raises unless pandas holds both as text; on a frame
    without rows only the first operand decides. *)
Definition key_column (types : Dtypes) (df : list STAGING.row)
  : Exception + list string :=
  match INVOICE_NO_dtype types with
  | object =>
      match STOCK_CODE_dtype types, df with
      | object, _ => inr (map TRANSACTION_KEY df)
      | _, [] => inr []
      | _, _ :: _ => inl "can only concatenate str (not int) to str"
      end
  | _ => inl "unsupported operand type(s) for +: 'int' and 'str'"
  end.

(** [df[~df['TRANSACTION_KEY'].isin(existing_keys)]] *)
Definition not_staged_yet (existing_keys : list string) (r : STAGING.row) : bool :=
  negb (existsb (String.eqb (TRANSACTION_KEY r)) existing_keys).

(** The loop of lines 163-203: a row whose INSERT fails is skipped. *)
Fixpoint insert_rows (env : Env) (df : list STAGING.row) (loaded_count : Z) : M Z :=
  match df with
  | [] => ret loaded_count
  | row :: rest =>
      loaded_count' <-
        try_except
          (execute_sql env (INSERT_STAGING row) ;;; ret (loaded_count + 1))
          (fun _ => ret loaded_count) ;;
      insert_rows env rest loaded_count'
  end.

Definition lift {A} (r : Exception + A) : M A :=
  match r with inl e => raise e | inr a => ret a end.

(** The rows of a window after cleaning, with their ordinals. *)
Definition candidates (env : Env) (batch_number start_row : Z) (df : list DF.row)
  : list STAGING.row :=
  add_metadata env batch_number start_row (filter nonzero_quantity (dropna df)).

(** The body of the outer [try] of [load_batch_to_staging]. *)
Definition load_batch (env : Env) (batch_number start_row end_row : Z) : M Z :=
  raw <- read_csv env start_row end_row ;;
  match raw with
  | [] => ret 0
  | _ :: _ =>
      df <- lift (convert raw) ;;
      let df := candidates env batch_number start_row df in
      existing_transactions <- execute_sql env SELECT_TRANSACTION_KEYS ;;
      df <-
        match existing_transactions with
        | Some (Keys (k :: ks)) =>
            lift (key_column (read_dtypes raw) df) ;;;
            ret (filter (not_staged_yet (k :: ks)) df)
        | _ => ret df
        end ;;
      match df with
      | [] => ret 0
      | _ :: _ => insert_rows env df 0
      end
  end.

Definition load_batch_to_staging (env : Env) (batch_number start_row end_row : Z)
  : M Z :=
  try_except (load_batch env batch_number start_row end_row) (fun _ => ret 0).

Definition update_dimensions_incremental (env : Env) (batch_number : Z) : M unit :=
  try_except
    (execute_sql env MERGE_PRODUCTS ;;;
     execute_sql env MERGE_CUSTOMERS ;;;
     execute_sql env UPDATE_CUSTOMER_SEGMENTS ;;;
     execute_sql env MERGE_COUNTRIES ;;;
     ret tt)
    (fun e => raise e).

Definition append_to_transactions_fact (env : Env) (batch_number : Z) : M unit :=
  try_except
    (execute_sql env (INSERT_TRANSACTIONS batch_number) ;;; ret tt)
    (fun e => raise e).

(** [result.iloc[0, 0] if result is not None else 0] *)
Definition first_cell (result : option DataFrame) : Z :=
  match result with
  | Some (Scalar (Some v)) => v
  | _ => 0
  end.

(** The dictionary of counts; the empty list is [{}]. *)
Definition get_data_summary (env : Env) : M (list (Table * Z)) :=
  try_except
    (staging_count <- execute_sql env (SELECT_COUNT T_STAGING) ;;
     transactions_count <- execute_sql env (SELECT_COUNT T_TRANSACTIONS) ;;
     products_count <- execute_sql env (SELECT_COUNT T_PRODUCTS) ;;
     customers_count <- execute_sql env (SELECT_COUNT T_CUSTOMERS) ;;
     countries_count <- execute_sql env (SELECT_COUNT T_COUNTRIES) ;;
     ret [ (T_STAGING, first_cell staging_count);
           (T_TRANSACTIONS, first_cell transactions_count);
           (T_PRODUCTS, first_cell products_count);
           (T_CUSTOMERS, first_cell customers_count);
           (T_COUNTRIES, first_cell countries_count) ])
    (fun _ => ret []).

Record BatchWindow : Type := {
  batch_number_of : Z;
  start_row_of : Z;
  end_row_of : Z
}.

(** Lines 424-429. *)
Definition resolve_window (env : Env) (batch_number : option Z) : M BatchWindow :=
  batch_number <-
    match batch_number with
    | None =>
        last_row <- get_last_processed_row env ;;
        ret (last_row / batch_size + 1)
    | Some n => ret n
    end ;;
  ret {| batch_number_of := batch_number;
         start_row_of := (batch_number - 1) * batch_size + 1;
         end_row_of := batch_number * batch_size |}.

(** The steps of the [try] block after the window is known. *)
Definition run_steps (env : Env) (batch_number start_row end_row : Z) : M bool :=
  before_summary <- get_data_summary env ;;
  log_batch_start env batch_number start_row end_row ;;;
  loaded_count <- load_batch_to_staging env batch_number start_row end_row ;;
  if (loaded_count =? 0)%Z then
    log_batch_end env batch_number COMPLETED 0 (Some "No new data to load") ;;;
    ret false
  else
    update_dimensions_incremental env batch_number ;;;
    append_to_transactions_fact env batch_number ;;;
    log_batch_end env batch_number COMPLETED loaded_count None ;;;
    after_summary <- get_data_summary env ;;
    ret true.

(** Resolving the window cannot raise ([get_last_processed_row] catches
    everything), so the handler always sees the resolved number. *)
Definition run_incremental_batch (env : Env) (batch_number : option Z) : M bool :=
  window <- resolve_window env batch_number ;;
  let batch_number := batch_number_of window in
  try_except
    (run_steps env batch_number (start_row_of window) (end_row_of window))
    (fun e => log_batch_end env batch_number FAILED 0 (Some e) ;;; ret false).

(** The command line: [--batch], [--next], [--status], and what is typed
    at the prompt of the interactive mode ([None]: just Enter). *)
Record Args : Type := {
  batch : option Z;
  next : bool;
  status : bool;
  batch_input : option Z
}.

Definition main (env : Env) (args : Args) : M bool :=
  if status args then
    summary <- get_data_summary env ;;
    last_row <- get_last_processed_row env ;;
    ret true
  else
    batch_number <-
      (if next args then ret None
       else
         match batch args with
         | Some (Zpos _ as b) | Some (Zneg _ as b) => ret (Some b)
         | _ =>
             summary <- get_data_summary env ;;
             last_row <- get_last_processed_row env ;;
             let suggested_batch := last_row / 1000 + 1 in
             ret (Some match batch_input args with
                       | Some b => b
                       | None => suggested_batch
                       end)
         end) ;;
    run_incremental_batch env batch_number.


(* ================================================================== *)
(** * Properties                                                       *)
(* ================================================================== *)

(* ------------------------------------------------------------------ *)
(** ** What each method does to the store                              *)
(* ------------------------------------------------------------------ *)

Lemma with_staging_same (w : Warehouse) :
  with_staging (ONLINE_RETAIL_STAGING w) w = w.
Proof. destruct w; reflexivity. Qed.

Lemma with_log_same (w : Warehouse) :
  with_log (PIPELINE_EXECUTION_LOG w) w = w.
Proof. destruct w; reflexivity. Qed.

Lemma execute_sql_ok (env : Env) (q : Sql) (w : Warehouse) :
  sql_error env q = None ->
  execute_sql env q w = (inr (fst (run_sql (now env) q w)), snd (run_sql (now env) q w)).
Proof.
  intros H. unfold execute_sql. rewrite H.
  destruct (run_sql (now env) q w); reflexivity.
Qed.

Lemma execute_sql_raises (env : Env) (q : Sql) (w : Warehouse) (e : Exception) :
  sql_error env q = Some e -> execute_sql env q w = (inl e, w).
Proof. intros H. unfold execute_sql. rewrite H. reflexivity. Qed.

(** Unfolds the monad and splits on whether each statement is refused. *)
Ltac step_sql :=
  repeat match goal with
         | |- context [sql_error ?env ?q] =>
             let E := fresh "E" in destruct (sql_error env q) eqn:E; cbn
         end.

Ltac run_monad :=
  unfold bind, try_except, ret, raise, execute_sql; cbn; step_sql.

(** The high-water mark as [get_last_processed_row] reports it. *)
Definition last_processed (env : Env) (w : Warehouse) : Z :=
  match sql_error env SELECT_MAX_ROW_NUMBER_IN_FILE with
  | Some _ => 0
  | None => match max_row_number w with Some m => m | None => 0 end
  end.

Lemma get_last_processed_row_spec (env : Env) (w : Warehouse) :
  get_last_processed_row env w = (inr (last_processed env w), w).
Proof.
  unfold get_last_processed_row, last_processed. run_monad; try reflexivity.
  destruct (max_row_number w); reflexivity.
Qed.

Lemma get_data_summary_spec (env : Env) (w : Warehouse) :
  exists summary, get_data_summary env w = (inr summary, w).
Proof. unfold get_data_summary. run_monad; eexists; reflexivity. Qed.

Definition written (env : Env) (q : Sql) (w : Warehouse) : Warehouse :=
  match sql_error env q with
  | Some _ => w
  | None => snd (run_sql (now env) q w)
  end.

Lemma log_batch_start_spec (env : Env) (n s e : Z) (w : Warehouse) :
  log_batch_start env n s e w = (inr tt, written env (INSERT_EXECUTION_LOG n s e) w).
Proof. unfold log_batch_start, written. run_monad; reflexivity. Qed.

Lemma log_batch_end_spec (env : Env) (n : Z) (st : Status) (rows : Z)
    (msg : option string) (w : Warehouse) :
  log_batch_end env n st rows msg w
  = (inr tt, written env (UPDATE_EXECUTION_LOG n st rows (error_clause msg)) w).
Proof. unfold log_batch_end, written. run_monad; reflexivity. Qed.

Lemma resolve_window_spec (env : Env) (batch_number : option Z) (w : Warehouse) :
  let n := match batch_number with
           | Some n => n
           | None => last_processed env w / batch_size + 1
           end in
  resolve_window env batch_number w
  = (inr {| batch_number_of := n;
            start_row_of := (n - 1) * batch_size + 1;
            end_row_of := n * batch_size |}, w).
Proof.
  destruct batch_number; cbn; unfold resolve_window, bind, ret; cbn.
  - reflexivity.
  - rewrite get_last_processed_row_spec. reflexivity.
Qed.

(** *** The staging load *)

Definition insertable (env : Env) (r : STAGING.row) : bool :=
  match sql_error env (INSERT_STAGING r) with None => true | Some _ => false end.

Lemma insert_rows_spec (env : Env) (df : list STAGING.row) :
  forall (c : Z) (w : Warehouse),
    insert_rows env df c w
    = (inr (c + Z.of_nat (List.length (filter (insertable env) df))),
       with_staging (ONLINE_RETAIL_STAGING w ++ filter (insertable env) df)%list w).
Proof.
  induction df as [|r rest IH]; intros c w; cbn [insert_rows filter].
  - cbn. rewrite Z.add_0_r, app_nil_r, with_staging_same. reflexivity.
  - unfold bind at 1. unfold try_except, bind, ret, execute_sql, insertable.
    destruct (sql_error env (INSERT_STAGING r)) eqn:E; cbn [run_sql].
    + apply IH.
    + rewrite IH. cbn [ONLINE_RETAIL_STAGING with_staging List.length].
      rewrite <- app_assoc. cbn [app]. unfold insertable.
      f_equal. f_equal. lia.
Qed.

(** The rows of the source extract that fall in a window. *)
Definition window_rows (csv : list CSV.row) (start_row end_row : Z) : list CSV.row :=
  firstn (Z.to_nat (end_row - start_row + 1)) (skipn (Z.to_nat (start_row - 1)) csv).

(** The key of line 144 is needed, because staging holds keys, and it
    cannot be built. *)
Definition key_fails (types : Dtypes) (existing_keys : list string)
    (df : list STAGING.row) : bool :=
  match existing_keys, key_column types df with
  | _ :: _, inl _ => true
  | _, _ => false
  end.

(** The rows a load appends to a staging table that holds [staging]. *)
Definition new_rows (env : Env) (n start_row end_row : Z)
    (staging : list STAGING.row) : list STAGING.row :=
  match csv_file env with
  | None => []
  | Some csv =>
      match convert (window_rows csv start_row end_row) with
      | inl _ => []
      | inr df =>
          match sql_error env SELECT_TRANSACTION_KEYS with
          | Some _ => []
          | None =>
              let existing_keys := SQL.distinct String.eqb (map TRANSACTION_KEY staging) in
              if key_fails (read_dtypes (window_rows csv start_row end_row))
                   existing_keys (candidates env n start_row df)
              then []
              else
                filter (insertable env)
                  (filter (not_staged_yet existing_keys)
                     (candidates env n start_row df))
          end
      end
  end.

Lemma filter_all {A} (f : A -> bool) (l : list A) :
  (forall a, f a = true) -> filter f l = l.
Proof.
  intros H. induction l as [|a l IH]; cbn; [reflexivity|].
  rewrite H, IH. reflexivity.
Qed.

Lemma insert_rows_nil (env : Env) (w : Warehouse) :
  insert_rows env [] 0 w = (inr 0, w).
Proof. reflexivity. Qed.

(** The body of the load, statement by statement. *)
Lemma load_batch_eq (env : Env) (n s e : Z) (w : Warehouse) :
  load_batch env n s e w
  = match csv_file env with
    | None => (inl "No such file or directory", w)
    | Some csv =>
        match window_rows csv s e with
        | [] => (inr 0, w)
        | r0 :: raw =>
            match convert (r0 :: raw) with
            | inl x => (inl x, w)
            | inr df =>
                match sql_error env SELECT_TRANSACTION_KEYS with
                | Some x => (inl x, w)
                | None =>
                    match transaction_keys w,
                          key_column (read_dtypes (r0 :: raw)) (candidates env n s df) with
                    | _ :: _, inl x => (inl x, w)
                    | _, _ =>
                        insert_rows env
                          (filter (not_staged_yet (transaction_keys w))
                             (candidates env n s df)) 0 w
                    end
                end
            end
        end
    end.
Proof.
  unfold load_batch, read_csv, window_rows.
  destruct (csv_file env) as [csv|]; [|reflexivity].
  unfold bind at 1. unfold ret at 1.
  destruct (firstn _ _) as [|r0 raw]; [reflexivity|].
  cbv iota beta.
  destruct (convert (r0 :: raw)) as [x|df]; [reflexivity|].
  unfold lift at 1. unfold bind at 1. unfold ret at 1.
  unfold bind at 1. unfold execute_sql.
  destruct (sql_error env SELECT_TRANSACTION_KEYS) as [x|]; [reflexivity|].
  cbn [run_sql].
  set (keys := transaction_keys w).
  set (df' := candidates _ _ _ _).
  set (types := read_dtypes _).
  destruct keys as [|k ks].
  - unfold bind at 1. unfold ret at 1.
    replace (filter (not_staged_yet []) df') with df'
      by (symmetry; apply filter_all; reflexivity).
    destruct (key_column types df'); destruct df'; reflexivity.
  - unfold bind at 1. unfold bind at 1. unfold lift.
    destruct (key_column types df') as [x|keys]; [reflexivity|].
    unfold ret at 1. unfold ret at 1.
    destruct (filter (not_staged_yet (k :: ks)) df'); reflexivity.
Qed.

(** The body either raises before it wrote anything, or appends exactly
    [new_rows] and returns their number. *)
Lemma load_batch_cases (env : Env) (n s e : Z) (w : Warehouse) :
  let rows := new_rows env n s e (ONLINE_RETAIL_STAGING w) in
  (exists x, load_batch env n s e w = (inl x, w) /\ rows = [])
  \/ load_batch env n s e w
     = (inr (Z.of_nat (List.length rows)),
        with_staging (ONLINE_RETAIL_STAGING w ++ rows)%list w).
Proof.
  cbn zeta. rewrite load_batch_eq. unfold new_rows, key_fails.
  fold (transaction_keys w).
  assert (Hnil : (inr 0, w)
                 = (@inr Exception Z (Z.of_nat (@List.length STAGING.row [])),
                    with_staging (ONLINE_RETAIL_STAGING w ++ [])%list w)).
  { cbn. rewrite app_nil_r, with_staging_same. reflexivity. }
  destruct (csv_file env) as [csv|].
  2:{ left. eexists. split; reflexivity. }
  destruct (window_rows csv s e) as [|r0 raw].
  { right. cbn [convert convert_rows candidates dropna flat_map filter add_metadata].
    destruct (sql_error env SELECT_TRANSACTION_KEYS); [exact Hnil|].
    destruct (transaction_keys w); [exact Hnil|].
    destruct (key_column _ _); exact Hnil. }
  destruct (convert (r0 :: raw)) as [x|df].
  { left. exists x. split; reflexivity. }
  destruct (sql_error env SELECT_TRANSACTION_KEYS) as [x|].
  { left. exists x. split; reflexivity. }
  destruct (transaction_keys w) as [|k ks] eqn:Ek.
  { right. rewrite insert_rows_spec, Z.add_0_l. reflexivity. }
  destruct (key_column _ _) as [x|keys].
  { left. exists x. split; reflexivity. }
  right. rewrite insert_rows_spec, Z.add_0_l. reflexivity.
Qed.

Lemma load_batch_to_staging_spec (env : Env) (n s e : Z) (w : Warehouse) :
  let rows := new_rows env n s e (ONLINE_RETAIL_STAGING w) in
  load_batch_to_staging env n s e w
  = (inr (Z.of_nat (List.length rows)),
     with_staging (ONLINE_RETAIL_STAGING w ++ rows)%list w).
Proof.
  cbn zeta. unfold load_batch_to_staging, try_except.
  destruct (load_batch_cases env n s e w) as [(x & Hx & Hnil)|H].
  - rewrite Hx, Hnil. cbn. rewrite app_nil_r, with_staging_same. reflexivity.
  - rewrite H. reflexivity.
Qed.

(** *** Aggregation and publication leave staging and the log alone *)

Lemma update_dimensions_frame (env : Env) (n : Z) (w : Warehouse) :
  let w' := store (update_dimensions_incremental env n) w in
  ONLINE_RETAIL_STAGING w' = ONLINE_RETAIL_STAGING w
  /\ PIPELINE_EXECUTION_LOG w' = PIPELINE_EXECUTION_LOG w
  /\ TRANSACTIONS w' = TRANSACTIONS w.
Proof.
  unfold store, update_dimensions_incremental. run_monad; repeat split; reflexivity.
Qed.

Lemma append_to_transactions_frame (env : Env) (n : Z) (w : Warehouse) :
  let w' := store (append_to_transactions_fact env n) w in
  ONLINE_RETAIL_STAGING w' = ONLINE_RETAIL_STAGING w
  /\ PIPELINE_EXECUTION_LOG w' = PIPELINE_EXECUTION_LOG w
  /\ PRODUCTS w' = PRODUCTS w
  /\ CUSTOMERS w' = CUSTOMERS w
  /\ COUNTRIES w' = COUNTRIES w.
Proof.
  unfold store, append_to_transactions_fact. run_monad; repeat split; reflexivity.
Qed.

Lemma written_log_frame (env : Env) (q : Sql) (w : Warehouse) :
  (exists n s e, q = INSERT_EXECUTION_LOG n s e)
  \/ (exists n st rows err, q = UPDATE_EXECUTION_LOG n st rows err) ->
  let w' := written env q w in
  ONLINE_RETAIL_STAGING w' = ONLINE_RETAIL_STAGING w
  /\ PRODUCTS w' = PRODUCTS w
  /\ CUSTOMERS w' = CUSTOMERS w
  /\ COUNTRIES w' = COUNTRIES w
  /\ TRANSACTIONS w' = TRANSACTIONS w.
Proof.
  intros [(n & s & e & ->)|(n & st & rows & err & ->)]; unfold written;
    destruct (sql_error env _); repeat split; reflexivity.
Qed.

(** *** One run, step by step *)

(** The batch number a run works on. *)
Definition resolved (env : Env) (batch_number : option Z) (w : Warehouse) : Z :=
  match batch_number with
  | Some n => n
  | None => last_processed env w / batch_size + 1
  end.

Definition start_row (n : Z) : Z := (n - 1) * batch_size + 1.
Definition end_row (n : Z) : Z := n * batch_size.

(** The store after the start of the attempt is logged, and after the
    staging load. *)
Definition after_log_start (env : Env) (n : Z) (w : Warehouse) : Warehouse :=
  written env (INSERT_EXECUTION_LOG n (start_row n) (end_row n)) w.

Definition after_load (env : Env) (n : Z) (w : Warehouse) : Warehouse :=
  let w0 := after_log_start env n w in
  with_staging
    (ONLINE_RETAIL_STAGING w0
     ++ new_rows env n (start_row n) (end_row n) (ONLINE_RETAIL_STAGING w0))%list w0.

Definition loaded (env : Env) (n : Z) (w : Warehouse) : Z :=
  Z.of_nat (List.length (new_rows env n (start_row n) (end_row n)
                           (ONLINE_RETAIL_STAGING (after_log_start env n w)))).

Lemma run_incremental_batch_eq (env : Env) (batch_number : option Z) (w : Warehouse) :
  let n := resolved env batch_number w in
  let failed x w' :=
    (@inr Exception bool false,
     written env (UPDATE_EXECUTION_LOG n FAILED 0 (error_clause (Some x))) w') in
  run_incremental_batch env batch_number w
  = if (loaded env n w =? 0)%Z then
      (inr false,
       written env
         (UPDATE_EXECUTION_LOG n COMPLETED 0 (Some "No new data to load"))
         (after_load env n w))
    else
      match update_dimensions_incremental env n (after_load env n w) with
      | (inl x, w2) => failed x w2
      | (inr _, w2) =>
          match append_to_transactions_fact env n w2 with
          | (inl x, w3) => failed x w3
          | (inr _, w3) =>
              (inr true,
               written env (UPDATE_EXECUTION_LOG n COMPLETED (loaded env n w) None) w3)
          end
      end.
Proof.
  cbn zeta. unfold run_incremental_batch.
  unfold bind at 1. rewrite resolve_window_spec. fold (resolved env batch_number w).
  set (n := resolved env batch_number w).
  cbn [batch_number_of start_row_of end_row_of].
  fold (start_row n) (end_row n).
  unfold try_except, run_steps.
  unfold bind at 1.
  destruct (get_data_summary_spec env w) as [before ->].
  unfold bind at 1. rewrite log_batch_start_spec. fold (after_log_start env n w).
  unfold bind at 1. rewrite load_batch_to_staging_spec.
  fold (after_load env n w) (loaded env n w).
  destruct (loaded env n w =? 0)%Z.
  - unfold bind. rewrite log_batch_end_spec. reflexivity.
  - unfold bind at 1.
    destruct (update_dimensions_incremental env n (after_load env n w)) as [[x|[]] w2].
    + unfold bind. rewrite log_batch_end_spec. reflexivity.
    + unfold bind at 1.
      destruct (append_to_transactions_fact env n w2) as [[x|[]] w3].
      * unfold bind. rewrite log_batch_end_spec. reflexivity.
      * unfold bind at 1. rewrite log_batch_end_spec.
        unfold bind at 1.
        destruct (get_data_summary_spec env
                    (written env (UPDATE_EXECUTION_LOG n COMPLETED (loaded env n w)
                                    (error_clause None)) w3)) as [after ->].
        reflexivity.
Qed.

(** *** [MAX] returns the greatest value *)

Lemma non_null_map_Some {A B} (f : A -> B) (l : list A) :
  SQL.non_null (map (fun a => Some (f a)) l) = map f l.
Proof.
  unfold SQL.non_null. induction l as [|a l IH]; cbn; [reflexivity|].
  f_equal. exact IH.
Qed.

Lemma fold_pick_In {A} (first : A -> A -> bool) (vs : list A) :
  forall v, In (fold_left (fun a b => if first a b then a else b) vs v) (v :: vs).
Proof.
  induction vs as [|b vs IH]; intros v; cbn [fold_left].
  - left. reflexivity.
  - destruct (IH (if first v b then v else b)) as [H|H].
    + destruct (first v b); [left|right; left]; exact H.
    + right. right. exact H.
Qed.

Lemma fold_max_upper (vs : list Z) :
  forall v,
    let m := fold_left (fun a b => if Z.geb a b then a else b) vs v in
    v <= m /\ forall x, In x vs -> x <= m.
Proof.
  induction vs as [|b vs IH]; intros v; cbn [fold_left].
  - split; [lia|]. intros x [].
  - destruct (IH (if Z.geb v b then v else b)) as [H1 H2].
    assert (Hv : v <= (if Z.geb v b then v else b)
                 /\ b <= (if Z.geb v b then v else b)).
    { rewrite Z.geb_leb. destruct (Z.leb_spec b v); lia. }
    split; [lia|]. intros x [<-|Hx]; [lia|]. apply H2, Hx.
Qed.

Lemma MAX_Z_spec (l : list Z) (m : Z) :
  SQL.MAX_Z (map (fun x => Some x) l) = Some m ->
  In m l /\ forall x, In x l -> x <= m.
Proof.
  unfold SQL.MAX_Z, SQL.pick.
  rewrite (non_null_map_Some (fun x : Z => x)), map_id.
  destruct l as [|v vs]; [discriminate|]. intros [= <-]. split.
  - apply fold_pick_In.
  - destruct (fold_max_upper vs v) as [H1 H2].
    intros x [<-|Hx]; [exact H1 | exact (H2 x Hx)].
Qed.

Lemma MAX_Z_none (l : list Z) :
  SQL.MAX_Z (map (fun x => Some x) l) = None -> l = [].
Proof.
  unfold SQL.MAX_Z, SQL.pick.
  rewrite (non_null_map_Some (fun x : Z => x)), map_id.
  destruct l; [reflexivity|discriminate].
Qed.

Lemma MAX_Z_last (l : list Z) (x : Z) :
  (forall y, In y l -> y < x) ->
  SQL.MAX_Z (map (fun x => Some x) (l ++ [x])) = Some x.
Proof.
  intros Hlt.
  destruct (SQL.MAX_Z (map (fun x => Some x) (l ++ [x]))) as [m|] eqn:E.
  - apply MAX_Z_spec in E. destruct E as [Hin Hup].
    apply in_app_or in Hin. destruct Hin as [Hin|[->|[]]]; [|reflexivity].
    specialize (Hlt m Hin).
    assert (Hx : In x (l ++ [x])) by (apply in_or_app; right; left; reflexivity).
    specialize (Hup x Hx). lia.
  - apply MAX_Z_none in E. destruct l; discriminate.
Qed.

(** *** An attempt's entry in the execution log *)

Definition started_entry (now n : Z) : LOG.row :=
  {| LOG.PIPELINE_NAME := "INCREMENTAL_ETL";
     LOG.PIPELINE_VERSION := "1.0";
     LOG.EXECUTION_TYPE := execution_type n;
     LOG.STATUS := RUNNING;
     LOG.EXECUTED_BY := "ETL_PIPELINE";
     LOG.ROWS_PROCESSED := end_row n - start_row n + 1;
     LOG.ROWS_INSERTED := None;
     LOG.ERROR_MESSAGE := None;
     LOG.START_TIME := now;
     LOG.END_TIME := None;
     LOG.EXECUTION_CONTEXT := (n, start_row n, end_row n) |}.

Definition finished_entry (now n : Z) (st : Status) (rows : Z)
    (message : option string) : LOG.row :=
  {| LOG.PIPELINE_NAME := "INCREMENTAL_ETL";
     LOG.PIPELINE_VERSION := "1.0";
     LOG.EXECUTION_TYPE := execution_type n;
     LOG.STATUS := st;
     LOG.EXECUTED_BY := "ETL_PIPELINE";
     LOG.ROWS_PROCESSED := end_row n - start_row n + 1;
     LOG.ROWS_INSERTED := Some rows;
     LOG.ERROR_MESSAGE := message;
     LOG.START_TIME := now;
     LOG.END_TIME := Some now;
     LOG.EXECUTION_CONTEXT := (n, start_row n, end_row n) |}.

(** Every earlier attempt at batch [n] started before [now]. *)
Definition clock_ahead (now n : Z) (log : list LOG.row) : Prop :=
  forall entry, In entry log -> of_batch n entry = true -> LOG.START_TIME entry < now.

Lemma of_batch_started (now n : Z) : of_batch n (started_entry now n) = true.
Proof.
  unfold of_batch, started_entry; cbn [LOG.PIPELINE_NAME LOG.EXECUTION_TYPE].
  rewrite !String.eqb_refl. reflexivity.
Qed.

Lemma latest_start_after_insert (now n : Z) (log : list LOG.row) :
  clock_ahead now n log ->
  latest_start n (log ++ [started_entry now n]) = Some now.
Proof.
  intros Hclock. unfold latest_start.
  rewrite filter_app. cbn [filter]. rewrite of_batch_started.
  rewrite map_app. cbn [map].
  change (LOG.START_TIME (started_entry now n)) with now.
  rewrite <- (map_map LOG.START_TIME (fun x => Some x)).
  change [Some now] with (map (fun x : Z => Some x) [now]).
  rewrite <- map_app. apply MAX_Z_last.
  intros y Hy. apply in_map_iff in Hy. destruct Hy as (entry & <- & Hin).
  apply filter_In in Hin. destruct Hin as [Hin Hof]. apply Hclock; assumption.
Qed.

Lemma log_roundtrip (now n : Z) (st : Status) (rows : Z) (clause : option string)
    (w : Warehouse) :
  clock_ahead now n (PIPELINE_EXECUTION_LOG w) ->
  log_update now n st rows clause (log_insert now n (start_row n) (end_row n) w)
  = with_log (PIPELINE_EXECUTION_LOG w ++ [finished_entry now n st rows clause])%list w.
Proof.
  intros Hclock. unfold log_update, log_insert.
  cbn [PIPELINE_EXECUTION_LOG with_log].
  fold (started_entry now n). unfold default_timestamp.
  fold (started_entry now n).
  rewrite (latest_start_after_insert now n _ Hclock).
  rewrite map_app. cbn [map]. rewrite of_batch_started.
  cbn [started_entry LOG.STATUS LOG.START_TIME is_running andb].
  rewrite Z.eqb_refl.
  replace (map _ (PIPELINE_EXECUTION_LOG w)) with (PIPELINE_EXECUTION_LOG w).
  - unfold with_log; cbn. destruct clause; reflexivity.
  - symmetry. rewrite <- (map_id (PIPELINE_EXECUTION_LOG w)) at 2.
    apply map_ext_in. intros entry Hin.
    destruct (of_batch n entry) eqn:Hof; [|reflexivity].
    specialize (Hclock entry Hin Hof).
    destruct (Z.eqb_spec (LOG.START_TIME entry) now); [lia|].
    rewrite andb_false_r. reflexivity.
Qed.

(* ------------------------------------------------------------------ *)
(** ** Transaction keys                                                *)
(* ------------------------------------------------------------------ *)

Module Key.

(** No underscore occurs in the string. *)
Fixpoint plain (s : string) : Prop :=
  match s with
  | EmptyString => True
  | String c s' => c <> "_"%char /\ plain s'
  end.

Lemma not_plain_app (p d : string) : ~ plain (p ++ String "_" d).
Proof.
  induction p as [|c p IH]; cbn.
  - intros [H _]. apply H. reflexivity.
  - intros [_ H]. exact (IH H).
Qed.

(** The text after the last underscore is determined by the whole. *)
Lemma suffix_unique (p1 : string) :
  forall p2 d1 d2,
    p1 ++ String "_" d1 = p2 ++ String "_" d2 ->
    plain d1 -> plain d2 -> d1 = d2.
Proof.
  induction p1 as [|c1 p1 IH]; intros [|c2 p2] d1 d2 E H1 H2; cbn in E.
  - injection E as E. exact E.
  - injection E as _ E. subst d1. destruct (not_plain_app _ _ H1).
  - injection E as _ E. subst d2. destruct (not_plain_app _ _ H2).
  - injection E as _ E. exact (IH _ _ _ E H1 H2).
Qed.

Lemma plain_digits (d : Decimal.uint) : plain (NilEmpty.string_of_uint d).
Proof.
  induction d; cbn; try exact I; (split; [discriminate | assumption]).
Qed.

Lemma plain_uint (d : Decimal.uint) : plain (NilZero.string_of_uint d).
Proof.
  destruct d; try apply plain_digits. cbn. split; [discriminate | exact I].
Qed.

Lemma plain_str (z : Z) : plain (str z).
Proof.
  unfold str. destruct (Z.to_int z) as [d|d]; cbn.
  - apply plain_uint.
  - split; [discriminate | apply plain_uint].
Qed.

Lemma to_int_proper (z : Z) :
  Z.to_int z <> Decimal.Pos Decimal.Nil /\ Z.to_int z <> Decimal.Neg Decimal.Nil.
Proof.
  destruct z as [|p|p]; cbn; split; try discriminate;
    intros [= E]; exact (Unsigned.to_uint_nonnil p E).
Qed.

Lemma str_inj (z1 z2 : Z) : str z1 = str z2 -> z1 = z2.
Proof.
  unfold str. intros E.
  rewrite <- (DecimalZ.of_to z1), <- (DecimalZ.of_to z2). f_equal.
  destruct (to_int_proper z1) as [P1 N1], (to_int_proper z2) as [P2 N2].
  pose proof (NilZero.isi _ P1 N1) as I1.
  pose proof (NilZero.isi _ P2 N2) as I2.
  rewrite E in I1. congruence.
Qed.

(** Rows with the same key have the same ordinal. *)
Lemma same_ordinal (r1 r2 : STAGING.row) :
  TRANSACTION_KEY r1 = TRANSACTION_KEY r2 ->
  STAGING.ROW_NUMBER_IN_FILE r1 = STAGING.ROW_NUMBER_IN_FILE r2.
Proof.
  unfold TRANSACTION_KEY. intros E. apply str_inj.
  assert (assoc : forall a b c : string, (a ++ b) ++ c = a ++ (b ++ c)).
  { intros a b c. induction a as [|x a IH]; cbn; [reflexivity|].
    rewrite IH. reflexivity. }
  assert (A : forall a b c : string, a ++ "_" ++ b ++ "_" ++ c
                                     = (a ++ "_" ++ b) ++ String "_" c).
  { intros a b c. rewrite !assoc. reflexivity. }
  rewrite !A in E.
  exact (suffix_unique _ _ _ _ E (plain_str _) (plain_str _)).
Qed.

End Key.

(** [SELECT DISTINCT] keeps exactly the values that occur. *)
Lemma distinct_In (l : list string) (x : string) :
  In x (SQL.distinct String.eqb l) <-> In x l.
Proof.
  induction l as [|a l IH]; cbn; [tauto|].
  rewrite filter_In, IH. split.
  - intros [H|[H _]]; auto.
  - intros [H|H]; [auto|].
    destruct (String.eqb_spec a x) as [E|E]; [left; exact E|].
    right. split; [exact H|reflexivity].
Qed.

Lemma not_staged_yet_spec (staging : list STAGING.row) (r : STAGING.row) :
  not_staged_yet (SQL.distinct String.eqb (map TRANSACTION_KEY staging)) r = true
  <-> ~ In (TRANSACTION_KEY r) (map TRANSACTION_KEY staging).
Proof.
  unfold not_staged_yet. rewrite negb_true_iff, <- distinct_In.
  split.
  - intros H Hin.
    assert (T : existsb (String.eqb (TRANSACTION_KEY r))
                  (SQL.distinct String.eqb (map TRANSACTION_KEY staging)) = true).
    { apply existsb_exists. exists (TRANSACTION_KEY r). split; [exact Hin|].
      apply String.eqb_refl. }
    congruence.
  - intros H.
    destruct (existsb _ _) eqn:E; [|reflexivity].
    apply existsb_exists in E. destruct E as (k & Hk & Ek).
    apply String.eqb_eq in Ek. subst k. contradiction.
Qed.

(** *** Ordinals of the cleaned rows *)

Lemma add_metadata_length (env : Env) (n : Z) (df : list CLEAN.row) :
  forall o, List.length (add_metadata env n o df) = List.length df.
Proof. induction df as [|r df IH]; intros o; cbn; [reflexivity|]. rewrite IH. reflexivity. Qed.

(** The row at position [i] of the cleaned frame gets [start + i]. *)
Lemma add_metadata_nth (env : Env) (n : Z) (df : list CLEAN.row) :
  forall o i r,
    nth_error (add_metadata env n o df) i = Some r ->
    STAGING.ROW_NUMBER_IN_FILE r = o + Z.of_nat i.
Proof.
  induction df as [|c df IH]; intros o i r H.
  - destruct i; discriminate H.
  - destruct i as [|i]; cbn in H.
    + injection H as <-. cbn. lia.
    + apply IH in H. rewrite H. lia.
Qed.

Lemma add_metadata_range (env : Env) (n : Z) (df : list CLEAN.row) (o : Z) (r : STAGING.row) :
  In r (add_metadata env n o df) ->
  o <= STAGING.ROW_NUMBER_IN_FILE r < o + Z.of_nat (List.length df).
Proof.
  intros H. apply In_nth_error in H. destruct H as [i H].
  assert (Hi : (i < List.length (add_metadata env n o df))%nat).
  { apply nth_error_Some. congruence. }
  rewrite add_metadata_length in Hi.
  apply add_metadata_nth in H. lia.
Qed.

Lemma add_metadata_keys_NoDup (env : Env) (n : Z) (df : list CLEAN.row) :
  forall o, NoDup (map TRANSACTION_KEY (add_metadata env n o df)).
Proof.
  induction df as [|c df IH]; intros o; cbn [add_metadata map]; constructor.
  - intros Hin. apply in_map_iff in Hin. destruct Hin as (r & Ekey & Hr).
    apply Key.same_ordinal in Ekey. apply add_metadata_range in Hr.
    cbn in Ekey. lia.
  - apply IH.
Qed.

(** *** What a run appends to staging *)

Lemma after_log_start_staging (env : Env) (n : Z) (w : Warehouse) :
  ONLINE_RETAIL_STAGING (after_log_start env n w) = ONLINE_RETAIL_STAGING w.
Proof.
  unfold after_log_start. apply written_log_frame. left. eauto.
Qed.

Lemma after_load_staging (env : Env) (n : Z) (w : Warehouse) :
  ONLINE_RETAIL_STAGING (after_load env n w)
  = (ONLINE_RETAIL_STAGING w
     ++ new_rows env n (start_row n) (end_row n) (ONLINE_RETAIL_STAGING w))%list.
Proof.
  unfold after_load. cbn [ONLINE_RETAIL_STAGING with_staging].
  rewrite after_log_start_staging. reflexivity.
Qed.

Lemma loaded_eq (env : Env) (n : Z) (w : Warehouse) :
  loaded env n w
  = Z.of_nat (List.length (new_rows env n (start_row n) (end_row n)
                             (ONLINE_RETAIL_STAGING w))).
Proof. unfold loaded. rewrite after_log_start_staging. reflexivity. Qed.

Lemma written_update_staging (env : Env) (n : Z) (st : Status) (rows : Z)
    (err : option string) (w : Warehouse) :
  ONLINE_RETAIL_STAGING (written env (UPDATE_EXECUTION_LOG n st rows err) w)
  = ONLINE_RETAIL_STAGING w.
Proof. apply written_log_frame. right. eauto 6. Qed.

(** Only the staging load writes to staging. *)
Lemma run_staging (env : Env) (batch_number : option Z) (w : Warehouse) :
  let n := resolved env batch_number w in
  ONLINE_RETAIL_STAGING (store (run_incremental_batch env batch_number) w)
  = (ONLINE_RETAIL_STAGING w
     ++ new_rows env n (start_row n) (end_row n) (ONLINE_RETAIL_STAGING w))%list.
Proof.
  cbn zeta. unfold store. rewrite run_incremental_batch_eq. cbn zeta.
  set (n := resolved env batch_number w).
  rewrite <- after_load_staging.
  destruct (loaded env n w =? 0)%Z.
  { cbn [snd]. apply written_update_staging. }
  pose proof (update_dimensions_frame env n (after_load env n w)) as F.
  unfold store in F. cbn zeta in F.
  destruct (update_dimensions_incremental env n (after_load env n w)) as [[x|[]] w2];
    cbn [snd] in F; destruct F as (F & _).
  { cbn [snd]. rewrite written_update_staging. exact F. }
  pose proof (append_to_transactions_frame env n w2) as G.
  unfold store in G. cbn zeta in G.
  destruct (append_to_transactions_fact env n w2) as [[x|[]] w3];
    cbn [snd] in G; destruct G as (G & _);
    cbn [snd]; rewrite written_update_staging; congruence.
Qed.

Lemma NoDup_map_filter {A B} (f : A -> B) (g : A -> bool) (l : list A) :
  NoDup (map f l) -> NoDup (map f (filter g l)).
Proof.
  induction l as [|a l IH]; cbn; intros H; [constructor|].
  inversion H as [|? ? Hnot Hrest]; subst.
  destruct (g a); cbn; [constructor|]; auto.
  intros Hin. apply Hnot. apply in_map_iff in Hin.
  destruct Hin as (x & <- & Hx). apply filter_In in Hx.
  apply in_map, Hx.
Qed.

(** A row the load appends is a cleaned row of the window whose key was
    not staged before. *)
Lemma new_rows_In (env : Env) (n s e : Z) (staging : list STAGING.row)
    (r : STAGING.row) :
  In r (new_rows env n s e staging) ->
  exists csv df,
    csv_file env = Some csv
    /\ convert (window_rows csv s e) = inr df
    /\ In r (candidates env n s df)
    /\ ~ In (TRANSACTION_KEY r) (map TRANSACTION_KEY staging).
Proof.
  unfold new_rows. destruct (csv_file env) as [csv|]; [|intros []].
  destruct (convert (window_rows csv s e)) as [x|df] eqn:Ec; [intros []|].
  destruct (sql_error env SELECT_TRANSACTION_KEYS); [intros []|].
  cbn zeta. destruct (key_fails _ _ _); [intros []|].
  intros H. apply filter_In in H. destruct H as [H _].
  apply filter_In in H. destruct H as [H K].
  exists csv, df. split; [reflexivity|]. split; [exact Ec|]. split; [exact H|].
  apply not_staged_yet_spec, K.
Qed.

Lemma new_rows_keys_NoDup (env : Env) (n s e : Z) (staging : list STAGING.row) :
  NoDup (map TRANSACTION_KEY (new_rows env n s e staging)).
Proof.
  unfold new_rows. destruct (csv_file env) as [csv|]; [|constructor].
  destruct (convert (window_rows csv s e)) as [x|df]; [constructor|].
  destruct (sql_error env SELECT_TRANSACTION_KEYS); [constructor|].
  cbn zeta. destruct (key_fails _ _ _); [constructor|].
  do 2 apply NoDup_map_filter. apply add_metadata_keys_NoDup.
Qed.

Lemma NoDup_app_intro {A} (l1 l2 : list A) :
  NoDup l1 -> NoDup l2 -> (forall x, In x l2 -> ~ In x l1) -> NoDup (l1 ++ l2).
Proof.
  induction l1 as [|a l1 IH]; cbn; intros H1 H2 H; [exact H2|].
  inversion H1 as [|? ? Hnot Hrest]; subst. constructor.
  - intros Hin. apply in_app_or in Hin. destruct Hin as [Hin|Hin]; [auto|].
    apply (H a Hin). left. reflexivity.
  - apply IH; auto. intros x Hx Hin. apply (H x Hx). right. exact Hin.
Qed.

(** The batch is fully loaded: the key of every cleaned row of its window
    is in staging. *)
Definition fully_loaded (env : Env) (n : Z) (w : Warehouse) : Prop :=
  forall csv df r,
    csv_file env = Some csv ->
    convert (window_rows csv (start_row n) (end_row n)) = inr df ->
    In r (candidates env n (start_row n) df) ->
    In (TRANSACTION_KEY r) (map TRANSACTION_KEY (ONLINE_RETAIL_STAGING w)).

Lemma fully_loaded_new_rows (env : Env) (n : Z) (w : Warehouse) :
  fully_loaded env n w ->
  new_rows env n (start_row n) (end_row n) (ONLINE_RETAIL_STAGING w) = [].
Proof.
  intros H.
  destruct (new_rows env n (start_row n) (end_row n) (ONLINE_RETAIL_STAGING w))
    as [|r rows] eqn:E; [reflexivity|].
  assert (Hin : In r (new_rows env n (start_row n) (end_row n)
                        (ONLINE_RETAIL_STAGING w))) by (rewrite E; left; reflexivity).
  apply new_rows_In in Hin. destruct Hin as (csv & df & Hc & Hd & Hr & Hnew).
  destruct (Hnew (H csv df r Hc Hd Hr)).
Qed.

(* ------------------------------------------------------------------ *)
(** ** Batch window resolution                                         *)
(* ------------------------------------------------------------------ *)

(** C4: for every batch number [n] (in particular every [n >= 1]) the
    window is [start_row = (n-1)*B+1], [end_row = n*B] with [B = 1000];
    without a batch number the number is [floor(M/B)+1], where [M] is the
    greatest staged source-row ordinal, or 0 when staging is empty or the
    query fails; an empty store gives batch 1 with rows 1..1000; and in
    every case the store is returned as it was. *)
Theorem C4_window_resolution (env : Env) (w : Warehouse) :
  batch_size = 1000
  /\ (forall n : Z,
        resolve_window env (Some n) w
        = (inr {| batch_number_of := n;
                  start_row_of := (n - 1) * batch_size + 1;
                  end_row_of := n * batch_size |}, w))
  /\ (exists M : Z,
        get_last_processed_row env w = (inr M, w)
        /\ resolve_window env None w
           = (inr {| batch_number_of := M / batch_size + 1;
                     start_row_of := (M / batch_size + 1 - 1) * batch_size + 1;
                     end_row_of := (M / batch_size + 1) * batch_size |}, w)
        /\ (sql_error env SELECT_MAX_ROW_NUMBER_IN_FILE <> None -> M = 0)
        /\ (ONLINE_RETAIL_STAGING w = [] -> M = 0)
        /\ (sql_error env SELECT_MAX_ROW_NUMBER_IN_FILE = None ->
            ONLINE_RETAIL_STAGING w <> [] ->
            In M (map STAGING.ROW_NUMBER_IN_FILE (ONLINE_RETAIL_STAGING w))
            /\ forall r, In r (ONLINE_RETAIL_STAGING w) ->
                         STAGING.ROW_NUMBER_IN_FILE r <= M))
  /\ resolve_window env None (with_staging [] w)
     = (inr {| batch_number_of := 1; start_row_of := 1; end_row_of := 1000 |},
        with_staging [] w).
Proof.
  split; [reflexivity|]. split.
  { intros n. exact (resolve_window_spec env (Some n) w). }
  split.
  - exists (last_processed env w). split; [apply get_last_processed_row_spec|].
    split; [exact (resolve_window_spec env None w)|].
    unfold last_processed, max_row_number.
    destruct (sql_error env SELECT_MAX_ROW_NUMBER_IN_FILE) as [x|].
    + split; [reflexivity|]. split; [reflexivity|]. discriminate.
    + split; [intros H; destruct (H eq_refl)|].
      rewrite <- (map_map STAGING.ROW_NUMBER_IN_FILE (fun x => Some x)).
      split.
      * intros ->. reflexivity.
      * intros _ Hne.
        destruct (SQL.MAX_Z _) as [m|] eqn:E.
        -- apply MAX_Z_spec in E. destruct E as [Hin Hup]. split; [exact Hin|].
           intros r Hr. apply Hup, in_map, Hr.
        -- apply MAX_Z_none in E. apply map_eq_nil in E. contradiction.
  - rewrite (resolve_window_spec env None (with_staging [] w)).
    unfold resolved, last_processed, max_row_number; cbn.
    destruct (sql_error env SELECT_MAX_ROW_NUMBER_IN_FILE); reflexivity.
Qed.

(* ------------------------------------------------------------------ *)
(** ** The execution log of one attempt                                *)
(* ------------------------------------------------------------------ *)

(** The log the closing UPDATE leaves depends on the log alone. *)
Lemma log_update_log (now n : Z) (st : Status) (rows : Z) (clause : option string)
    (w1 w2 : Warehouse) :
  PIPELINE_EXECUTION_LOG w1 = PIPELINE_EXECUTION_LOG w2 ->
  PIPELINE_EXECUTION_LOG (log_update now n st rows clause w1)
  = PIPELINE_EXECUTION_LOG (log_update now n st rows clause w2).
Proof.
  intros E. unfold log_update. cbn [PIPELINE_EXECUTION_LOG with_log].
  rewrite E. reflexivity.
Qed.

(** When both log statements are accepted and the clock is ahead of the
    earlier attempts, an attempt leaves exactly one new entry. *)
Lemma log_after_end (env : Env) (n : Z) (st : Status) (rows : Z)
    (clause : option string) (w w' : Warehouse) :
  sql_error env (INSERT_EXECUTION_LOG n (start_row n) (end_row n)) = None ->
  sql_error env (UPDATE_EXECUTION_LOG n st rows clause) = None ->
  clock_ahead (now env) n (PIPELINE_EXECUTION_LOG w) ->
  PIPELINE_EXECUTION_LOG w' = PIPELINE_EXECUTION_LOG (after_log_start env n w) ->
  PIPELINE_EXECUTION_LOG (written env (UPDATE_EXECUTION_LOG n st rows clause) w')
  = (PIPELINE_EXECUTION_LOG w ++ [finished_entry (now env) n st rows clause])%list.
Proof.
  intros Hi Hu Hclock E. unfold written. rewrite Hu. cbn [run_sql snd].
  unfold after_log_start, written in E. rewrite Hi in E. cbn [run_sql snd] in E.
  rewrite (log_update_log _ _ _ _ _ _ _ E).
  rewrite (log_roundtrip _ _ _ _ _ _ Hclock). reflexivity.
Qed.

(** Neither log statement of a completed attempt creates a FAILED entry. *)
Lemma no_new_failure (env : Env) (n rows : Z) (msg : option string)
    (w : Warehouse) (entry : LOG.row) :
  In entry
    (PIPELINE_EXECUTION_LOG
       (written env (UPDATE_EXECUTION_LOG n COMPLETED rows msg)
          (after_log_start env n w))) ->
  LOG.STATUS entry = FAILED ->
  In entry (PIPELINE_EXECUTION_LOG w).
Proof.
  intros Hin Hfailed.
  assert (Hstart : In entry (PIPELINE_EXECUTION_LOG (after_log_start env n w))).
  { unfold written in Hin.
    destruct (sql_error env (UPDATE_EXECUTION_LOG n COMPLETED rows msg)); [exact Hin|].
    cbn [run_sql snd] in Hin. unfold log_update in Hin.
    cbn [PIPELINE_EXECUTION_LOG with_log] in Hin.
    apply in_map_iff in Hin. destruct Hin as (e0 & E & Hin).
    destruct (_ && _) in E; [|subst; exact Hin].
    subst entry. cbn in Hfailed. discriminate Hfailed. }
  unfold after_log_start, written in Hstart.
  destruct (sql_error env (INSERT_EXECUTION_LOG _ _ _)); [exact Hstart|].
  cbn [run_sql snd] in Hstart. unfold log_insert in Hstart.
  cbn [PIPELINE_EXECUTION_LOG with_log] in Hstart.
  apply in_app_or in Hstart. destruct Hstart as [H|[H|[]]]; [exact H|].
  subst entry. cbn in Hfailed. discriminate Hfailed.
Qed.

(** A run whose load writes nothing. *)
Lemma run_zero_rows (env : Env) (batch_number : option Z) (w : Warehouse) :
  let n := resolved env batch_number w in
  new_rows env n (start_row n) (end_row n) (ONLINE_RETAIL_STAGING w) = [] ->
  run_incremental_batch env batch_number w
  = (inr false,
     written env (UPDATE_EXECUTION_LOG n COMPLETED 0 (Some "No new data to load"))
       (after_log_start env n w)).
Proof.
  cbn zeta. intros Hnil. rewrite run_incremental_batch_eq. cbn zeta.
  rewrite loaded_eq, Hnil. cbn [List.length Z.of_nat Z.eqb].
  unfold after_load. rewrite after_log_start_staging, Hnil, app_nil_r.
  rewrite <- (after_log_start_staging env (resolved env batch_number w) w) at 1.
  rewrite with_staging_same. reflexivity.
Qed.

Lemma length_zero_nil {A} (l : list A) : Z.of_nat (List.length l) = 0 -> l = [].
Proof. destruct l; [reflexivity|]. cbn [List.length]. lia. Qed.


(* ------------------------------------------------------------------ *)
(** ** Concrete extracts and warehouses                                *)
(* ------------------------------------------------------------------ *)

Module Scenario.

Definition is_digit (c : ascii) : bool :=
  (48 <=? nat_of_ascii c)%nat && (nat_of_ascii c <=? 57)%nat.

Fixpoint digits (s : string) : bool :=
  match s with
  | EmptyString => true
  | String c rest => is_digit c && digits rest
  end.

(** A key cell holding the text [s]: an integer when [s] is a run of
    digits, some other text otherwise.  The texts used below are runs of
    digits without a leading zero, or contain a letter. *)
Definition field (s : string) : Field :=
  match s with
  | EmptyString => Blank
  | _ => if digits s then Integer s s (s ++ ".0") else Word s
  end.

Definition iso : string := "%Y-%m-%d %H:%M:%S".

(** A well-formed line of the extract, bought by customer 17850 on
    2010-12-01 08:26:00. *)
Definition sale (invoice stock : string) (qty : Z) (price : Q) : CSV.row :=
  {| CSV.InvoiceNo := field invoice;
     CSV.StockCode := field stock;
     CSV.Description := Some "WHITE METAL LANTERN";
     CSV.Quantity := Parsed qty;
     CSV.InvoiceDate := Date iso 1291191960;
     CSV.UnitPrice := Parsed price;
     CSV.CustomerID := Parsed 17850;
     CSV.Country := Some "United Kingdom" |}.

(** The same line with a date that does not parse. *)
Definition undated (invoice stock : string) (qty : Z) (price : Q) : CSV.row :=
  {| CSV.InvoiceNo := field invoice;
     CSV.StockCode := field stock;
     CSV.Description := Some "WHITE METAL LANTERN";
     CSV.Quantity := Parsed qty;
     CSV.InvoiceDate := Not_a_date "not-a-date";
     CSV.UnitPrice := Parsed price;
     CSV.CustomerID := Parsed 17850;
     CSV.Country := Some "United Kingdom" |}.

Definition clock : Z := 1700000000.

(** The products of the lines below (2 x 2.5, 3 x 3.5, 1 x 1) are exact
    in binary64. *)
Definition exact (quantity : Z) (unit_price : Q) : Q :=
  (inject_Z quantity * unit_price)%Q.

(** A readable extract and a warehouse that accepts every statement. *)
Definition healthy (csv : list CSV.row) : Env :=
  {| csv_file := Some csv; sql_error := fun _ => None; now := clock;
     float64_mul := exact |}.

(** The same, an hour later. *)
Definition later (csv : list CSV.row) : Env :=
  {| csv_file := Some csv; sql_error := fun _ => None; now := clock + 3600;
     float64_mul := exact |}.

(** The extract cannot be read. *)
Definition unreadable : Env :=
  {| csv_file := None; sql_error := fun _ => None; now := clock;
     float64_mul := exact |}.


Definition filler : CSV.row := sale "INV536366" "B" 1 1.

(** Row 1 sells 2 of A, rows 2..1000 sell B, row 1001 sells 3 of A. *)
Definition two_batches : list CSV.row :=
  (sale "INV536365" "A" 2 2.5 :: repeat filler 999 ++ [sale "INV536367" "A" 3 3.5])%list.

Definition after_batch_1 : Warehouse :=
  store (run_incremental_batch (healthy two_batches) (Some 1)) empty_warehouse.

Definition after_batch_2 : Warehouse :=
  store (run_incremental_batch (healthy two_batches) (Some 2)) after_batch_1.

(** A two-line extract, and the store after its only batch. *)
Definition short : list CSV.row :=
  [sale "INV536365" "A" 2 2.5; sale "INV536365" "B" 1 1].

Definition short_loaded : Warehouse :=
  store (run_incremental_batch (healthy short) (Some 1)) empty_warehouse.

(** Rows 1001 and 1002 are a sale and a line of quantity 0; row 2001 is a
    sale; batch 3 is loaded before batch 2. *)
Definition three_batches : list CSV.row :=
  (repeat filler 1000
   ++ [sale "INV536370" "A" 1 1; sale "INV536370" "C" 0 1]
   ++ repeat filler 998
   ++ [sale "INV536380" "A" 1 1])%list.

Definition batch_3_first : Warehouse :=
  store (run_incremental_batch (healthy three_batches) (Some 3)) empty_warehouse.

Definition then_batch_2 : Warehouse :=
  store (run_incremental_batch (healthy three_batches) (Some 2)) batch_3_first.

End Scenario.

(* ------------------------------------------------------------------ *)
(** ** Customer segmentation                                           *)
(* ------------------------------------------------------------------ *)

Lemma Qle_bool_false (a b : Q) : Qle_bool a b = false <-> (b < a)%Q.
Proof.
  split.
  - intros H. apply Qnot_le_lt. intros L. apply Qle_bool_iff in L. congruence.
  - intros H. destruct (Qle_bool a b) eqn:E; [|reflexivity].
    apply Qle_bool_iff in E. destruct (Qlt_not_le _ _ H E).
Qed.

Lemma Qle_bool_compat (a b c d : Q) :
  (a == b)%Q -> (c == d)%Q -> Qle_bool a c = Qle_bool b d.
Proof.
  intros H1 H2. apply eq_true_iff_eq. rewrite !Qle_bool_iff, H1, H2. reflexivity.
Qed.

Lemma segment_row_idempotent (now : Z) (c : CUSTOMERS.row) :
  segment_row now (segment_row now c) = segment_row now c.
Proof.
  unfold segment_row.
  destruct (SQL.CURRENT_DATE now <=? CUSTOMERS.UPDATED_AT c)%Z eqn:E;
    cbn; rewrite E; reflexivity.
Qed.

(** What the segmentation statement does to one row. *)
Lemma segment_row_spec (now : Z) (c : CUSTOMERS.row) :
  CUSTOMERS.CUSTOMER_ID (segment_row now c) = CUSTOMERS.CUSTOMER_ID c
  /\ CUSTOMERS.TOTAL_AMOUNT_SPENT (segment_row now c) = CUSTOMERS.TOTAL_AMOUNT_SPENT c
  /\ CUSTOMERS.UPDATED_AT (segment_row now c) = CUSTOMERS.UPDATED_AT c
  /\ ((SQL.CURRENT_DATE now <= CUSTOMERS.UPDATED_AT c)%Z ->
      CUSTOMERS.CUSTOMER_SEGMENT (segment_row now c)
      = Some (segment_of (CUSTOMERS.TOTAL_AMOUNT_SPENT c)))
  /\ ((CUSTOMERS.UPDATED_AT c < SQL.CURRENT_DATE now)%Z -> segment_row now c = c).
Proof.
  unfold segment_row.
  destruct (Z.leb_spec (SQL.CURRENT_DATE now) (CUSTOMERS.UPDATED_AT c)) as [H|H];
    cbn; repeat split; try reflexivity; intros; lia.
Qed.

(** C5: the segment is a function of cumulative spend alone: VIP from
    10000, HIGH_VALUE from 5000, MEDIUM_VALUE from 1000, LOW_VALUE above 0,
    NEW otherwise, with the seven boundary values of the specification.
    The segmentation statement, when the warehouse accepts it, leaves
    every customer row in its place with its key and its spend, writes
    exactly that function of the spend on every row updated today and
    leaves the other rows as they are; running it twice changes nothing
    more; after an aggregation that completes, every customer row updated
    today carries the segment of its spend; and the customer of the
    two-line extract, who spent 6, is LOW_VALUE after the run. *)
Theorem C5_segmentation :
  (forall spend : Q,
      ((10000 <= spend)%Q -> segment_of spend = VIP)
      /\ ((5000 <= spend)%Q -> (spend < 10000)%Q -> segment_of spend = HIGH_VALUE)
      /\ ((1000 <= spend)%Q -> (spend < 5000)%Q -> segment_of spend = MEDIUM_VALUE)
      /\ ((0 < spend)%Q -> (spend < 1000)%Q -> segment_of spend = LOW_VALUE)
      /\ ((spend <= 0)%Q -> segment_of spend = NEW))
  /\ (forall a b : Q, (a == b)%Q -> segment_of a = segment_of b)
  /\ (segment_of 999.99 = LOW_VALUE
      /\ segment_of 1000.00 = MEDIUM_VALUE
      /\ segment_of 4999.99 = MEDIUM_VALUE
      /\ segment_of 5000.00 = HIGH_VALUE
      /\ segment_of 9999.99 = HIGH_VALUE
      /\ segment_of 10000.00 = VIP
      /\ segment_of 0 = NEW)
  /\ (forall (now : Z) (c : CUSTOMERS.row),
        (SQL.CURRENT_DATE now <= CUSTOMERS.UPDATED_AT c)%Z ->
        CUSTOMERS.CUSTOMER_SEGMENT (segment_row now c)
        = Some (segment_of (CUSTOMERS.TOTAL_AMOUNT_SPENT c)))
  /\ (forall (now : Z) (w : Warehouse),
        update_segments now (update_segments now w) = update_segments now w)
  /\ (forall (env : Env) (w : Warehouse),
        sql_error env UPDATE_CUSTOMER_SEGMENTS = None ->
        let w' := store (execute_sql env UPDATE_CUSTOMER_SEGMENTS) w in
        List.length (CUSTOMERS w') = List.length (CUSTOMERS w)
        /\ (forall (i : nat) (c : CUSTOMERS.row),
              nth_error (CUSTOMERS w) i = Some c ->
              exists c',
                nth_error (CUSTOMERS w') i = Some c'
                /\ CUSTOMERS.CUSTOMER_ID c' = CUSTOMERS.CUSTOMER_ID c
                /\ CUSTOMERS.TOTAL_AMOUNT_SPENT c' = CUSTOMERS.TOTAL_AMOUNT_SPENT c
                /\ ((SQL.CURRENT_DATE (now env) <= CUSTOMERS.UPDATED_AT c)%Z ->
                    CUSTOMERS.CUSTOMER_SEGMENT c'
                    = Some (segment_of (CUSTOMERS.TOTAL_AMOUNT_SPENT c')))
                /\ ((CUSTOMERS.UPDATED_AT c < SQL.CURRENT_DATE (now env))%Z -> c' = c))
        /\ store (execute_sql env UPDATE_CUSTOMER_SEGMENTS) w' = w')
  /\ (forall (env : Env) (n : Z) (w : Warehouse) (c : CUSTOMERS.row),
        outcome (update_dimensions_incremental env n) w = inr tt ->
        In c (CUSTOMERS (store (update_dimensions_incremental env n) w)) ->
        (SQL.CURRENT_DATE (now env) <= CUSTOMERS.UPDATED_AT c)%Z ->
        CUSTOMERS.CUSTOMER_SEGMENT c
        = Some (segment_of (CUSTOMERS.TOTAL_AMOUNT_SPENT c)))
  /\ match CUSTOMERS Scenario.short_loaded with
     | [c] =>
         CUSTOMERS.CUSTOMER_ID c = 17850
         /\ (CUSTOMERS.TOTAL_AMOUNT_SPENT c == 6)%Q
         /\ CUSTOMERS.CUSTOMER_SEGMENT c = Some LOW_VALUE
     | _ => False
     end.
Proof.
  split.
  { intros spend. unfold segment_of. repeat split.
    - intros H. apply Qle_bool_iff in H. rewrite H. reflexivity.
    - intros H1 H2. apply Qle_bool_iff in H1. apply Qle_bool_false in H2.
      rewrite H2, H1. reflexivity.
    - intros H1 H2. apply Qle_bool_iff in H1.
      assert (H3 : (spend < 10000)%Q) by (eapply Qlt_trans; [exact H2|reflexivity]).
      apply Qle_bool_false in H2, H3. rewrite H3, H2, H1. reflexivity.
    - intros H1 H2.
      assert (H3 : (spend < 5000)%Q) by (eapply Qlt_trans; [exact H2|reflexivity]).
      assert (H4 : (spend < 10000)%Q) by (eapply Qlt_trans; [exact H2|reflexivity]).
      apply Qle_bool_false in H1, H2, H3, H4. rewrite H4, H3, H2, H1. reflexivity.
    - intros H.
      assert (H2 : (spend < 1000)%Q) by (eapply Qle_lt_trans; [exact H|reflexivity]).
      assert (H3 : (spend < 5000)%Q) by (eapply Qle_lt_trans; [exact H|reflexivity]).
      assert (H4 : (spend < 10000)%Q) by (eapply Qle_lt_trans; [exact H|reflexivity]).
      apply Qle_bool_iff in H. apply Qle_bool_false in H2, H3, H4.
      rewrite H4, H3, H2, H. reflexivity. }
  split.
  { intros a b E. unfold segment_of.
    rewrite (Qle_bool_compat 10000 10000 a b (Qeq_refl _) E).
    rewrite (Qle_bool_compat 5000 5000 a b (Qeq_refl _) E).
    rewrite (Qle_bool_compat 1000 1000 a b (Qeq_refl _) E).
    rewrite (Qle_bool_compat a b 0 0 E (Qeq_refl _)).
    reflexivity. }
  split; [repeat split; reflexivity|].
  split.
  { intros now c H. apply (segment_row_spec now c), H. }
  assert (Hidem : forall (now : Z) (w : Warehouse),
             update_segments now (update_segments now w) = update_segments now w).
  { intros now w. unfold update_segments. cbn [CUSTOMERS with_customers].
    rewrite map_map.
    rewrite (map_ext _ _ (segment_row_idempotent now)). reflexivity. }
  split; [exact Hidem|]. split.
  { intros env w Hacc. cbn zeta.
    unfold store, execute_sql. rewrite Hacc. cbn [run_sql snd].
    split; [unfold update_segments; cbn [CUSTOMERS with_customers]; apply length_map|].
    split; [|apply Hidem].
    intros i c Hc. exists (segment_row (now env) c).
    destruct (segment_row_spec (now env) c) as (S1 & S2 & _ & S4 & S5).
    split.
    { unfold update_segments. cbn [CUSTOMERS with_customers].
      rewrite nth_error_map, Hc. reflexivity. }
    split; [exact S1|]. split; [exact S2|]. split; [|exact S5].
    intros H. rewrite S2. apply S4, H. }
  split.
  { intros env n w c. unfold outcome, store, update_dimensions_incremental.
    unfold try_except, bind, ret, raise, execute_sql.
    destruct (sql_error env MERGE_PRODUCTS); [discriminate|]. cbn [run_sql].
    destruct (sql_error env MERGE_CUSTOMERS); [discriminate|]. cbn [run_sql].
    destruct (sql_error env UPDATE_CUSTOMER_SEGMENTS); [discriminate|]. cbn [run_sql].
    destruct (sql_error env MERGE_COUNTRIES); [discriminate|]. cbn [run_sql fst snd].
    intros _ Hin Htoday.
    unfold merge_countries, update_segments in Hin.
    cbn [CUSTOMERS with_countries with_customers] in Hin.
    apply in_map_iff in Hin. destruct Hin as (c0 & <- & _).
    destruct (segment_row_spec (now env) c0) as (_ & S2 & S3 & S4 & _).
    rewrite S2. apply S4. rewrite <- S3. exact Htoday. }
  vm_compute. split; [reflexivity|]. split; reflexivity.
Qed.

(* ------------------------------------------------------------------ *)
(** ** A load that writes nothing                                      *)
(* ------------------------------------------------------------------ *)




(* ------------------------------------------------------------------ *)
(** ** A crash inside the staging load                                 *)
(* ------------------------------------------------------------------ *)

(** C9: when the body of the staging load raises (the extract cannot be
    read, for one), [load_batch_to_staging] catches the exception and
    returns 0 without having written anything; the run then returns
    [False], creates no FAILED entry in the execution log, and, when the
    log statements are accepted, leaves the attempt COMPLETED with 0 rows
    inserted and the message [No new data to load]. *)
Theorem C9_load_crash_logged_completed
    (env : Env) (batch_number : option Z) (w : Warehouse) (x : Exception) :
  let n := resolved env batch_number w in
  let w0 := store (log_batch_start env n (start_row n) (end_row n)) w in
  let w' := store (run_incremental_batch env batch_number) w in
  outcome (load_batch env n (start_row n) (end_row n)) w0 = inl x ->
  load_batch_to_staging env n (start_row n) (end_row n) w0 = (inr 0, w0)
  /\ outcome (run_incremental_batch env batch_number) w = inr false
  /\ (forall entry,
        In entry (PIPELINE_EXECUTION_LOG w') -> LOG.STATUS entry = FAILED ->
        In entry (PIPELINE_EXECUTION_LOG w))
  /\ (sql_error env (INSERT_EXECUTION_LOG n (start_row n) (end_row n)) = None ->
      sql_error env
        (UPDATE_EXECUTION_LOG n COMPLETED 0 (Some "No new data to load")) = None ->
      clock_ahead (now env) n (PIPELINE_EXECUTION_LOG w) ->
      PIPELINE_EXECUTION_LOG w'
      = (PIPELINE_EXECUTION_LOG w
         ++ [finished_entry (now env) n COMPLETED 0 (Some "No new data to load")])%list).
Proof.
  cbn zeta. set (n := resolved env batch_number w).
  replace (store (log_batch_start env n (start_row n) (end_row n)) w)
    with (after_log_start env n w)
    by (unfold store; rewrite log_batch_start_spec; reflexivity).
  unfold outcome. intros Hraise.
  assert (Hnil : new_rows env n (start_row n) (end_row n)
                   (ONLINE_RETAIL_STAGING (after_log_start env n w)) = []).
  { destruct (load_batch_cases env n (start_row n) (end_row n)
                (after_log_start env n w)) as [(y & _ & H)|H].
    - exact H.
    - rewrite H in Hraise. discriminate Hraise. }
  split.
  { rewrite load_batch_to_staging_spec, Hnil. cbn [List.length Z.of_nat].
    rewrite app_nil_r, with_staging_same. reflexivity. }
  rewrite after_log_start_staging in Hnil.
  unfold store. rewrite (run_zero_rows env batch_number w Hnil). cbn [fst snd].
  fold n. split; [reflexivity|]. split.
  - intros entry. apply no_new_failure.
  - intros Hi Hu Hclock. apply log_after_end; auto.
Qed.

(** The extract cannot be read: the attempt is logged COMPLETED. *)
Lemma C9_witness :
  let env := Scenario.unreadable in
  (exists x, outcome (load_batch env 1 (start_row 1) (end_row 1))
               (store (log_batch_start env 1 (start_row 1) (end_row 1))
                  empty_warehouse) = inl x)
  /\ outcome (run_incremental_batch env (Some 1)) empty_warehouse = inr false
  /\ PIPELINE_EXECUTION_LOG (store (run_incremental_batch env (Some 1)) empty_warehouse)
     = [finished_entry Scenario.clock 1 COMPLETED 0 (Some "No new data to load")].
Proof.
  cbn zeta. split; [eexists; reflexivity|].
  destruct (C9_load_crash_logged_completed
              Scenario.unreadable (Some 1) empty_warehouse
              "No such file or directory" eq_refl)
    as (_ & H2 & _ & H4).
  split; [exact H2|].
  apply H4; [reflexivity|reflexivity|intros entry []].
Defined.

(* ------------------------------------------------------------------ *)
(** ** A failure after the staging load                                *)
(* ------------------------------------------------------------------ *)


Lemma after_load_log (env : Env) (n : Z) (w : Warehouse) :
  PIPELINE_EXECUTION_LOG (after_load env n w)
  = PIPELINE_EXECUTION_LOG (after_log_start env n w).
Proof. reflexivity. Qed.




(* ------------------------------------------------------------------ *)
(** ** Deduplication of the staging load                               *)
(* ------------------------------------------------------------------ *)

Definition keys_unique (w : Warehouse) : Prop :=
  NoDup (map TRANSACTION_KEY (ONLINE_RETAIL_STAGING w)).

(** C3: a run on a batch that is already fully loaded stages nothing:
    the load returns 0, staging is unchanged and the attempt is logged with
    0 rows inserted; a row is only ever appended when its key
    [INVOICE_NO_STOCK_CODE_ordinal] is not among the staged keys, so a
    staging table without duplicate keys stays without duplicate keys
    through every run. *)
Theorem C3_rerun_inserts_nothing :
  (forall (env : Env) (batch_number : option Z) (w : Warehouse),
      let n := resolved env batch_number w in
      let w' := store (run_incremental_batch env batch_number) w in
      fully_loaded env n w ->
      load_batch_to_staging env n (start_row n) (end_row n) w = (inr 0, w)
      /\ outcome (run_incremental_batch env batch_number) w = inr false
      /\ ONLINE_RETAIL_STAGING w' = ONLINE_RETAIL_STAGING w
      /\ (sql_error env (INSERT_EXECUTION_LOG n (start_row n) (end_row n)) = None ->
          sql_error env
            (UPDATE_EXECUTION_LOG n COMPLETED 0 (Some "No new data to load")) = None ->
          clock_ahead (now env) n (PIPELINE_EXECUTION_LOG w) ->
          PIPELINE_EXECUTION_LOG w'
          = (PIPELINE_EXECUTION_LOG w
             ++ [finished_entry (now env) n COMPLETED 0
                   (Some "No new data to load")])%list))
  /\ (forall (env : Env) (n s e : Z) (w : Warehouse) (r : STAGING.row),
        In r (ONLINE_RETAIL_STAGING (store (load_batch_to_staging env n s e) w)) ->
        In r (ONLINE_RETAIL_STAGING w)
        \/ ~ In (TRANSACTION_KEY r) (map TRANSACTION_KEY (ONLINE_RETAIL_STAGING w)))
  /\ (forall (env : Env) (batch_number : option Z) (w : Warehouse),
        keys_unique w ->
        keys_unique (store (run_incremental_batch env batch_number) w)).
Proof.
  split; [|split].
  - intros env batch_number w n w' Hfull. subst w'.
    pose proof (fully_loaded_new_rows env n w Hfull) as Hnil.
    split.
    { rewrite load_batch_to_staging_spec, Hnil. cbn [List.length Z.of_nat].
      rewrite app_nil_r, with_staging_same. reflexivity. }
    unfold outcome, store. rewrite (run_zero_rows env batch_number w Hnil).
    cbn [fst snd]. fold n. split; [reflexivity|]. split.
    + rewrite written_update_staging. apply after_log_start_staging.
    + intros Hi Hu Hclock. apply log_after_end; auto.
  - intros env n s e w r. unfold store. rewrite load_batch_to_staging_spec.
    cbn [snd ONLINE_RETAIL_STAGING with_staging]. intros Hin.
    apply in_app_or in Hin. destruct Hin as [Hin|Hin]; [left; exact Hin|].
    right. apply new_rows_In in Hin. destruct Hin as (_ & _ & _ & _ & _ & H).
    exact H.
  - intros env batch_number w Huniq. unfold keys_unique in *.
    rewrite run_staging. cbn zeta. rewrite map_app.
    apply NoDup_app_intro; [exact Huniq|apply new_rows_keys_NoDup|].
    intros k Hk. apply in_map_iff in Hk. destruct Hk as (r & <- & Hr).
    apply new_rows_In in Hr. destruct Hr as (_ & _ & _ & _ & _ & H). exact H.
Qed.

(** The two-line extract, loaded once and run again an hour later. *)
Lemma C3_witness :
  let env := Scenario.later Scenario.short in
  let w := Scenario.short_loaded in
  let w' := store (run_incremental_batch env (Some 1)) w in
  fully_loaded env 1 w
  /\ List.length (ONLINE_RETAIL_STAGING w) = 2%nat
  /\ load_batch_to_staging env 1 (start_row 1) (end_row 1) w = (inr 0, w)
  /\ ONLINE_RETAIL_STAGING w' = ONLINE_RETAIL_STAGING w
  /\ map LOG.ROWS_INSERTED (PIPELINE_EXECUTION_LOG w') = [Some 2; Some 0].
Proof.
  cbn zeta.
  assert (Hfull : fully_loaded (Scenario.later Scenario.short) 1 Scenario.short_loaded).
  { intros csv df r [= <-] Hdf Hr.
    vm_compute in Hdf. injection Hdf as <-.
    vm_compute in Hr. vm_compute.
    destruct Hr as [<-|[<-|[]]]; [left|right; left]; reflexivity. }
  split; [exact Hfull|]. split; [reflexivity|].
  destruct (proj1 C3_rerun_inserts_nothing
              (Scenario.later Scenario.short) (Some 1) Scenario.short_loaded Hfull)
    as (H1 & _ & H3 & H4).
  split; [exact H1|]. split; [exact H3|].
  rewrite H4.
  - vm_compute. reflexivity.
  - reflexivity.
  - reflexivity.
  - intros entry Hin _.
    assert (E : PIPELINE_EXECUTION_LOG Scenario.short_loaded
                = [finished_entry Scenario.clock 1 COMPLETED 2 None])
      by (vm_compute; reflexivity).
    rewrite E in Hin. destruct Hin as [<-|[]]. vm_compute. reflexivity.
Defined.

(* ------------------------------------------------------------------ *)
(** ** Product totals over two batches                                 *)
(* ------------------------------------------------------------------ *)

(** The positive quantity of a stock code among some staged rows. *)
Definition quantity_sold (code : string) (rows : list STAGING.row) : Z :=
  SQL.SUM_Z
    (map sold_quantity
       (filter (fun r => String.eqb (STAGING.STOCK_CODE r) code) rows)).

Definition product (code : string) (w : Warehouse) : option PRODUCTS.row :=
  find (fun p => String.eqb (PRODUCTS.STOCK_CODE p) code) (PRODUCTS w).

(** C1, on the code: batch 1 writes a sale of 2 of product A, batch 2 a
    sale of 3 (invoice numbers and stock codes are text, so the second
    load builds its keys and stages row 1001); the products MERGE of the
    second run reads every staged row whose tag matches [%BATCH_%], the
    rows of batch 1 included, so the total of A after both batches is
    2 + (2 + 3) = 7, not 2 + 3. *)
Theorem C1_second_merge_counts_first_batch_again :
  let env := Scenario.healthy Scenario.two_batches in
  let batch_1 := new_rows env 1 (start_row 1) (end_row 1) [] in
  let batch_2 :=
    new_rows env 2 (start_row 2) (end_row 2)
      (ONLINE_RETAIL_STAGING Scenario.after_batch_1) in
  quantity_sold "A" batch_1 = 2
  /\ quantity_sold "A" batch_2 = 3
  /\ map STAGING.ROW_NUMBER_IN_FILE batch_2 = [1001]
  /\ option_map PRODUCTS.TOTAL_QUANTITY_SOLD (product "A" Scenario.after_batch_1)
     = Some 2
  /\ option_map PRODUCTS.TOTAL_QUANTITY_SOLD (product "A" Scenario.after_batch_2)
     = Some 7
  /\ map PRODUCT_DELTA.NEW_QUANTITY_SOLD
       (filter (fun d => String.eqb (PRODUCT_DELTA.STOCK_CODE d) "A")
          (products_source (ONLINE_RETAIL_STAGING Scenario.after_batch_2)))
     = [5]
  /\ outcome (run_incremental_batch env (Some 1)) empty_warehouse = inr true
  /\ outcome (run_incremental_batch env (Some 2)) Scenario.after_batch_1 = inr true
  /\ map (fun n => let types := read_dtypes
                                  (window_rows Scenario.two_batches (start_row n) (end_row n)) in
                   (INVOICE_NO_dtype types, STOCK_CODE_dtype types)) [1; 2]
     = [(object, object); (object, object)]
  /\ map STAGING.DATA_SOURCE
       (filter (fun r => String.eqb (STAGING.STOCK_CODE r) "A")
          (ONLINE_RETAIL_STAGING Scenario.after_batch_2))
     = ["CSV_BATCH_1"; "CSV_BATCH_2"].
Proof.
  intros env batch_1 batch_2.
  split; [vm_compute; reflexivity|].
  split; [vm_compute; reflexivity|].
  split; [vm_compute; reflexivity|].
  split; [vm_compute; reflexivity|].
  split; [vm_compute; reflexivity|].
  split; [vm_compute; reflexivity|].
  split; [vm_compute; reflexivity|].
  split; [vm_compute; reflexivity|].
  split; vm_compute; reflexivity.
Qed.

(* ------------------------------------------------------------------ *)
(** ** Cleaning of the window                                          *)
(* ------------------------------------------------------------------ *)

(** C6, on the code: a window with one good line and one line whose date
    does not parse.  [pd.to_datetime] raises, the load returns 0 and
    nothing is staged, the good line included; without the bad line the
    good line is staged. *)
Theorem C6_unparseable_date_discards_the_window :
  let good := Scenario.sale "536365" "A" 2 2.5 in
  let bad := Scenario.undated "536365" "B" 1 1 in
  let env := Scenario.healthy [good; bad] in
  outcome (load_batch env 1 (start_row 1) (end_row 1)) empty_warehouse
  = inl "Unknown datetime string format, unable to parse: not-a-date"
  /\ load_batch_to_staging env 1 (start_row 1) (end_row 1) empty_warehouse
     = (inr 0, empty_warehouse)
  /\ ONLINE_RETAIL_STAGING
       (store (run_incremental_batch env (Some 1)) empty_warehouse) = []
  /\ TRANSACTIONS
       (store (run_incremental_batch env (Some 1)) empty_warehouse) = []
  /\ map STAGING.STOCK_CODE
       (ONLINE_RETAIL_STAGING
          (store (run_incremental_batch (Scenario.healthy [good]) (Some 1))
             empty_warehouse)) = ["A"].
Proof.
  intros good bad env.
  split; [vm_compute; reflexivity|].
  split; [vm_compute; reflexivity|].
  split; [vm_compute; reflexivity|].
  split; vm_compute; reflexivity.
Qed.

(* ------------------------------------------------------------------ *)
(** ** Merging a delta into an existing aggregate                      *)
(* ------------------------------------------------------------------ *)

(** A target row that matches a source row is updated in place. *)
Lemma MERGE_matched {T S} (on : T -> S -> bool) (update : T -> S -> T)
    (insert : S -> T) (target : list T) (source : list S)
    (i : nat) (t : T) (s : S) :
  nth_error target i = Some t ->
  find (on t) source = Some s ->
  nth_error (SQL.MERGE on update insert target source) i = Some (update t s).
Proof.
  intros Ht Hs. unfold SQL.MERGE.
  rewrite nth_error_app1.
  - rewrite nth_error_map, Ht. cbn. rewrite Hs. reflexivity.
  - rewrite length_map. apply nth_error_Some. congruence.
Qed.

Definition customer (id : Z) (w : Warehouse) : option CUSTOMERS.row :=
  find (fun c => Z.eqb (CUSTOMERS.CUSTOMER_ID c) id) (CUSTOMERS w).

(** The stored or computed average is the number [q]. *)
Definition average_is (x : option (option Q)) (q : Q) : Prop :=
  match x with
  | Some (Some v) => (v == q)%Q
  | _ => False
  end.

(** The value of a query that returns one row. *)
Definition only {A} (l : list A) : option A :=
  match l with
  | [v] => Some v
  | _ => None
  end.

(** C8, on the code: the MERGE of a delta into an existing product or
    customer row replaces the stored average by
    (stored average + delta average) / 2 and adds the delta to revenue,
    quantity, orders, items and amount.  The delta is the row of the USING
    sub-query, and that query reads every staged row whose tag matches
    [%BATCH_%], not the rows of the new batch.  After the two batches of
    the scenario the average price of A in batch 2 is 3.5 and the stored
    average after batch 1 is 2.5, but the delta average is 3, the mean
    over both batches, and the stored average becomes 2.75, not
    (2.5 + 3.5) / 2 = 3.  In the same way the average order value of
    customer 17850 is merged with the average over the 1001 staged lines,
    not with the 10.5 of batch 2. *)
Theorem C8_average_merges_with_all_staged_rows (now : Z) (w : Warehouse) :
  (forall (i : nat) (t : PRODUCTS.row) (d : PRODUCT_DELTA.row),
      nth_error (PRODUCTS w) i = Some t ->
      find (products_on t) (products_source (ONLINE_RETAIL_STAGING w)) = Some d ->
      exists t',
        nth_error (PRODUCTS (snd (run_sql now MERGE_PRODUCTS w))) i = Some t'
        /\ PRODUCTS.STOCK_CODE t' = PRODUCTS.STOCK_CODE t
        /\ PRODUCT_DELTA.STOCK_CODE d = PRODUCTS.STOCK_CODE t
        /\ (forall a b : Q,
              PRODUCTS.AVERAGE_UNIT_PRICE t = Some a ->
              PRODUCT_DELTA.AVG_UNIT_PRICE d = Some b ->
              PRODUCTS.AVERAGE_UNIT_PRICE t' = Some ((a + b) / 2)%Q)
        /\ PRODUCTS.TOTAL_QUANTITY_SOLD t'
           = PRODUCTS.TOTAL_QUANTITY_SOLD t + PRODUCT_DELTA.NEW_QUANTITY_SOLD d
        /\ PRODUCTS.TOTAL_REVENUE t'
           = (PRODUCTS.TOTAL_REVENUE t + PRODUCT_DELTA.NEW_REVENUE d)%Q)
  /\ (forall (i : nat) (t : CUSTOMERS.row) (d : CUSTOMER_DELTA.row),
        nth_error (CUSTOMERS w) i = Some t ->
        find (customers_on t) (customers_source (ONLINE_RETAIL_STAGING w)) = Some d ->
        exists t',
          nth_error (CUSTOMERS (snd (run_sql now MERGE_CUSTOMERS w))) i = Some t'
          /\ CUSTOMERS.CUSTOMER_ID t' = CUSTOMERS.CUSTOMER_ID t
          /\ CUSTOMER_DELTA.CUSTOMER_ID d = CUSTOMERS.CUSTOMER_ID t
          /\ (forall a b : Q,
                CUSTOMERS.AVERAGE_ORDER_VALUE t = Some a ->
                CUSTOMER_DELTA.AVG_ORDER_VALUE d = Some b ->
                CUSTOMERS.AVERAGE_ORDER_VALUE t' = Some ((a + b) / 2)%Q)
          /\ CUSTOMERS.TOTAL_ORDERS t'
             = CUSTOMERS.TOTAL_ORDERS t + CUSTOMER_DELTA.NEW_ORDERS d
          /\ CUSTOMERS.TOTAL_ITEMS_PURCHASED t'
             = CUSTOMERS.TOTAL_ITEMS_PURCHASED t + CUSTOMER_DELTA.NEW_ITEMS_PURCHASED d
          /\ CUSTOMERS.TOTAL_AMOUNT_SPENT t'
             = (CUSTOMERS.TOTAL_AMOUNT_SPENT t + CUSTOMER_DELTA.NEW_AMOUNT_SPENT d)%Q)
  /\ (let env := Scenario.healthy Scenario.two_batches in
      let batch_2 :=
        new_rows env 2 (start_row 2) (end_row 2)
          (ONLINE_RETAIL_STAGING Scenario.after_batch_1) in
      let of_A := fun d => String.eqb (PRODUCT_DELTA.STOCK_CODE d) "A" in
      average_is
        (option_map PRODUCTS.AVERAGE_UNIT_PRICE (product "A" Scenario.after_batch_1)) 2.5
      /\ average_is
           (only (map PRODUCT_DELTA.AVG_UNIT_PRICE (filter of_A (products_source batch_2))))
           3.5
      /\ average_is
           (only (map PRODUCT_DELTA.AVG_UNIT_PRICE
                    (filter of_A
                       (products_source (ONLINE_RETAIL_STAGING Scenario.after_batch_2)))))
           3
      /\ average_is
           (option_map PRODUCTS.AVERAGE_UNIT_PRICE (product "A" Scenario.after_batch_2))
           ((2.5 + 3) / 2)
      /\ ((2.5 + 3) / 2 == 2.75)%Q
      /\ ~ ((2.5 + 3) / 2 == (2.5 + 3.5) / 2)%Q)
  /\ (let env := Scenario.healthy Scenario.two_batches in
      let batch_2 :=
        new_rows env 2 (start_row 2) (end_row 2)
          (ONLINE_RETAIL_STAGING Scenario.after_batch_1) in
      average_is
        (option_map CUSTOMERS.AVERAGE_ORDER_VALUE (customer 17850 Scenario.after_batch_1))
        1.004
      /\ average_is
           (only (map CUSTOMER_DELTA.AVG_ORDER_VALUE (customers_source batch_2))) 10.5
      /\ average_is
           (only (map CUSTOMER_DELTA.AVG_ORDER_VALUE
                    (customers_source (ONLINE_RETAIL_STAGING Scenario.after_batch_2))))
           (1014.5 / 1001)
      /\ average_is
           (option_map CUSTOMERS.AVERAGE_ORDER_VALUE (customer 17850 Scenario.after_batch_2))
           ((1.004 + 1014.5 / 1001) / 2)
      /\ ~ ((1.004 + 1014.5 / 1001) / 2 == (1.004 + 10.5) / 2)%Q).
Proof.
  split; [|split; [|split]].
  - intros i t d Ht Hd.
    exists (products_update now t d). split.
    { cbn [run_sql snd]. unfold merge_products. cbn [PRODUCTS with_products].
      apply MERGE_matched; assumption. }
    split; [reflexivity|]. split.
    { apply find_some in Hd. destruct Hd as [_ Hd].
      apply String.eqb_eq in Hd. symmetry. exact Hd. }
    split; [|split; reflexivity].
    intros a b Ha Hb. cbn [products_update PRODUCTS.AVERAGE_UNIT_PRICE].
    rewrite Ha, Hb. reflexivity.
  - intros i t d Ht Hd.
    exists (customers_update now t d). split.
    { cbn [run_sql snd]. unfold merge_customers. cbn [CUSTOMERS with_customers].
      apply MERGE_matched; assumption. }
    split; [reflexivity|]. split.
    { apply find_some in Hd. destruct Hd as [_ Hd].
      apply Z.eqb_eq in Hd. symmetry. exact Hd. }
    split; [|repeat split; reflexivity].
    intros a b Ha Hb. cbn [customers_update CUSTOMERS.AVERAGE_ORDER_VALUE].
    rewrite Ha, Hb. reflexivity.
  - cbn zeta.
    split; [vm_compute; reflexivity|]. split; [vm_compute; reflexivity|].
    split; [vm_compute; reflexivity|]. split; [vm_compute; reflexivity|].
    split; [vm_compute; reflexivity|]. vm_compute. discriminate.
  - cbn zeta.
    split; [vm_compute; reflexivity|]. split; [vm_compute; reflexivity|].
    split; [vm_compute; reflexivity|]. split; [vm_compute; reflexivity|].
    vm_compute. discriminate.
Qed.

(* ------------------------------------------------------------------ *)
(** ** Ordinals and the next batch                                     *)
(* ------------------------------------------------------------------ *)

Lemma convert_rows_length (types : Dtypes) (raw : list CSV.row) :
  forall df, convert_rows types raw = inr df -> List.length df = List.length raw.
Proof.
  induction raw as [|r raw IH]; cbn [convert_rows]; intros df H.
  - injection H as <-. reflexivity.
  - destruct (to_datetime _ (CSV.InvoiceDate r)); [discriminate H|].
    destruct (convert_rows types raw) as [|df']; [discriminate H|].
    injection H as <-. cbn [List.length]. rewrite (IH df' eq_refl). reflexivity.
Qed.

Lemma convert_length (raw : list CSV.row) :
  forall df, convert raw = inr df -> List.length df = List.length raw.
Proof. intros df. apply convert_rows_length. Qed.

Lemma window_rows_length (csv : list CSV.row) (n : Z) :
  Z.of_nat (List.length (window_rows csv (start_row n) (end_row n))) <= batch_size.
Proof.
  unfold window_rows. rewrite length_firstn.
  replace (end_row n - start_row n + 1) with 1000
    by (unfold start_row, end_row, batch_size; lia).
  unfold batch_size. lia.
Qed.

(** The number of rows of a window that cleaning drops. *)
Definition rejected (env : Env) (n : Z) : Z :=
  match csv_file env with
  | None => 0
  | Some csv =>
      match convert (window_rows csv (start_row n) (end_row n)) with
      | inl _ => 0
      | inr df =>
          Z.of_nat (List.length df)
          - Z.of_nat (List.length (filter nonzero_quantity (dropna df)))
      end
  end.

(** The greatest staged ordinal, 0 for an empty table. *)
Definition high_water (w : Warehouse) : Z :=
  match max_row_number w with Some m => m | None => 0 end.

(** With a rejected row, every appended ordinal stays below the last row
    of the window. *)
Lemma new_rows_range (env : Env) (n : Z) (staging : list STAGING.row)
    (r : STAGING.row) :
  0 < rejected env n ->
  In r (new_rows env n (start_row n) (end_row n) staging) ->
  start_row n <= STAGING.ROW_NUMBER_IN_FILE r < end_row n.
Proof.
  intros Hrej Hin. apply new_rows_In in Hin.
  destruct Hin as (csv & df & Hcsv & Hdf & Hr & _).
  unfold rejected in Hrej. rewrite Hcsv, Hdf in Hrej.
  unfold candidates in Hr. apply add_metadata_range in Hr.
  pose proof (convert_length _ _ Hdf) as Hlen.
  pose proof (window_rows_length csv n) as Hwin.
  unfold start_row, end_row, batch_size in *. lia.
Qed.

(** The greatest of a list of ordinals, 0 for the empty list. *)
Lemma high_water_spec (w : Warehouse) :
  let ordinals := map STAGING.ROW_NUMBER_IN_FILE (ONLINE_RETAIL_STAGING w) in
  (ordinals = [] /\ high_water w = 0)
  \/ (In (high_water w) ordinals /\ forall x, In x ordinals -> x <= high_water w).
Proof.
  cbn zeta. unfold high_water, max_row_number.
  rewrite <- (map_map STAGING.ROW_NUMBER_IN_FILE (fun x => Some x)).
  destruct (SQL.MAX_Z _) as [m|] eqn:E.
  - right. apply MAX_Z_spec, E.
  - left. split; [apply MAX_Z_none, E|reflexivity].
Qed.

(** With a rejected row the mark after the run points to the batch again
    exactly when no later batch is staged and either the run stages a row
    or the mark pointed to the batch before. *)
Lemma high_water_after_run (env : Env) (batch_number : option Z) (w : Warehouse) :
  let n := resolved env batch_number w in
  let rows := new_rows env n (start_row n) (end_row n) (ONLINE_RETAIL_STAGING w) in
  let w' := store (run_incremental_batch env batch_number) w in
  0 < rejected env n ->
  (high_water w < n * batch_size
   /\ (rows <> [] \/ (n - 1) * batch_size <= high_water w) ->
   (n - 1) * batch_size <= high_water w' < n * batch_size)
  /\ (1 <= n ->
      (n - 1) * batch_size <= high_water w' < n * batch_size ->
      high_water w < n * batch_size
      /\ (rows <> [] \/ (n - 1) * batch_size <= high_water w)).
Proof.
  cbn zeta. set (n := resolved env batch_number w). intros Hrej.
  set (rows := new_rows env n (start_row n) (end_row n) (ONLINE_RETAIL_STAGING w)).
  assert (Hrows : forall x, In x (map STAGING.ROW_NUMBER_IN_FILE rows) ->
                            start_row n <= x < end_row n).
  { intros x Hx. apply in_map_iff in Hx. destruct Hx as (r & <- & Hr).
    exact (new_rows_range env n _ r Hrej Hr). }
  pose proof (high_water_spec w) as Hold.
  pose proof (high_water_spec (store (run_incremental_batch env batch_number) w)) as Hnew.
  cbn zeta in Hold, Hnew. rewrite run_staging in Hnew. cbn zeta in Hnew.
  fold n rows in Hnew. rewrite map_app in Hnew.
  set (old := map STAGING.ROW_NUMBER_IN_FILE (ONLINE_RETAIL_STAGING w)) in *.
  set (new := map STAGING.ROW_NUMBER_IN_FILE rows) in *.
  set (M := high_water w) in *.
  set (M' := high_water (store (run_incremental_batch env batch_number) w)) in *.
  assert (Hempty : rows = [] <-> new = []).
  { unfold new. destruct rows; cbn; split; intros H; try reflexivity; discriminate H. }
  unfold start_row, end_row, batch_size in *.
  split.
  - intros (Hlt & Hge).
    destruct Hnew as [(Enil & ->)|(Hin' & Hup')].
    + apply app_eq_nil in Enil. destruct Enil as (Eold & Enew).
      destruct Hold as [(_ & E0)|(Hin & _)]; [|rewrite Eold in Hin; destruct Hin].
      destruct Hge as [Hge|Hge]; [destruct Hge; apply Hempty, Enew|lia].
    + apply in_app_or in Hin'. split.
      * destruct Hge as [Hge|Hge].
        -- destruct new as [|x l] eqn:En; [destruct Hge; apply Hempty; reflexivity|].
           assert (Hx : In x (old ++ x :: l)) by (apply in_or_app; right; left; reflexivity).
           specialize (Hup' x Hx). specialize (Hrows x (or_introl eq_refl)). lia.
        -- destruct Hold as [(Eold & E0)|(Hin & _)].
           ++ rewrite Eold in Hin'. destruct Hin' as [[]|Hin'].
              specialize (Hrows _ Hin'). lia.
           ++ assert (Hx : In M (old ++ new)) by (apply in_or_app; left; exact Hin).
              specialize (Hup' M Hx). lia.
      * destruct Hin' as [Hin'|Hin'].
        -- destruct Hold as [(Eold & _)|(_ & Hup)]; [rewrite Eold in Hin'; destruct Hin'|].
           specialize (Hup _ Hin'). lia.
        -- specialize (Hrows _ Hin'). lia.
  - intros Hn Hwin. split.
    + destruct Hold as [(_ & E0)|(Hin & _)]; [lia|].
      destruct Hnew as [(Enil & _)|(_ & Hup')].
      * apply app_eq_nil in Enil. destruct Enil as (Eold & _).
        rewrite Eold in Hin. destruct Hin.
      * assert (Hx : In M (old ++ new)) by (apply in_or_app; left; exact Hin).
        specialize (Hup' M Hx). lia.
    + destruct rows as [|r l] eqn:Er; [right|left; discriminate].
      assert (Enew : new = []) by (apply Hempty; reflexivity).
      rewrite Enew, app_nil_r in Hnew.
      destruct Hnew as [(Eold & E0')|(Hin' & Hup')];
        destruct Hold as [(Eold' & E0)|(Hin & Hup)]; try lia.
      * rewrite Eold in Hin. destruct Hin.
      * rewrite Eold' in Hin'. destruct Hin'.
      * specialize (Hup _ Hin'). specialize (Hup' _ Hin). lia.
Qed.

Lemma next_batch_of (m n : Z) :
  (n - 1) * batch_size <= m < n * batch_size <-> m / batch_size + 1 = n.
Proof.
  unfold batch_size. split.
  - intros H.
    assert (E : m / 1000 = n - 1).
    { symmetry. apply (Z.div_unique m 1000 (n - 1) (m - 1000 * (n - 1))); lia. }
    lia.
  - intros <-.
    pose proof (Z.mul_div_le m 1000 eq_refl).
    pose proof (Z.mul_succ_div_gt m 1000 eq_refl). lia.
Qed.

Lemma floor_window (m : Z) :
  (m / batch_size + 1 - 1) * batch_size <= m < (m / batch_size + 1) * batch_size.
Proof. apply next_batch_of. reflexivity. Qed.

(** C10, as the code has it: the ordinal stored with a row is its
    position among the cleaned rows of the window, counted from
    [start_row].  So when cleaning drops at least one row of batch [n],
    the greatest staged ordinal after the run is below [end_row] and
    [floor(max/B) + 1] is [n] again as soon as no ordinal of a later batch
    was staged before (the greatest ordinal [M] before the run is below
    [n*B]) and the run stages a row or [M] is at least [(n-1)*B]; for
    [n >= 1] in no other case.  It is so whenever the number was derived
    from the store; and the number the pipeline derives is that quotient
    when the MAX query is accepted. *)
Theorem C10_rejected_row_repeats_the_batch
    (env : Env) (batch_number : option Z) (w : Warehouse) :
  let n := resolved env batch_number w in
  let rows := new_rows env n (start_row n) (end_row n) (ONLINE_RETAIL_STAGING w) in
  let w' := store (run_incremental_batch env batch_number) w in
  0 < rejected env n ->
  (forall df i r,
      nth_error (candidates env n (start_row n) df) i = Some r ->
      STAGING.ROW_NUMBER_IN_FILE r = start_row n + Z.of_nat i)
  /\ (high_water w < n * batch_size
      /\ (rows <> [] \/ (n - 1) * batch_size <= high_water w) ->
      high_water w' < end_row n /\ high_water w' / batch_size + 1 = n)
  /\ (1 <= n ->
      high_water w' < end_row n /\ high_water w' / batch_size + 1 = n ->
      high_water w < n * batch_size
      /\ (rows <> [] \/ (n - 1) * batch_size <= high_water w))
  /\ (sql_error env SELECT_MAX_ROW_NUMBER_IN_FILE = None ->
      outcome (get_last_processed_row env) w' = inr (high_water w')
      /\ outcome (resolve_window env None) w'
         = inr {| batch_number_of := high_water w' / batch_size + 1;
                  start_row_of := start_row (high_water w' / batch_size + 1);
                  end_row_of := end_row (high_water w' / batch_size + 1) |}
      /\ (batch_number = None ->
          high_water w' < end_row n
          /\ outcome (resolve_window env None) w'
             = inr {| batch_number_of := n;
                      start_row_of := start_row n;
                      end_row_of := end_row n |})).
Proof.
  cbn zeta. set (n := resolved env batch_number w). intros Hrej.
  destruct (high_water_after_run env batch_number w Hrej) as (Hto & Hfrom).
  fold n in Hto, Hfrom.
  set (w' := store (run_incremental_batch env batch_number) w) in *.
  split.
  { intros df i r H. unfold candidates in H. exact (add_metadata_nth _ _ _ _ _ _ H). }
  split.
  { intros H. apply Hto in H. split; [unfold end_row; lia|]. apply next_batch_of, H. }
  split.
  { intros Hn (_ & H). apply Hfrom; [exact Hn|]. apply next_batch_of, H. }
  intros Hq.
  assert (Hlast : last_processed env w' = high_water w').
  { unfold last_processed, high_water. rewrite Hq. reflexivity. }
  split.
  { unfold outcome. rewrite get_last_processed_row_spec. cbn [fst].
    rewrite Hlast. reflexivity. }
  split.
  { unfold outcome. rewrite resolve_window_spec. cbn [fst]. rewrite Hlast. reflexivity. }
  intros ->.
  assert (Hold : (n - 1) * batch_size <= high_water w < n * batch_size).
  { subst n. unfold resolved, last_processed. rewrite Hq.
    fold (high_water w). apply floor_window. }
  assert (Hnew : (n - 1) * batch_size <= high_water w' < n * batch_size).
  { apply Hto. split; [lia|right; lia]. }
  split; [unfold end_row; lia|].
  unfold outcome. rewrite resolve_window_spec. cbn [fst].
  rewrite Hlast. apply next_batch_of in Hnew. rewrite Hnew. reflexivity.
Qed.

(** The first window of the extract [sale; quantity 0; sale], on an empty
    store, with the batch number derived from the store. *)
Lemma C10_witness :
  let env :=
    Scenario.healthy
      [Scenario.sale "536365" "A" 2 2.5; Scenario.sale "536365" "C" 0 1;
       Scenario.sale "536365" "B" 1 1] in
  let w' := store (run_incremental_batch env None) empty_warehouse in
  rejected env 1 = 1
  /\ map STAGING.ROW_NUMBER_IN_FILE (ONLINE_RETAIL_STAGING w') = [1; 2]
  /\ high_water w' < end_row 1
  /\ outcome (resolve_window env None) w'
     = inr {| batch_number_of := 1; start_row_of := 1; end_row_of := 1000 |}.
Proof.
  intros env w'.
  destruct (C10_rejected_row_repeats_the_batch env None empty_warehouse)
    as (_ & _ & _ & H).
  - vm_compute. reflexivity.
  - destruct (H eq_refl) as (_ & _ & H'). destruct (H' eq_refl) as (H3 & H4).
    split; [vm_compute; reflexivity|].
    split; [vm_compute; reflexivity|].
    split; [exact H3|exact H4].
Defined.

(** The claim speaks of every batch with a rejected row.  Batch 2, whose
    window has a row of quantity 0, is run on a store that already holds
    batch 3 (invoice numbers and stock codes are text, so the load builds
    its keys and stages 999 rows): the greatest ordinal after the run is
    2001, not below [end_row = 2000], and the next derived batch is 3,
    not 2. *)
Lemma C10_counterexample :
  let env := Scenario.healthy Scenario.three_batches in
  let w' := Scenario.then_batch_2 in
  rejected env 2 = 1
  /\ outcome (run_incremental_batch env (Some 2)) Scenario.batch_3_first = inr true
  /\ outcome (get_last_processed_row env) w' = inr 2001
  /\ end_row 2 = 2000
  /\ outcome (resolve_window env None) w'
     = inr {| batch_number_of := 3; start_row_of := 2001; end_row_of := 3000 |}
  /\ ~ (2001 < end_row 2)
  /\ (let types := read_dtypes
                     (window_rows Scenario.three_batches (start_row 2) (end_row 2)) in
      (INVOICE_NO_dtype types, STOCK_CODE_dtype types) = (object, object))
  /\ List.length (ONLINE_RETAIL_STAGING Scenario.batch_3_first) = 1%nat
  /\ List.length (ONLINE_RETAIL_STAGING w') = 1000%nat
  /\ high_water Scenario.batch_3_first = 2001.
Proof.
  intros env w'.
  split; [vm_compute; reflexivity|].
  split; [vm_compute; reflexivity|].
  split; [vm_compute; reflexivity|].
  split; [reflexivity|].
  split; [vm_compute; reflexivity|].
  split; [vm_compute; discriminate|].
  split; [vm_compute; reflexivity|].
  split; [vm_compute; reflexivity|].
  split; vm_compute; reflexivity.
Qed.

(* ================================================================== *)
(** * Further properties of the pipeline                               *)
(* ================================================================== *)

(* ------------------------------------------------------------------ *)
(** ** What cleaning keeps                                             *)
(* ------------------------------------------------------------------ *)

(** The date cell can be read in a column of the given format: it is
    empty, or a date written in that format (in any, when no format was
    inferred). *)
Definition date_reads (format : option string) (r : CSV.row) : bool :=
  match to_datetime format (CSV.InvoiceDate r) with inl _ => false | inr _ => true end.

(** The cleaned form of a line in a frame of the given types, when lines
    114-122 keep it. *)
Definition kept (types : Dtypes) (r : CSV.row) : option CLEAN.row :=
  match str_of (INVOICE_NO_dtype types) (CSV.InvoiceNo r),
        str_of (STOCK_CODE_dtype types) (CSV.StockCode r),
        CSV.InvoiceDate r, CSV.Quantity r, CSV.UnitPrice r with
  | Some i, Some s, Date _ d, Parsed q, Parsed p =>
      if (q =? 0)%Z then None
      else Some {| CLEAN.INVOICE_NO := i; CLEAN.STOCK_CODE := s;
                   CLEAN.DESCRIPTION := CSV.Description r;
                   CLEAN.QUANTITY := q; CLEAN.INVOICE_DATE := d;
                   CLEAN.UNIT_PRICE := p;
                   CLEAN.CUSTOMER_ID := to_numeric (CSV.CustomerID r);
                   CLEAN.COUNTRY := CSV.Country r;
                   CLEAN.dtypes := types |}
  | _, _, _, _, _ => None
  end.

Lemma convert_raises (types : Dtypes) (raw : list CSV.row) :
  forallb (date_reads (INVOICE_DATE_format types)) raw = false ->
  exists e, convert_rows types raw = inl e.
Proof.
  induction raw as [|r raw IH]; cbn [forallb convert_rows]; [discriminate|].
  unfold date_reads at 1.
  destruct (to_datetime _ (CSV.InvoiceDate r)) as [e|d]; cbn [andb]; intros H.
  - exists e. reflexivity.
  - destruct (IH H) as [e ->]. exists e. reflexivity.
Qed.

Lemma convert_cleaned (types : Dtypes) (raw : list CSV.row) :
  forallb (date_reads (INVOICE_DATE_format types)) raw = true ->
  exists df,
    convert_rows types raw = inr df
    /\ filter nonzero_quantity (dropna df)
       = flat_map (fun r => match kept types r with Some c => [c] | None => [] end) raw.
Proof.
  induction raw as [|r raw IH]; cbn [forallb convert_rows flat_map].
  - intros _. exists []. split; reflexivity.
  - intros H. apply andb_true_iff in H. destruct H as [Hr H].
    destruct (IH H) as (df & -> & Hdf).
    unfold date_reads in Hr. unfold kept.
    destruct (to_datetime _ (CSV.InvoiceDate r)) as [e|d] eqn:Ed; [discriminate Hr|].
    eexists. split; [reflexivity|].
    unfold dropna; cbn [flat_map]; fold (dropna df).
    unfold complete; cbn [DF.INVOICE_NO DF.STOCK_CODE DF.INVOICE_DATE
                            DF.QUANTITY DF.UNIT_PRICE DF.DESCRIPTION
                            DF.CUSTOMER_ID DF.COUNTRY DF.dtypes].
    destruct (str_of _ (CSV.InvoiceNo r)); [|exact Hdf].
    destruct (str_of _ (CSV.StockCode r)); [|exact Hdf].
    assert (Hd : d = match CSV.InvoiceDate r with Date _ t => Some t | _ => None end).
    { unfold to_datetime in Ed. destruct (CSV.InvoiceDate r) as [|f t|x].
      - injection Ed as <-. reflexivity.
      - destruct (INVOICE_DATE_format types) as [f0|].
        + destruct (String.eqb f f0); [|discriminate Ed]. injection Ed as <-. reflexivity.
        + injection Ed as <-. reflexivity.
      - discriminate Ed. }
    rewrite Hd.
    destruct (CSV.InvoiceDate r) as [|f t|x]; try exact Hdf;
      destruct (CSV.Quantity r) as [|q|?], (CSV.UnitPrice r) as [|p|?];
      cbn [to_numeric app]; try exact Hdf;
      cbn [filter]; unfold nonzero_quantity at 1; cbn [CLEAN.QUANTITY];
      destruct (q =? 0)%Z; cbn [negb app]; rewrite Hdf; reflexivity.
Qed.

Lemma str_of_none (dtype : Dtype) (c : Field) : str_of dtype c = None <-> c = Blank.
Proof.
  destruct c, dtype; cbn; split; intros H; try reflexivity; discriminate H.
Qed.

(** X1: when every date cell of a window is empty or written in the
    format inferred from the first date of the window, cleaning works row
    by row: a line survives exactly when invoice number and stock code are
    present, date, quantity and unit price are well-formed and the
    quantity is not 0; an empty or unparseable customer id is kept as
    missing.  One cell that is no date, or a date in another format than
    the inferred one, makes the conversion of the whole window raise. *)
Theorem X1_cleaning_row_by_row (raw : list CSV.row) :
  let types := read_dtypes raw in
  let format := inferred_format (map CSV.InvoiceDate raw) in
  (forallb (date_reads format) raw = true ->
   exists df,
     convert raw = inr df
     /\ filter nonzero_quantity (dropna df)
        = flat_map (fun r => match kept types r with Some c => [c] | None => [] end) raw)
  /\ (forallb (date_reads format) raw = false -> exists e, convert raw = inl e)
  /\ (forall r : CSV.row,
        date_reads format r = true
        <-> (CSV.InvoiceDate r = No_date
             \/ exists written t,
                  CSV.InvoiceDate r = Date written t
                  /\ (format = None \/ format = Some written)))
  /\ (forall r : CSV.row,
        kept types r <> None
        <-> (CSV.InvoiceNo r <> Blank /\ CSV.StockCode r <> Blank
             /\ (exists written d, CSV.InvoiceDate r = Date written d)
             /\ (exists q, CSV.Quantity r = Parsed q /\ q <> 0)
             /\ (exists p, CSV.UnitPrice r = Parsed p))).
Proof.
  cbn zeta. split; [apply (convert_cleaned (read_dtypes raw))|].
  split; [apply (convert_raises (read_dtypes raw))|].
  split.
  - intros r. unfold date_reads, to_datetime.
    destruct (CSV.InvoiceDate r) as [|f t|x].
    + split; [left; reflexivity|reflexivity].
    + destruct (inferred_format _) as [f0|].
      * destruct (String.eqb_spec f f0) as [E|E]; split.
        -- intros _. right. exists f, t. split; [reflexivity|right; congruence].
        -- reflexivity.
        -- discriminate.
        -- intros [H|(f' & t' & [= -> ->] & [H|[= H]])]; try discriminate H.
           destruct (E (eq_sym H)).
      * split; [|reflexivity]. intros _. right. exists f, t. split; [reflexivity|left; reflexivity].
    + split; [discriminate|]. intros [H|(f' & t' & H & _)]; discriminate H.
  - intros r. unfold kept.
    pose proof (str_of_none (INVOICE_NO_dtype (read_dtypes raw)) (CSV.InvoiceNo r)) as Hi.
    pose proof (str_of_none (STOCK_CODE_dtype (read_dtypes raw)) (CSV.StockCode r)) as Hs.
    split.
    + destruct (str_of _ (CSV.InvoiceNo r)); [|intros H; exfalso; apply H; reflexivity].
      destruct (str_of _ (CSV.StockCode r)); [|intros H; exfalso; apply H; reflexivity].
      destruct (CSV.InvoiceDate r) as [|f d|?],
        (CSV.Quantity r) as [|q|?], (CSV.UnitPrice r) as [|p|?];
        try (intros H; exfalso; apply H; reflexivity).
      destruct (Z.eqb_spec q 0) as [E|E]; [intros H; exfalso; apply H; reflexivity|].
      intros _. split; [intros B; apply Hi in B; discriminate B|].
      split; [intros B; apply Hs in B; discriminate B|].
      repeat split; eauto.
    + intros (Hi' & Hs' & (f & d & Hd) & (q & Hq & Hq0) & (p & Hp)).
      rewrite Hd, Hq, Hp.
      destruct (str_of _ (CSV.InvoiceNo r)); [|destruct Hi' ; apply Hi; reflexivity].
      destruct (str_of _ (CSV.StockCode r)); [|destruct Hs'; apply Hs; reflexivity].
      destruct (Z.eqb_spec q 0) as [E|E]; [contradiction|discriminate].
Qed.

(* ------------------------------------------------------------------ *)
(** ** What the load stamps on a row                                   *)
(* ------------------------------------------------------------------ *)

Lemma add_metadata_In (env : Env) (n : Z) (df : list CLEAN.row) :
  forall o r,
    In r (add_metadata env n o df) ->
    exists c, In c df /\ exists i, r = staged env n (o + Z.of_nat i) c.
Proof.
  induction df as [|c df IH]; intros o r H; cbn [add_metadata] in H.
  - destruct H.
  - destruct H as [<-|H].
    + exists c. split; [left; reflexivity|]. exists 0%nat.
      rewrite Z.add_0_r. reflexivity.
    + destruct (IH _ _ H) as (c' & Hc & i & ->).
      exists c'. split; [right; exact Hc|]. exists (S i).
      f_equal. lia.
Qed.

Lemma dropna_length (df : list DF.row) :
  (List.length (dropna df) <= List.length df)%nat.
Proof.
  unfold dropna. induction df as [|r df IH]; cbn [flat_map List.length]; [lia|].
  rewrite length_app. destruct (complete r); cbn [List.length]; lia.
Qed.

Lemma cleaned_length (df : list DF.row) :
  (List.length (filter nonzero_quantity (dropna df)) <= List.length df)%nat.
Proof.
  pose proof (filter_length_le nonzero_quantity (dropna df)).
  pose proof (dropna_length df). lia.
Qed.

(** A row of the converted frame comes from a line of the window and
    carries the types of the frame. *)
Lemma convert_rows_In (types : Dtypes) (raw : list CSV.row) :
  forall df d,
    convert_rows types raw = inr df -> In d df ->
    DF.dtypes d = types
    /\ exists r, In r raw
                 /\ DF.QUANTITY d = to_numeric (CSV.Quantity r)
                 /\ DF.UNIT_PRICE d = to_numeric (CSV.UnitPrice r).
Proof.
  induction raw as [|r raw IH]; cbn [convert_rows]; intros df d H Hin.
  - injection H as <-. destruct Hin.
  - destruct (to_datetime _ (CSV.InvoiceDate r)); [discriminate H|].
    destruct (convert_rows types raw) as [|df']; [discriminate H|].
    injection H as <-. destruct Hin as [<-|Hin].
    + split; [reflexivity|]. exists r. split; [left; reflexivity|]. split; reflexivity.
    + destruct (IH df' d eq_refl Hin) as (Ht & r' & Hr & Hq & Hp).
      split; [exact Ht|]. exists r'. split; [right; exact Hr|]. split; assumption.
Qed.

Lemma dropna_In (df : list DF.row) (c : CLEAN.row) :
  In c (dropna df) -> exists d, In d df /\ complete d = Some c.
Proof.
  unfold dropna. intros H. apply in_flat_map in H. destruct H as (d & Hd & H).
  exists d. split; [exact Hd|]. destruct (complete d); [|destruct H].
  destruct H as [<-|[]]. reflexivity.
Qed.

Lemma complete_fields (d : DF.row) (c : CLEAN.row) :
  complete d = Some c ->
  DF.QUANTITY d = Some (CLEAN.QUANTITY c)
  /\ DF.UNIT_PRICE d = Some (CLEAN.UNIT_PRICE c)
  /\ CLEAN.dtypes c = DF.dtypes d.
Proof.
  unfold complete.
  destruct (DF.INVOICE_NO d), (DF.STOCK_CODE d), (DF.INVOICE_DATE d),
    (DF.QUANTITY d), (DF.UNIT_PRICE d); try discriminate.
  intros [= <-]. repeat split.
Qed.

(** In a price column held as int64 every price is an integer. *)
Lemma whole_price (raw : list CSV.row) (r : CSV.row) (p : Q) :
  numeric_dtype is_whole (map CSV.UnitPrice raw) = int64 ->
  In r raw -> CSV.UnitPrice r = Parsed p -> Qden p = 1%positive.
Proof.
  unfold numeric_dtype. intros H Hr Hp.
  destruct (forallb is_whole (map CSV.UnitPrice raw)) eqn:E; [|discriminate H].
  rewrite forallb_forall in E. specialize (E (CSV.UnitPrice r) (in_map _ _ _ Hr)).
  rewrite Hp in E. cbn in E. apply Pos.eqb_eq, E.
Qed.

Lemma int64_wrap_small (z : Z) : - 2 ^ 63 <= z < 2 ^ 63 -> int64_wrap z = z.
Proof.
  intros H. unfold int64_wrap. rewrite Z.mod_small; lia.
Qed.

(** X2: every row a staging load appends has a quantity other than 0,
    carries the tag [CSV_BATCH_n], the file name of the batch and the load
    time, has [IS_RETURN] and [HAS_MISSING_CUSTOMER_ID] computed from its
    own quantity and customer, and an ordinal inside the window of the
    batch.  Its [TOTAL_AMOUNT] is the product of quantity and price in the
    arithmetic of the two columns of its window: binary64 as soon as one
    of them is float64; int64 with wrap-around when both are int64, which
    is the exact product as long as that fits in 64 bits. *)
Theorem X2_appended_rows_are_stamped
    (env : Env) (n : Z) (w : Warehouse) (r : STAGING.row) :
  In r (ONLINE_RETAIL_STAGING
          (store (load_batch_to_staging env n (start_row n) (end_row n)) w)) ->
  In r (ONLINE_RETAIL_STAGING w)
  \/ (STAGING.QUANTITY r <> 0
      /\ STAGING.DATA_SOURCE r = "CSV_BATCH_" ++ str n
      /\ STAGING.FILE_NAME r = "online_retail_batch_" ++ str n ++ ".csv"
      /\ STAGING.LOAD_TIMESTAMP r = now env
      /\ STAGING.IS_RETURN r = (STAGING.QUANTITY r <? 0)%Z
      /\ (STAGING.HAS_MISSING_CUSTOMER_ID r = true <-> STAGING.CUSTOMER_ID r = None)
      /\ (exists csv,
            csv_file env = Some csv
            /\ let types := read_dtypes (window_rows csv (start_row n) (end_row n)) in
               let q := STAGING.QUANTITY r in
               let p := STAGING.UNIT_PRICE r in
               (QUANTITY_dtype types = float64 \/ UNIT_PRICE_dtype types = float64 ->
                STAGING.TOTAL_AMOUNT r = float64_mul env q p)
               /\ (QUANTITY_dtype types = int64 -> UNIT_PRICE_dtype types = int64 ->
                   STAGING.TOTAL_AMOUNT r = inject_Z (int64_wrap (q * Qnum p))
                   /\ (- 2 ^ 63 <= q * Qnum p < 2 ^ 63 ->
                       (STAGING.TOTAL_AMOUNT r == inject_Z q * p)%Q)))
      /\ start_row n <= STAGING.ROW_NUMBER_IN_FILE r <= end_row n).
Proof.
  unfold store. rewrite load_batch_to_staging_spec.
  cbn [snd ONLINE_RETAIL_STAGING with_staging]. intros Hin.
  apply in_app_or in Hin. destruct Hin as [Hin|Hin]; [left; exact Hin|right].
  apply new_rows_In in Hin. destruct Hin as (csv & df & Hcsv & Hdf & Hr & _).
  unfold candidates in Hr.
  pose proof (add_metadata_range _ _ _ _ _ Hr) as Hrange.
  pose proof (cleaned_length df) as Hlen.
  pose proof (convert_length _ _ Hdf) as Hlen'.
  pose proof (window_rows_length csv n) as Hwin.
  apply add_metadata_In in Hr. destruct Hr as (c & Hc & i & ->).
  apply filter_In in Hc. destruct Hc as [Hc Hq].
  unfold nonzero_quantity in Hq. apply negb_true_iff, Z.eqb_neq in Hq.
  apply dropna_In in Hc. destruct Hc as (d & Hd & Hc).
  apply complete_fields in Hc. destruct Hc as (Cq & Cp & Ct).
  destruct (convert_rows_In _ _ _ _ Hdf Hd) as (Dt & r0 & Hr0 & Dq & Dp).
  rewrite Dt in Ct. rewrite Cp in Dp.
  cbn [staged STAGING.QUANTITY STAGING.DATA_SOURCE STAGING.FILE_NAME
         STAGING.LOAD_TIMESTAMP STAGING.IS_RETURN STAGING.HAS_MISSING_CUSTOMER_ID
         STAGING.CUSTOMER_ID STAGING.TOTAL_AMOUNT STAGING.UNIT_PRICE
         STAGING.ROW_NUMBER_IN_FILE] in *.
  split; [exact Hq|]. split; [reflexivity|]. split; [reflexivity|].
  split; [reflexivity|]. split; [reflexivity|]. split.
  { destruct (CLEAN.CUSTOMER_ID c); split; intros H; try reflexivity; discriminate H. }
  split.
  { exists csv. split; [exact Hcsv|]. cbn zeta. rewrite Ct. unfold multiply. split.
    - intros [H|H]; rewrite H; [reflexivity|].
      destruct (QUANTITY_dtype _); reflexivity.
    - intros Hq64 Hp64. rewrite Hq64, Hp64. split; [reflexivity|].
      intros Hfit. rewrite (int64_wrap_small _ Hfit).
      assert (Hden : Qden (CLEAN.UNIT_PRICE c) = 1%positive).
      { apply (whole_price (window_rows csv (start_row n) (end_row n)) r0);
          [exact Hp64|exact Hr0|].
        destruct (CSV.UnitPrice r0); try discriminate Dp.
        cbn in Dp. injection Dp as ->. reflexivity. }
      unfold Qeq, inject_Z, Qmult. cbn [Qnum Qden]. rewrite Hden. reflexivity. }
  unfold start_row, end_row, batch_size in *. lia.
Qed.

(* ------------------------------------------------------------------ *)
(** ** Published facts                                                 *)
(* ------------------------------------------------------------------ *)

(** X3: the fact INSERT appends, after the facts already there, one fact
    for each staged row that carries the tag of the batch and a quantity
    other than 0; such a fact has the key of its row as identifier, is a
    SALE for a positive and a RETURN for a negative quantity, never
    UNKNOWN, and is a guest purchase exactly when the customer id is
    missing.  When the statement is refused nothing is appended and the
    exception is raised again. *)
Theorem X3_facts_of_the_batch (env : Env) (n : Z) (w : Warehouse) :
  let w' := store (append_to_transactions_fact env n) w in
  (sql_error env (INSERT_TRANSACTIONS n) = None ->
   outcome (append_to_transactions_fact env n) w = inr tt
   /\ TRANSACTIONS w'
      = (TRANSACTIONS w
         ++ map fact_of
              (filter (fun r => String.eqb (STAGING.DATA_SOURCE r) ("CSV_BATCH_" ++ str n)
                                && negb (STAGING.QUANTITY r =? 0)%Z)
                 (ONLINE_RETAIL_STAGING w)))%list)
  /\ (forall e, sql_error env (INSERT_TRANSACTIONS n) = Some e ->
                append_to_transactions_fact env n w = (inl e, w))
  /\ (forall r : STAGING.row,
        STAGING.QUANTITY r <> 0 ->
        TRANSACTIONS.TRANSACTION_ID (fact_of r) = TRANSACTION_KEY r
        /\ TRANSACTIONS.QUANTITY (fact_of r) = STAGING.QUANTITY r
        /\ (0 < STAGING.QUANTITY r -> TRANSACTIONS.TRANSACTION_TYPE (fact_of r) = SALE)
        /\ (STAGING.QUANTITY r < 0 -> TRANSACTIONS.TRANSACTION_TYPE (fact_of r) = RETURN)
        /\ TRANSACTIONS.TRANSACTION_TYPE (fact_of r) <> UNKNOWN
        /\ (TRANSACTIONS.IS_GUEST_PURCHASE (fact_of r) = true
            <-> STAGING.CUSTOMER_ID r = None)).
Proof.
  cbn zeta. split; [|split].
  - intros H. unfold outcome, store, append_to_transactions_fact.
    unfold try_except, bind, ret, execute_sql. rewrite H. cbn. split; reflexivity.
  - intros e H. unfold append_to_transactions_fact.
    unfold try_except, bind, ret, raise, execute_sql. rewrite H. reflexivity.
  - intros r Hq. unfold fact_of.
    cbn [TRANSACTIONS.TRANSACTION_ID TRANSACTIONS.QUANTITY
           TRANSACTIONS.TRANSACTION_TYPE TRANSACTIONS.IS_GUEST_PURCHASE].
    split; [reflexivity|]. split; [reflexivity|].
    destruct (Z.ltb_spec 0 (STAGING.QUANTITY r)) as [Hp|Hp];
      destruct (Z.ltb_spec (STAGING.QUANTITY r) 0) as [Hn|Hn]; try lia.
    + split; [reflexivity|]. split; [lia|]. split; [discriminate|].
      destruct (STAGING.CUSTOMER_ID r); split; intros H; try reflexivity; discriminate H.
    + split; [lia|]. split; [reflexivity|]. split; [discriminate|].
      destruct (STAGING.CUSTOMER_ID r); split; intros H; try reflexivity; discriminate H.
Qed.

(* ------------------------------------------------------------------ *)
(** ** The insert loop                                                 *)
(* ------------------------------------------------------------------ *)

(** X4: the insert loop never raises; it appends to staging, in order,
    exactly the rows whose INSERT the warehouse accepts, skips the others
    and goes on, and returns the count it started with plus the number of
    rows appended. *)
Theorem X4_insert_loop_skips_refused_rows
    (env : Env) (df : list STAGING.row) (c : Z) (w : Warehouse) :
  let accepted :=
    filter (fun r => match sql_error env (INSERT_STAGING r) with
                     | None => true
                     | Some _ => false
                     end) df in
  insert_rows env df c w
  = (inr (c + Z.of_nat (List.length accepted)),
     with_staging (ONLINE_RETAIL_STAGING w ++ accepted)%list w)
  /\ (List.length accepted <= List.length df)%nat.
Proof.
  cbn zeta. split.
  - exact (insert_rows_spec env df c w).
  - apply filter_length_le.
Qed.

(* ------------------------------------------------------------------ *)
(** ** A run that completes                                            *)
(* ------------------------------------------------------------------ *)

(** The four statements of [update_dimensions_incremental], in order. *)
Definition aggregated (now : Z) (w : Warehouse) : Warehouse :=
  merge_countries now (update_segments now (merge_customers now (merge_products now w))).

(** The warehouse accepts the aggregation and publication statements. *)
Definition accepts_batch (env : Env) (n : Z) : Prop :=
  sql_error env MERGE_PRODUCTS = None
  /\ sql_error env MERGE_CUSTOMERS = None
  /\ sql_error env UPDATE_CUSTOMER_SEGMENTS = None
  /\ sql_error env MERGE_COUNTRIES = None
  /\ sql_error env (INSERT_TRANSACTIONS n) = None.

Lemma run_completed (env : Env) (batch_number : option Z) (w : Warehouse) :
  let n := resolved env batch_number w in
  new_rows env n (start_row n) (end_row n) (ONLINE_RETAIL_STAGING w) <> [] ->
  accepts_batch env n ->
  run_incremental_batch env batch_number w
  = (inr true,
     written env (UPDATE_EXECUTION_LOG n COMPLETED (loaded env n w) None)
       (insert_transactions n (aggregated (now env) (after_load env n w)))).
Proof.
  cbn zeta. intros Hrows (Hp & Hc & Hs & Hk & Ht).
  rewrite run_incremental_batch_eq. cbn zeta.
  set (n := resolved env batch_number w) in *.
  assert (Hnz : (loaded env n w =? 0)%Z = false).
  { apply Z.eqb_neq. rewrite loaded_eq. intros E.
    apply length_zero_nil in E. contradiction. }
  rewrite Hnz.
  unfold update_dimensions_incremental, append_to_transactions_fact,
    try_except, bind, ret, execute_sql.
  rewrite Hp. cbn [run_sql]. rewrite Hc. cbn [run_sql]. rewrite Hs. cbn [run_sql].
  rewrite Hk. cbn [run_sql]. rewrite Ht. cbn [run_sql]. reflexivity.
Qed.

(** The tables after a run that completes. *)
Lemma completed_run_tables (env : Env) (batch_number : option Z) (w : Warehouse) :
  let n := resolved env batch_number w in
  let rows := new_rows env n (start_row n) (end_row n) (ONLINE_RETAIL_STAGING w) in
  let w' := store (run_incremental_batch env batch_number) w in
  rows <> [] ->
  accepts_batch env n ->
  outcome (run_incremental_batch env batch_number) w = inr true
  /\ ONLINE_RETAIL_STAGING w' = (ONLINE_RETAIL_STAGING w ++ rows)%list
  /\ TRANSACTIONS w'
     = (TRANSACTIONS w
        ++ map fact_of
             (filter (publishable n) (ONLINE_RETAIL_STAGING w ++ rows)))%list
  /\ PRODUCTS w'
     = SQL.MERGE products_on (products_update (now env)) (products_insert (now env))
         (PRODUCTS w) (products_source (ONLINE_RETAIL_STAGING w ++ rows))
  /\ (sql_error env (INSERT_EXECUTION_LOG n (start_row n) (end_row n)) = None ->
      sql_error env
        (UPDATE_EXECUTION_LOG n COMPLETED (Z.of_nat (List.length rows)) None) = None ->
      clock_ahead (now env) n (PIPELINE_EXECUTION_LOG w) ->
      PIPELINE_EXECUTION_LOG w'
      = (PIPELINE_EXECUTION_LOG w
         ++ [finished_entry (now env) n COMPLETED (Z.of_nat (List.length rows)) None])%list).
Proof.
  cbn zeta. intros Hrows Hacc.
  unfold outcome, store. rewrite (run_completed env batch_number w Hrows Hacc).
  cbn [fst snd]. set (n := resolved env batch_number w) in *.
  pose proof (after_load_staging env n w) as Hstaging.
  assert (Hframe := written_log_frame env
            (UPDATE_EXECUTION_LOG n COMPLETED (loaded env n w) None)
            (insert_transactions n (aggregated (now env) (after_load env n w)))).
  cbn zeta in Hframe.
  destruct Hframe as (F1 & F2 & _ & _ & F5); [right; eauto 6|].
  assert (G := written_log_frame env
                 (INSERT_EXECUTION_LOG n (start_row n) (end_row n)) w).
  cbn zeta in G. fold (after_log_start env n w) in G.
  destruct G as (_ & G2 & _ & _ & G5); [left; eauto|].
  split; [reflexivity|]. split; [rewrite F1; exact Hstaging|]. split.
  { rewrite F5. unfold insert_transactions.
    cbn [TRANSACTIONS with_transactions]. rewrite <- Hstaging.
    f_equal. exact G5. }
  split.
  { rewrite F2. cbn [insert_transactions aggregated PRODUCTS with_transactions
                       merge_countries with_countries update_segments
                       with_customers merge_customers merge_products with_products].
    rewrite <- Hstaging. f_equal. exact G2. }
  intros Hi Hu Hclock. rewrite loaded_eq. apply log_after_end; auto.
Qed.

(** X5: a run whose load appends at least one row and whose aggregation
    and publication statements are accepted returns [True]; staging grows
    by exactly the loaded rows; the facts grow by one fact for every
    staged row that carries the tag of the batch, the rows staged by
    earlier attempts included; the products table is the MERGE of the old
    table with the delta over the whole of staging; and, with the log
    statements accepted, the attempt is logged COMPLETED with the number
    of rows loaded. *)
Theorem X5_completed_run (env : Env) (batch_number : option Z) (w : Warehouse) :
  let n := resolved env batch_number w in
  let rows := new_rows env n (start_row n) (end_row n) (ONLINE_RETAIL_STAGING w) in
  let w' := store (run_incremental_batch env batch_number) w in
  rows <> [] ->
  accepts_batch env n ->
  outcome (run_incremental_batch env batch_number) w = inr true
  /\ ONLINE_RETAIL_STAGING w' = (ONLINE_RETAIL_STAGING w ++ rows)%list
  /\ TRANSACTIONS w'
     = (TRANSACTIONS w
        ++ map fact_of
             (filter (publishable n) (ONLINE_RETAIL_STAGING w ++ rows)))%list
  /\ PRODUCTS w'
     = SQL.MERGE products_on (products_update (now env)) (products_insert (now env))
         (PRODUCTS w) (products_source (ONLINE_RETAIL_STAGING w ++ rows))
  /\ (sql_error env (INSERT_EXECUTION_LOG n (start_row n) (end_row n)) = None ->
      sql_error env
        (UPDATE_EXECUTION_LOG n COMPLETED (Z.of_nat (List.length rows)) None) = None ->
      clock_ahead (now env) n (PIPELINE_EXECUTION_LOG w) ->
      PIPELINE_EXECUTION_LOG w'
      = (PIPELINE_EXECUTION_LOG w
         ++ [finished_entry (now env) n COMPLETED (Z.of_nat (List.length rows)) None])%list).
Proof. exact (completed_run_tables env batch_number w). Qed.

(** One sale, loaded into an empty warehouse. *)
Lemma X5_witness :
  let env := Scenario.healthy [Scenario.sale "536365" "A" 2 2.5] in
  let w' := store (run_incremental_batch env (Some 1)) empty_warehouse in
  outcome (run_incremental_batch env (Some 1)) empty_warehouse = inr true
  /\ List.length (ONLINE_RETAIL_STAGING w') = 1%nat
  /\ map TRANSACTIONS.TRANSACTION_ID (TRANSACTIONS w') = ["536365_A_1"].
Proof.
  intros env w'.
  destruct (X5_completed_run env (Some 1) empty_warehouse) as (H1 & H2 & H3 & _).
  - vm_compute. discriminate.
  - repeat split.
  - split; [exact H1|]. subst w'. rewrite H2, H3.
    split; vm_compute; reflexivity.
Defined.

(** The extract [Scenario.short] with a warehouse that refuses the INSERT
    of every row of stock code B, and the store after batch 1. *)
Definition refuses_B : Env :=
  {| csv_file := Some Scenario.short;
     sql_error := fun q =>
                    match q with
                    | INSERT_STAGING r =>
                        if String.eqb (STAGING.STOCK_CODE r) "B"
                        then Some "insert failed" else None
                    | _ => None
                    end;
     now := Scenario.clock;
     float64_mul := Scenario.exact |}.

Definition partly_loaded : Warehouse :=
  store (run_incremental_batch refuses_B (Some 1)) empty_warehouse.

(** The row of [Scenario.short] that [partly_loaded] holds. *)
Definition first_row : STAGING.row :=
  staged (Scenario.healthy Scenario.short) 1 1
    {| CLEAN.INVOICE_NO := "INV536365"; CLEAN.STOCK_CODE := "A";
       CLEAN.DESCRIPTION := Some "WHITE METAL LANTERN";
       CLEAN.QUANTITY := 2; CLEAN.INVOICE_DATE := 1291191960;
       CLEAN.UNIT_PRICE := 2.5; CLEAN.CUSTOMER_ID := Some 17850;
       CLEAN.COUNTRY := Some "United Kingdom";
       CLEAN.dtypes := read_dtypes Scenario.short |}.

(** X6: publication is not deduplicated.  When a batch that was partly
    staged and published is run again and loads at least one more row,
    the fact of every row staged and published before is appended a second
    time. *)
Theorem X6_retry_publishes_old_rows_again
    (env : Env) (batch_number : option Z) (w : Warehouse) (r0 : STAGING.row) :
  let n := resolved env batch_number w in
  let w' := store (run_incremental_batch env batch_number) w in
  new_rows env n (start_row n) (end_row n) (ONLINE_RETAIL_STAGING w) <> [] ->
  accepts_batch env n ->
  In r0 (ONLINE_RETAIL_STAGING w) ->
  STAGING.DATA_SOURCE r0 = batch_tag n ->
  STAGING.QUANTITY r0 <> 0 ->
  In (fact_of r0) (TRANSACTIONS w) ->
  exists l1 l2 l3,
    TRANSACTIONS w' = (l1 ++ fact_of r0 :: l2 ++ fact_of r0 :: l3)%list.
Proof.
  cbn zeta. intros Hrows Hacc Hin Htag Hq Hfact.
  destruct (completed_run_tables env batch_number w Hrows Hacc) as (_ & _ & -> & _).
  apply in_split in Hfact. destruct Hfact as (a & b & ->).
  assert (Hnew : In (fact_of r0)
                   (map fact_of
                      (filter (publishable (resolved env batch_number w))
                         (ONLINE_RETAIL_STAGING w
                          ++ new_rows env (resolved env batch_number w)
                               (start_row (resolved env batch_number w))
                               (end_row (resolved env batch_number w))
                               (ONLINE_RETAIL_STAGING w))))).
  { apply in_map, filter_In. split; [apply in_or_app; left; exact Hin|].
    unfold publishable. rewrite Htag, String.eqb_refl.
    apply Z.eqb_neq in Hq. rewrite Hq. reflexivity. }
  apply in_split in Hnew. destruct Hnew as (c & d & ->).
  exists a, (b ++ c)%list, d.
  rewrite <- !app_assoc. reflexivity.
Qed.

(** Batch 1 of the two-line extract: the first attempt stages and
    publishes A only, the second stages B and publishes A and B. *)
Lemma X6_witness :
  let env := Scenario.later Scenario.short in
  let w' := store (run_incremental_batch env (Some 1)) partly_loaded in
  map TRANSACTIONS.TRANSACTION_ID (TRANSACTIONS partly_loaded) = ["INV536365_A_1"]
  /\ map TRANSACTIONS.TRANSACTION_ID (TRANSACTIONS w')
     = ["INV536365_A_1"; "INV536365_A_1"; "INV536365_B_2"]
  /\ exists l1 l2 l3,
       TRANSACTIONS w' = (l1 ++ fact_of first_row :: l2 ++ fact_of first_row :: l3)%list.
Proof.
  intros env w'.
  split; [vm_compute; reflexivity|].
  split; [vm_compute; reflexivity|].
  apply (X6_retry_publishes_old_rows_again env (Some 1) partly_loaded first_row).
  - vm_compute. discriminate.
  - repeat split.
  - vm_compute. left. reflexivity.
  - reflexivity.
  - vm_compute. discriminate.
  - vm_compute. left. reflexivity.
Defined.

(* ------------------------------------------------------------------ *)
(** ** The execution log as a state machine                            *)
(* ------------------------------------------------------------------ *)

Lemma written_update_log (env : Env) (n : Z) (st : Status) (rows : Z)
    (clause : option string) (w1 w2 : Warehouse) :
  PIPELINE_EXECUTION_LOG w1 = PIPELINE_EXECUTION_LOG w2 ->
  PIPELINE_EXECUTION_LOG (written env (UPDATE_EXECUTION_LOG n st rows clause) w1)
  = PIPELINE_EXECUTION_LOG (written env (UPDATE_EXECUTION_LOG n st rows clause) w2).
Proof.
  intros E. unfold written.
  destruct (sql_error env _); [exact E|]. cbn [run_sql snd].
  apply log_update_log, E.
Qed.

(** The log after a run is the log after the start INSERT and one closing
    UPDATE to a terminal state. *)
Lemma run_log (env : Env) (batch_number : option Z) (w : Warehouse) :
  let n := resolved env batch_number w in
  exists st rows clause,
    st <> RUNNING
    /\ PIPELINE_EXECUTION_LOG (store (run_incremental_batch env batch_number) w)
       = PIPELINE_EXECUTION_LOG
           (written env (UPDATE_EXECUTION_LOG n st rows clause)
              (after_log_start env n w)).
Proof.
  cbn zeta. unfold store. rewrite run_incremental_batch_eq. cbn zeta.
  set (n := resolved env batch_number w).
  destruct (loaded env n w =? 0)%Z.
  { exists COMPLETED, 0, (Some "No new data to load"). split; [discriminate|].
    cbn [snd]. apply written_update_log, after_load_log. }
  pose proof (update_dimensions_frame env n (after_load env n w)) as F.
  unfold store in F. cbn zeta in F.
  destruct (update_dimensions_incremental env n (after_load env n w)) as [[x|[]] w2];
    cbn [snd] in F; destruct F as (_ & F & _).
  { exists FAILED, 0, (error_clause (Some x)). split; [discriminate|].
    cbn [snd]. apply written_update_log. rewrite F. apply after_load_log. }
  pose proof (append_to_transactions_frame env n w2) as G.
  unfold store in G. cbn zeta in G.
  destruct (append_to_transactions_fact env n w2) as [[x|[]] w3];
    cbn [snd] in G; destruct G as (_ & G & _).
  { exists FAILED, 0, (error_clause (Some x)). split; [discriminate|].
    cbn [snd]. apply written_update_log. rewrite G, F. apply after_load_log. }
  exists COMPLETED, (loaded env n w), None. split; [discriminate|].
  cbn [snd]. apply written_update_log. rewrite G, F. apply after_load_log.
Qed.

(** X7: a run changes the execution log in two ways only.  It appends at
    most one entry; and an entry that was there before stays at its place,
    either unchanged or, if it was RUNNING, closed to COMPLETED or FAILED
    with the same attempt identifier, start time and rows processed.  An
    entry in a terminal state is never modified. *)
Theorem X7_log_entries_only_close
    (env : Env) (batch_number : option Z) (w : Warehouse) :
  let log := PIPELINE_EXECUTION_LOG w in
  let log' := PIPELINE_EXECUTION_LOG (store (run_incremental_batch env batch_number) w) in
  (forall i entry,
      nth_error log i = Some entry ->
      exists entry',
        nth_error log' i = Some entry'
        /\ (entry' = entry
            \/ (LOG.STATUS entry = RUNNING
                /\ LOG.STATUS entry' <> RUNNING
                /\ LOG.EXECUTION_TYPE entry' = LOG.EXECUTION_TYPE entry
                /\ LOG.START_TIME entry' = LOG.START_TIME entry
                /\ LOG.ROWS_PROCESSED entry' = LOG.ROWS_PROCESSED entry)))
  /\ (forall i entry,
        nth_error log i = Some entry -> LOG.STATUS entry <> RUNNING ->
        nth_error log' i = Some entry)
  /\ (List.length log <= List.length log' <= List.length log + 1)%nat.
Proof.
  cbn zeta.
  destruct (run_log env batch_number w) as (st & rows & clause & Hst & ->).
  set (n := resolved env batch_number w).
  set (log := PIPELINE_EXECUTION_LOG w).
  set (log1 := PIPELINE_EXECUTION_LOG (after_log_start env n w)).
  assert (H1 : log1 = log \/ log1 = (log ++ [started_entry (now env) n])%list).
  { subst log1. unfold after_log_start, written.
    destruct (sql_error env _); [left; reflexivity|right; reflexivity]. }
  set (close := fun e : LOG.row =>
                  if of_batch n e && is_running (LOG.STATUS e)
                     && match latest_start n log1 with
                        | Some t => (LOG.START_TIME e =? t)%Z
                        | None => false
                        end
                  then log_update_row (now env) st rows clause e
                  else e).
  assert (H2 : PIPELINE_EXECUTION_LOG
                 (written env (UPDATE_EXECUTION_LOG n st rows clause)
                    (after_log_start env n w)) = log1
               \/ PIPELINE_EXECUTION_LOG
                    (written env (UPDATE_EXECUTION_LOG n st rows clause)
                       (after_log_start env n w)) = map close log1).
  { unfold written. destruct (sql_error env _); [left; reflexivity|right; reflexivity]. }
  assert (Hclose : forall e,
             close e = e
             \/ (LOG.STATUS e = RUNNING
                 /\ LOG.STATUS (close e) <> RUNNING
                 /\ LOG.EXECUTION_TYPE (close e) = LOG.EXECUTION_TYPE e
                 /\ LOG.START_TIME (close e) = LOG.START_TIME e
                 /\ LOG.ROWS_PROCESSED (close e) = LOG.ROWS_PROCESSED e)).
  { intros e. unfold close.
    destruct (of_batch n e); cbn [andb]; [|left; reflexivity].
    destruct (LOG.STATUS e) eqn:Es; cbn [is_running andb]; try (left; reflexivity).
    destruct (match latest_start n log1 with Some t => _ | None => false end);
      [|left; reflexivity].
    right. cbn. repeat split; try reflexivity. exact Hst. }
  assert (Hold : forall i entry, nth_error log i = Some entry ->
                                 nth_error log1 i = Some entry).
  { intros i entry H. destruct H1 as [->| ->]; [exact H|].
    rewrite nth_error_app1; [exact H|]. apply nth_error_Some. congruence. }
  assert (Hstep : forall i entry,
             nth_error log i = Some entry ->
             exists entry',
               nth_error
                 (PIPELINE_EXECUTION_LOG
                    (written env (UPDATE_EXECUTION_LOG n st rows clause)
                       (after_log_start env n w))) i = Some entry'
               /\ (entry' = entry
                   \/ (LOG.STATUS entry = RUNNING
                       /\ LOG.STATUS entry' <> RUNNING
                       /\ LOG.EXECUTION_TYPE entry' = LOG.EXECUTION_TYPE entry
                       /\ LOG.START_TIME entry' = LOG.START_TIME entry
                       /\ LOG.ROWS_PROCESSED entry' = LOG.ROWS_PROCESSED entry))).
  { intros i entry H. apply Hold in H. destruct H2 as [->| ->].
    - exists entry. split; [exact H|left; reflexivity].
    - exists (close entry). split; [|apply Hclose].
      rewrite nth_error_map, H. reflexivity. }
  split; [exact Hstep|]. split.
  - intros i entry H Hterminal. destruct (Hstep i entry H) as (entry' & H' & [->|(Hr & _)]).
    + exact H'.
    + contradiction.
  - assert (L1 : (List.length log <= List.length log1 <= List.length log + 1)%nat).
    { destruct H1 as [->| ->]; [lia|]. rewrite length_app. cbn [List.length]. lia. }
    destruct H2 as [->| ->]; [exact L1|]. rewrite length_map. exact L1.
Qed.

(* ------------------------------------------------------------------ *)
(** ** The summary and the command line                                *)
(* ------------------------------------------------------------------ *)

(** X8: [get_data_summary] never raises and never writes.  When the five
    COUNT queries are accepted it returns the sizes of the five tables;
    when any of them is refused it returns the empty dictionary, not a
    partial one. *)
Theorem X8_summary_is_all_or_nothing (env : Env) (w : Warehouse) :
  ((forall t, sql_error env (SELECT_COUNT t) = None) ->
   get_data_summary env w
   = (inr [ (T_STAGING, Z.of_nat (List.length (ONLINE_RETAIL_STAGING w)));
            (T_TRANSACTIONS, Z.of_nat (List.length (TRANSACTIONS w)));
            (T_PRODUCTS, Z.of_nat (List.length (PRODUCTS w)));
            (T_CUSTOMERS, Z.of_nat (List.length (CUSTOMERS w)));
            (T_COUNTRIES, Z.of_nat (List.length (COUNTRIES w))) ], w))
  /\ ((exists t, sql_error env (SELECT_COUNT t) <> None) ->
      get_data_summary env w = (inr [], w)).
Proof.
  split.
  - intros H. unfold get_data_summary, try_except, bind, ret, execute_sql.
    rewrite !H. reflexivity.
  - intros (t & Ht). unfold get_data_summary. run_monad; try reflexivity.
    destruct t; contradiction.
Qed.

(** The batch a run works on decides the run. *)
Lemma run_same_batch (env : Env) (b1 b2 : option Z) (w : Warehouse) :
  resolved env b1 w = resolved env b2 w ->
  run_incremental_batch env b1 w = run_incremental_batch env b2 w.
Proof.
  intros E. unfold run_incremental_batch, bind.
  rewrite !resolve_window_spec. fold (resolved env b1 w) (resolved env b2 w).
  rewrite E. reflexivity.
Qed.

(** The batch the command line asks for; [None] stands for the batch
    derived from the store. *)
Definition requested (args : Args) : option Z :=
  if next args then None
  else match batch args with
       | Some (Zpos p) => Some (Zpos p)
       | Some (Zneg p) => Some (Zneg p)
       | _ => batch_input args
       end.

(** X9: with [--status], [main] returns [True] and leaves the store as it
    was, whatever the warehouse refuses.  Otherwise it runs one batch:
    the derived one for [--next]; the given one for [--batch b] with
    [b <> 0]; and, with no batch or [--batch 0], the number typed at the
    prompt, where pressing Enter gives the same run as [--next]. *)
Theorem X9_command_line (env : Env) (args : Args) (w : Warehouse) :
  (status args = true -> main env args w = (inr true, w))
  /\ (status args = false ->
      main env args w = run_incremental_batch env (requested args) w).
Proof.
  unfold main, requested. split; intros ->.
  - unfold bind, ret.
    destruct (get_data_summary_spec env w) as [s ->].
    rewrite get_last_processed_row_spec. reflexivity.
  - destruct (next args); [reflexivity|].
    assert (Hprompt :
      bind (bind (get_data_summary env)
              (fun _ => bind (get_last_processed_row env)
                          (fun last_row =>
                             ret (Some match batch_input args with
                                       | Some b => b
                                       | None => last_row / 1000 + 1
                                       end))))
        (run_incremental_batch env) w
      = run_incremental_batch env (batch_input args) w).
    { unfold bind at 1 2 3. unfold ret.
      destruct (get_data_summary_spec env w) as [s ->].
      rewrite get_last_processed_row_spec.
      destruct (batch_input args); [reflexivity|].
      apply run_same_batch. reflexivity. }
    destruct (batch args) as [[|p|p]|]; try reflexivity; exact Hprompt.
Qed.

(* ------------------------------------------------------------------ *)
(** ** One row per key in the dimension tables                         *)
(* ------------------------------------------------------------------ *)

Section Distinct.
Context {A : Type} (eqb : A -> A -> bool).
Hypothesis eqb_eq : forall a b, eqb a b = true <-> a = b.

Lemma distinct_In_iff (l : list A) (x : A) : In x (SQL.distinct eqb l) <-> In x l.
Proof.
  induction l as [|a l IH]; cbn [SQL.distinct]; [tauto|].
  cbn [In]. rewrite filter_In, IH. split.
  - intros [H|[H _]]; auto.
  - intros [H|H]; [auto|].
    destruct (eqb a x) eqn:E; [left; apply eqb_eq, E|].
    right. split; [exact H|reflexivity].
Qed.

Lemma distinct_NoDup (l : list A) : NoDup (SQL.distinct eqb l).
Proof.
  induction l as [|a l IH]; cbn [SQL.distinct]; constructor.
  - intros H. apply filter_In in H. destruct H as [_ H].
    assert (E : eqb a a = true) by (apply eqb_eq; reflexivity).
    rewrite E in H. discriminate H.
  - apply NoDup_filter, IH.
Qed.
End Distinct.

Section MergeKeys.
Context {T S K : Type} (kt : T -> K) (ks : S -> K) (eqb : K -> K -> bool).
Context (on : T -> S -> bool) (update : T -> S -> T) (insert : S -> T).
Hypothesis eqb_eq : forall a b, eqb a b = true <-> a = b.
Hypothesis on_keys : forall t s, on t s = eqb (kt t) (ks s).
Hypothesis update_key : forall t s, kt (update t s) = kt t.
Hypothesis insert_key : forall s, kt (insert s) = ks s.

Lemma MERGE_keys (target : list T) (source : list S) :
  map kt (SQL.MERGE on update insert target source)
  = (map kt target
     ++ map ks (filter (fun s => negb (existsb (fun t => on t s) target)) source))%list.
Proof.
  unfold SQL.MERGE. rewrite map_app, !map_map. f_equal.
  - apply map_ext. intros t. destruct (find (on t) source); [apply update_key|reflexivity].
  - apply map_ext. exact insert_key.
Qed.

Lemma MERGE_NoDup (target : list T) (source : list S) :
  NoDup (map kt target) -> NoDup (map ks source) ->
  NoDup (map kt (SQL.MERGE on update insert target source)).
Proof.
  intros Ht Hs. rewrite MERGE_keys.
  apply NoDup_app_intro; [exact Ht|apply NoDup_map_filter, Hs|].
  intros k Hk Hin. apply in_map_iff in Hk. destruct Hk as (s & <- & Hsrc).
  apply filter_In in Hsrc. destruct Hsrc as [_ Hno].
  apply negb_true_iff in Hno.
  apply in_map_iff in Hin. destruct Hin as (t & Hkey & Hin).
  assert (Hex : existsb (fun t => on t s) target = true).
  { apply existsb_exists. exists t. split; [exact Hin|].
    rewrite on_keys. apply eqb_eq, Hkey. }
  congruence.
Qed.

(** Every source key has a row after the merge. *)
Lemma MERGE_covers (target : list T) (source : list S) (s : S) :
  In s source -> In (ks s) (map kt (SQL.MERGE on update insert target source)).
Proof.
  intros Hs. rewrite MERGE_keys. apply in_or_app.
  destruct (existsb (fun t => on t s) target) eqn:E.
  - left. apply existsb_exists in E. destruct E as (t & Hin & Hon).
    rewrite on_keys in Hon. apply eqb_eq in Hon. rewrite <- Hon.
    apply in_map, Hin.
  - right. apply in_map, filter_In. split; [exact Hs|]. rewrite E. reflexivity.
Qed.
End MergeKeys.

(** Each dimension table has one row per key. *)
Definition keyed (w : Warehouse) : Prop :=
  NoDup (map PRODUCTS.STOCK_CODE (PRODUCTS w))
  /\ NoDup (map CUSTOMERS.CUSTOMER_ID (CUSTOMERS w))
  /\ NoDup (map COUNTRIES.COUNTRY (COUNTRIES w)).

Lemma products_source_keys (staging : list STAGING.row) :
  map PRODUCT_DELTA.STOCK_CODE (products_source staging)
  = SQL.distinct String.eqb (map STAGING.STOCK_CODE (filter from_a_batch staging)).
Proof. unfold products_source. rewrite map_map. cbn. apply map_id. Qed.

Lemma customers_source_keys (staging : list STAGING.row) :
  map CUSTOMER_DELTA.CUSTOMER_ID (customers_source staging)
  = SQL.distinct Z.eqb
      (SQL.non_null (map STAGING.CUSTOMER_ID (filter customer_sale staging))).
Proof. unfold customers_source. rewrite map_map. cbn. apply map_id. Qed.

Lemma countries_source_keys (staging : list STAGING.row) :
  map COUNTRY_DELTA.COUNTRY (countries_source staging)
  = SQL.distinct String.eqb (map STAGING.COUNTRY (filter from_a_batch staging)).
Proof. unfold countries_source. rewrite map_map. cbn. apply map_id. Qed.

Lemma keyed_merge_products (now : Z) (w : Warehouse) :
  keyed w -> keyed (merge_products now w).
Proof.
  intros (Hp & Hc & Hk). split; [|split; assumption].
  unfold merge_products. cbn [PRODUCTS with_products].
  apply (MERGE_NoDup PRODUCTS.STOCK_CODE PRODUCT_DELTA.STOCK_CODE String.eqb);
    try reflexivity; try assumption.
  - exact String.eqb_eq.
  - rewrite products_source_keys. apply distinct_NoDup, String.eqb_eq.
Qed.

Lemma keyed_merge_customers (now : Z) (w : Warehouse) :
  keyed w -> keyed (merge_customers now w).
Proof.
  intros (Hp & Hc & Hk). split; [assumption|]. split; [|assumption].
  unfold merge_customers. cbn [CUSTOMERS with_customers].
  apply (MERGE_NoDup CUSTOMERS.CUSTOMER_ID CUSTOMER_DELTA.CUSTOMER_ID Z.eqb);
    try reflexivity; try assumption.
  - exact Z.eqb_eq.
  - rewrite customers_source_keys. apply distinct_NoDup, Z.eqb_eq.
Qed.

Lemma keyed_update_segments (now : Z) (w : Warehouse) :
  keyed w -> keyed (update_segments now w).
Proof.
  intros (Hp & Hc & Hk). split; [assumption|]. split; [|assumption].
  unfold update_segments. cbn [CUSTOMERS with_customers]. rewrite map_map.
  replace (map (fun c => CUSTOMERS.CUSTOMER_ID (segment_row now c)) (CUSTOMERS w))
    with (map CUSTOMERS.CUSTOMER_ID (CUSTOMERS w)); [exact Hc|].
  apply map_ext. intros c. unfold segment_row.
  destruct (_ <=? _)%Z; reflexivity.
Qed.

Lemma keyed_merge_countries (now : Z) (w : Warehouse) :
  keyed w -> keyed (merge_countries now w).
Proof.
  intros (Hp & Hc & Hk). split; [assumption|]. split; [assumption|].
  unfold merge_countries. cbn [COUNTRIES with_countries].
  apply (MERGE_NoDup COUNTRIES.COUNTRY COUNTRY_DELTA.COUNTRY String.eqb);
    try reflexivity; try assumption.
  - exact String.eqb_eq.
  - rewrite countries_source_keys. apply distinct_NoDup, String.eqb_eq.
Qed.

(** X10: aggregation keeps one row per key.  If products, customers and
    countries each have no two rows with the same key, the same holds
    after [update_dimensions_incremental], whether it completes or a
    statement is refused half-way; and once the products MERGE is
    accepted every stock code staged under a batch tag has a products
    row. *)
Theorem X10_one_row_per_key (env : Env) (n : Z) (w : Warehouse) :
  (keyed w -> keyed (store (update_dimensions_incremental env n) w))
  /\ (sql_error env MERGE_PRODUCTS = None ->
      forall r, In r (ONLINE_RETAIL_STAGING w) -> from_a_batch r = true ->
                In (STAGING.STOCK_CODE r)
                  (map PRODUCTS.STOCK_CODE
                     (PRODUCTS (store (update_dimensions_incremental env n) w)))).
Proof.
  split.
  - intros H. unfold store, update_dimensions_incremental. run_monad;
      repeat first [ exact H
                   | apply keyed_merge_countries
                   | apply keyed_update_segments
                   | apply keyed_merge_customers
                   | apply keyed_merge_products ].
  - intros Hok r Hr Htag.
    assert (Hp : In (STAGING.STOCK_CODE r)
                   (map PRODUCTS.STOCK_CODE (PRODUCTS (merge_products (now env) w)))).
    { unfold merge_products. cbn [PRODUCTS with_products].
      assert (Hd : In (STAGING.STOCK_CODE r)
                     (map PRODUCT_DELTA.STOCK_CODE
                        (products_source (ONLINE_RETAIL_STAGING w)))).
      { rewrite products_source_keys. apply distinct_In_iff; [exact String.eqb_eq|].
        apply in_map, filter_In. split; assumption. }
      apply in_map_iff in Hd. destruct Hd as (d & <- & Hd).
      apply (MERGE_covers PRODUCTS.STOCK_CODE PRODUCT_DELTA.STOCK_CODE String.eqb);
        try reflexivity; try assumption.
      exact String.eqb_eq. }
    unfold store, update_dimensions_incremental.
    unfold try_except, bind, ret, raise, execute_sql. rewrite Hok. cbn [run_sql].
    step_sql; exact Hp.
Qed.

(* ------------------------------------------------------------------ *)
(** ** NULL in the running averages                                    *)
(* ------------------------------------------------------------------ *)

Lemma non_null_nil {A} (l : list (option A)) :
  (forall v, In v l -> v = None) -> SQL.non_null l = [].
Proof.
  intros H. unfold SQL.non_null.
  induction l as [|v l IH]; cbn [flat_map]; [reflexivity|].
  rewrite (H v (or_introl eq_refl)), IH; [reflexivity|].
  intros v' Hv'. apply H. right. exact Hv'.
Qed.

Lemma AVG_none (l : list (option Q)) :
  (forall v, In v l -> v = None) -> SQL.AVG l = None.
Proof.
  intros H. unfold SQL.AVG. rewrite (non_null_nil l H). reflexivity.
Qed.

(** X11: the average unit price of a product can be NULL and then stays
    NULL.  A stock code none of whose staged rows has a positive quantity
    enters the delta with a NULL average (and is inserted with it); and a
    products row whose stored average is NULL still has a NULL average
    after any later products MERGE, whatever the delta brings, because
    [(NULL + x) / 2] is NULL. *)
Theorem X11_null_average_is_never_repaired (now : Z) (w : Warehouse) :
  (forall d,
      In d (products_source (ONLINE_RETAIL_STAGING w)) ->
      (forall r, In r (ONLINE_RETAIL_STAGING w) ->
                 STAGING.STOCK_CODE r = PRODUCT_DELTA.STOCK_CODE d ->
                 STAGING.QUANTITY r <= 0) ->
      PRODUCT_DELTA.AVG_UNIT_PRICE d = None
      /\ PRODUCTS.AVERAGE_UNIT_PRICE (products_insert now d) = None)
  /\ (forall i t,
        nth_error (PRODUCTS w) i = Some t ->
        PRODUCTS.AVERAGE_UNIT_PRICE t = None ->
        exists t',
          nth_error (PRODUCTS (snd (run_sql now MERGE_PRODUCTS w))) i = Some t'
          /\ PRODUCTS.STOCK_CODE t' = PRODUCTS.STOCK_CODE t
          /\ PRODUCTS.AVERAGE_UNIT_PRICE t' = None).
Proof.
  split.
  - intros d Hd Hret.
    assert (Hnone : PRODUCT_DELTA.AVG_UNIT_PRICE d = None).
    { unfold products_source in Hd. apply in_map_iff in Hd.
      destruct Hd as (k & <- & _). cbn [PRODUCT_DELTA.AVG_UNIT_PRICE].
      cbn [PRODUCT_DELTA.STOCK_CODE] in Hret.
      apply AVG_none. intros v Hv. apply in_map_iff in Hv.
      destruct Hv as (r & <- & Hr). apply filter_In in Hr. destruct Hr as [Hr Hk].
      apply filter_In in Hr. destruct Hr as [Hr _].
      apply String.eqb_eq in Hk. specialize (Hret r Hr Hk).
      unfold when_sold. destruct (Z.ltb_spec 0 (STAGING.QUANTITY r)); [lia|reflexivity]. }
    split; [exact Hnone|exact Hnone].
  - intros i t Ht Hnull. cbn [run_sql snd]. unfold merge_products.
    cbn [PRODUCTS with_products]. unfold SQL.MERGE.
    rewrite nth_error_app1 by (rewrite length_map; apply nth_error_Some; congruence).
    rewrite nth_error_map, Ht. cbn [option_map].
    destruct (find (products_on t) (products_source (ONLINE_RETAIL_STAGING w))) as [s|].
    + eexists. split; [reflexivity|]. split; [reflexivity|].
      cbn [products_update PRODUCTS.AVERAGE_UNIT_PRICE]. rewrite Hnull. reflexivity.
    + exists t. split; [reflexivity|]. split; [reflexivity|exact Hnull].
Qed.

(* ------------------------------------------------------------------ *)
(** ** The batch filter of the aggregation                             *)
(* ------------------------------------------------------------------ *)

Lemma matches_any_run (s : list ascii) : SQL.matches [SQL.any_run] s = true.
Proof.
  induction s as [|a s IH]; [reflexivity|].
  cbn. cbn in IH. exact IH.
Qed.

Lemma list_ascii_app (a b : string) :
  list_ascii_of_string (a ++ b)
  = (list_ascii_of_string a ++ list_ascii_of_string b)%list.
Proof. induction a as [|c a IH]; cbn; [reflexivity|]. rewrite IH. reflexivity. Qed.

Lemma batch_tag_matches (n : Z) : SQL.LIKE (batch_tag n) "%BATCH_%" = true.
Proof.
  unfold SQL.LIKE, batch_tag. rewrite list_ascii_app.
  generalize (list_ascii_of_string (str n)). intros tail.
  cbn. apply orb_true_iff. left. exact (matches_any_run tail).
Qed.

(** X12: the filter [DATA_SOURCE LIKE '%BATCH_%'] of the three aggregation
    sub-queries keeps every row that carries the tag of any batch.  On a
    staging table written by this pipeline it therefore keeps everything,
    and the quantity delta of a stock code is its positive quantity over
    the whole table, not over one batch. *)
Theorem X12_batch_filter_keeps_every_batch (staging : list STAGING.row) :
  (forall r, In r staging -> exists n, STAGING.DATA_SOURCE r = "CSV_BATCH_" ++ str n) ->
  filter from_a_batch staging = staging
  /\ forall d,
       In d (products_source staging) ->
       PRODUCT_DELTA.NEW_QUANTITY_SOLD d
       = quantity_sold (PRODUCT_DELTA.STOCK_CODE d) staging.
Proof.
  intros Htag.
  assert (Hall : filter from_a_batch staging = staging).
  { induction staging as [|r l IH]; [reflexivity|]. cbn [filter].
    destruct (Htag r (or_introl eq_refl)) as [n Hn].
    unfold from_a_batch at 1. rewrite Hn.
    change ("CSV_BATCH_" ++ str n) with (batch_tag n).
    rewrite batch_tag_matches. f_equal. apply IH.
    intros r' Hr'. apply Htag. right. exact Hr'. }
  split; [exact Hall|].
  intros d Hd. unfold products_source in Hd. rewrite Hall in Hd.
  apply in_map_iff in Hd. destruct Hd as (k & <- & _).
  reflexivity.
Qed.

(** Two batches staged by the pipeline. *)
Lemma X12_witness :
  filter from_a_batch (ONLINE_RETAIL_STAGING Scenario.short_loaded)
  = ONLINE_RETAIL_STAGING Scenario.short_loaded
  /\ map PRODUCT_DELTA.NEW_QUANTITY_SOLD
       (products_source (ONLINE_RETAIL_STAGING Scenario.short_loaded)) = [2; 1].
Proof.
  destruct (X12_batch_filter_keeps_every_batch
              (ONLINE_RETAIL_STAGING Scenario.short_loaded)) as [H _].
  - intros r Hr. exists 1. vm_compute in Hr.
    destruct Hr as [<-|[<-|[]]]; reflexivity.
  - split; [exact H|vm_compute; reflexivity].
Defined.

(* ------------------------------------------------------------------ *)
(** ** Guest purchases and returns in the deltas                       *)
(* ------------------------------------------------------------------ *)

(** X13: customer deltas are computed from sales with a customer id only:
    every row of the customers sub-query comes from a staged row with that
    customer id and a positive quantity, so a guest purchase or a return
    alone creates no customer row, and dropping every other row from
    staging does not change the sub-query.  The countries sub-query, in
    contrast, has a row for the country of every staged batch row, guest
    purchases and returns included, and counts only the non-missing
    customer ids. *)
Theorem X13_guests_and_returns (staging : list STAGING.row) :
  (forall d, In d (customers_source staging) ->
             exists r, In r staging
                       /\ STAGING.CUSTOMER_ID r = Some (CUSTOMER_DELTA.CUSTOMER_ID d)
                       /\ 0 < STAGING.QUANTITY r)
  /\ customers_source (filter customer_sale staging) = customers_source staging
  /\ (forall r, In r staging -> from_a_batch r = true ->
                exists d, In d (countries_source staging)
                          /\ COUNTRY_DELTA.COUNTRY d = STAGING.COUNTRY r)
  /\ (forall d, In d (countries_source staging) ->
                (forall r, In r staging ->
                           STAGING.COUNTRY r = COUNTRY_DELTA.COUNTRY d ->
                           STAGING.CUSTOMER_ID r = None) ->
                COUNTRY_DELTA.NEW_CUSTOMERS d = 0).
Proof.
  split; [|split; [|split]].
  - intros d Hd.
    assert (Hk : In (CUSTOMER_DELTA.CUSTOMER_ID d)
                   (map CUSTOMER_DELTA.CUSTOMER_ID (customers_source staging)))
      by (apply in_map, Hd).
    rewrite customers_source_keys in Hk.
    apply distinct_In_iff in Hk; [|exact Z.eqb_eq].
    unfold SQL.non_null in Hk. apply in_flat_map in Hk.
    destruct Hk as (o & Ho & Hin). apply in_map_iff in Ho.
    destruct Ho as (r & <- & Hr). apply filter_In in Hr. destruct Hr as [Hr Hsale].
    exists r. split; [exact Hr|].
    unfold customer_sale in Hsale. apply andb_true_iff in Hsale.
    destruct Hsale as [_ Hq]. apply Z.ltb_lt in Hq.
    destruct (STAGING.CUSTOMER_ID r) as [c|]; [|destruct Hin].
    destruct Hin as [<-|[]]. split; [reflexivity|exact Hq].
  - unfold customers_source.
    assert (E : filter customer_sale (filter customer_sale staging)
                = filter customer_sale staging).
    { induction staging as [|r l IH]; [reflexivity|]. cbn [filter].
      destruct (customer_sale r) eqn:Er; [|exact IH].
      cbn [filter]. rewrite Er, IH. reflexivity. }
    rewrite E. reflexivity.
  - intros r Hr Htag.
    assert (Hk : In (STAGING.COUNTRY r)
                   (map COUNTRY_DELTA.COUNTRY (countries_source staging))).
    { rewrite countries_source_keys. apply distinct_In_iff; [exact String.eqb_eq|].
      apply in_map, filter_In. split; assumption. }
    apply in_map_iff in Hk. destruct Hk as (d & E & Hd). exists d. split; assumption.
  - intros d Hd Hguest. unfold countries_source in Hd.
    apply in_map_iff in Hd. destruct Hd as (k & <- & _).
    cbn [COUNTRY_DELTA.NEW_CUSTOMERS]. cbn [COUNTRY_DELTA.COUNTRY] in Hguest.
    unfold SQL.COUNT_DISTINCT.
    rewrite non_null_nil; [reflexivity|].
    intros v Hv. apply in_map_iff in Hv. destruct Hv as (r & <- & Hr).
    apply filter_In in Hr. destruct Hr as [Hr Hk].
    apply filter_In in Hr. destruct Hr as [Hr _].
    apply String.eqb_eq in Hk. exact (Hguest r Hr Hk).
Qed.

(* ------------------------------------------------------------------ *)
(** ** Windows over the source extract                                 *)
(* ------------------------------------------------------------------ *)

(** X14: for a batch number [n >= 1] the rows read are the rows
    [(n-1)*1000 + 1 .. n*1000] of the extract, in order, as many of them
    as the extract has (none past its end, which is not an error); for
    [n <= 0] nothing is skipped and the first 1000 rows are read again;
    an extract that cannot be read raises.  Reading never writes. *)
Theorem X14_windows_of_the_extract (env : Env) (n : Z) (w : Warehouse) :
  (csv_file env = None ->
   exists e, read_csv env (start_row n) (end_row n) w = (inl e, w))
  /\ (forall csv,
        csv_file env = Some csv ->
        exists rows,
          read_csv env (start_row n) (end_row n) w = (inr rows, w)
          /\ (List.length rows <= 1000)%nat
          /\ (1 <= n ->
              forall i, (i < 1000)%nat ->
                        nth_error rows i
                        = nth_error csv (Z.to_nat ((n - 1) * 1000) + i))
          /\ (1 <= n ->
              forall i, (1000 <= i)%nat -> nth_error rows i = None)
          /\ (n <= 0 -> rows = firstn 1000 csv)).
Proof.
  unfold read_csv. split.
  - intros ->. eexists. reflexivity.
  - intros csv ->. eexists. split; [reflexivity|].
    replace (end_row n - start_row n + 1) with 1000
      by (unfold start_row, end_row, batch_size; lia).
    change (Z.to_nat 1000) with 1000%nat.
    split; [apply firstn_le_length|]. split; [|split].
    + intros Hn i Hi. rewrite nth_error_firstn.
      apply Nat.ltb_lt in Hi. rewrite Hi. rewrite nth_error_skipn.
      f_equal. unfold start_row, batch_size. f_equal. lia.
    + intros Hn i Hi. rewrite nth_error_firstn.
      apply Nat.ltb_ge in Hi. rewrite Hi. reflexivity.
    + intros Hn.
      replace (Z.to_nat (start_row n - 1)) with 0%nat
        by (unfold start_row, batch_size; lia).
      reflexivity.
Qed.

(* ------------------------------------------------------------------ *)
(** ** Progress of the high-water mark                                 *)
(* ------------------------------------------------------------------ *)

Lemma new_rows_start (env : Env) (n : Z) (staging : list STAGING.row)
    (r : STAGING.row) :
  In r (new_rows env n (start_row n) (end_row n) staging) ->
  start_row n <= STAGING.ROW_NUMBER_IN_FILE r.
Proof.
  intros Hin. apply new_rows_In in Hin.
  destruct Hin as (csv & df & _ & _ & Hr & _).
  unfold candidates in Hr. apply add_metadata_range in Hr. lia.
Qed.

(** X15: for a batch number [n >= 1] a run never lowers the high-water
    mark (the greatest staged ordinal, 0 for an empty table). *)
Theorem X15_high_water_never_decreases
    (env : Env) (batch_number : option Z) (w : Warehouse) :
  1 <= resolved env batch_number w ->
  high_water w <= high_water (store (run_incremental_batch env batch_number) w).
Proof.
  intros Hn. unfold high_water, max_row_number. rewrite run_staging. cbn zeta.
  set (n := resolved env batch_number w) in *.
  set (rows := new_rows env n (start_row n) (end_row n) (ONLINE_RETAIL_STAGING w)).
  assert (Hrows : forall x, In x (map STAGING.ROW_NUMBER_IN_FILE rows) -> 1 <= x).
  { intros x Hx. apply in_map_iff in Hx. destruct Hx as (r & <- & Hr).
    pose proof (new_rows_start env n _ r Hr) as H.
    unfold start_row, batch_size in H. lia. }
  rewrite <- !(map_map STAGING.ROW_NUMBER_IN_FILE (fun x => Some x)).
  rewrite map_app.
  set (old := map STAGING.ROW_NUMBER_IN_FILE (ONLINE_RETAIL_STAGING w)) in *.
  set (new := map STAGING.ROW_NUMBER_IN_FILE rows) in *.
  destruct (SQL.MAX_Z (map (fun x => Some x) old)) as [m|] eqn:E.
  - apply MAX_Z_spec in E. destruct E as [Hin _].
    destruct (SQL.MAX_Z (map (fun x => Some x) (old ++ new))) as [m'|] eqn:E'.
    + apply MAX_Z_spec in E'. destruct E' as [_ Hup].
      apply Hup, in_or_app. left. exact Hin.
    + apply MAX_Z_none in E'. apply app_eq_nil in E'. destruct E' as [E' _].
      rewrite E' in Hin. destruct Hin.
  - apply MAX_Z_none in E. rewrite E. cbn [app].
    destruct (SQL.MAX_Z (map (fun x => Some x) new)) as [m'|] eqn:E'; [|lia].
    apply MAX_Z_spec in E'. destruct E' as [Hin _].
    specialize (Hrows m' Hin). lia.
Qed.

(** The first batch of the short extract. *)
Lemma X15_witness :
  high_water empty_warehouse = 0
  /\ high_water Scenario.short_loaded = 2
  /\ high_water empty_warehouse <= high_water Scenario.short_loaded.
Proof.
  split; [reflexivity|]. split; [vm_compute; reflexivity|].
  apply (X15_high_water_never_decreases
           (Scenario.healthy Scenario.short) (Some 1) empty_warehouse).
  vm_compute. discriminate.
Defined.

Lemma add_metadata_last (env : Env) (n : Z) (df : list CLEAN.row) :
  forall o, df <> [] ->
            In (o + Z.of_nat (List.length df) - 1)
              (map STAGING.ROW_NUMBER_IN_FILE (add_metadata env n o df)).
Proof.
  induction df as [|c df IH]; intros o Hne; [contradiction|].
  cbn [add_metadata map List.length].
  destruct df as [|c' df'].
  - left. cbn. lia.
  - right. replace (o + Z.of_nat (S (List.length (c' :: df'))) - 1)
      with (o + 1 + Z.of_nat (List.length (c' :: df')) - 1) by lia.
    apply IH. discriminate.
Qed.

(** Both key columns of the frame are text. *)
Definition text_keys (types : Dtypes) : Prop :=
  INVOICE_NO_dtype types = object /\ STOCK_CODE_dtype types = object.

Lemma key_fails_text (types : Dtypes) (keys : list string) (df : list STAGING.row) :
  keys = [] \/ text_keys types -> key_fails types keys df = false.
Proof.
  unfold key_fails, key_column, text_keys.
  intros [->|[-> ->]]; [reflexivity|]. destruct keys; reflexivity.
Qed.

(** X16: a full, clean window advances the batch.  If the window of
    batch [n] has 1000 rows that all survive cleaning, staging is empty or
    pandas holds both key columns of the window as text, every staged
    ordinal is below [start_row], and the key query and every INSERT are
    accepted, then the run stages 1000 rows, the high-water mark becomes
    [end_row = n * 1000], and the next derived batch is [n + 1]. *)
Theorem X16_full_clean_window_advances
    (env : Env) (batch_number : option Z) (w : Warehouse)
    (csv : list CSV.row) (df : list DF.row) :
  let n := resolved env batch_number w in
  let w' := store (run_incremental_batch env batch_number) w in
  csv_file env = Some csv ->
  convert (window_rows csv (start_row n) (end_row n)) = inr df ->
  List.length (filter nonzero_quantity (dropna df)) = 1000%nat ->
  ONLINE_RETAIL_STAGING w = []
  \/ text_keys (read_dtypes (window_rows csv (start_row n) (end_row n))) ->
  sql_error env SELECT_TRANSACTION_KEYS = None ->
  (forall r, sql_error env (INSERT_STAGING r) = None) ->
  sql_error env SELECT_MAX_ROW_NUMBER_IN_FILE = None ->
  (forall r, In r (ONLINE_RETAIL_STAGING w) ->
             STAGING.ROW_NUMBER_IN_FILE r < start_row n) ->
  ONLINE_RETAIL_STAGING w'
  = (ONLINE_RETAIL_STAGING w ++ candidates env n (start_row n) df)%list
  /\ List.length (candidates env n (start_row n) df) = 1000%nat
  /\ high_water w' = end_row n
  /\ outcome (resolve_window env None) w'
     = inr {| batch_number_of := n + 1;
              start_row_of := start_row (n + 1);
              end_row_of := end_row (n + 1) |}.
Proof.
  cbn zeta. set (n := resolved env batch_number w).
  intros Hcsv Hdf Hfull Htext Hkeys Hins Hmax Hbelow.
  set (cand := candidates env n (start_row n) df).
  assert (Hlen : List.length cand = 1000%nat).
  { unfold cand, candidates. rewrite add_metadata_length. exact Hfull. }
  assert (Hrows : new_rows env n (start_row n) (end_row n) (ONLINE_RETAIL_STAGING w)
                  = cand).
  { unfold new_rows. rewrite Hcsv, Hdf, Hkeys. cbn zeta. fold cand.
    rewrite key_fails_text.
    2:{ destruct Htext as [->|H]; [left; reflexivity|right; exact H]. }
    rewrite (filter_all (insertable env)).
    2:{ intros r. unfold insertable. rewrite Hins. reflexivity. }
    assert (Hfresh : forall r, In r cand ->
              not_staged_yet
                (SQL.distinct String.eqb
                   (map TRANSACTION_KEY (ONLINE_RETAIL_STAGING w))) r = true).
    { intros r Hr. apply not_staged_yet_spec. intros Hin.
      apply in_map_iff in Hin. destruct Hin as (r0 & Ekey & Hr0).
      apply Key.same_ordinal in Ekey. specialize (Hbelow r0 Hr0).
      unfold cand, candidates in Hr. apply add_metadata_range in Hr. lia. }
    clear Hlen. induction cand as [|r l IH]; [reflexivity|]. cbn [filter].
    rewrite (Hfresh r (or_introl eq_refl)). f_equal. apply IH.
    intros r' Hr'. apply Hfresh. right. exact Hr'. }
  assert (Hstaging :
    ONLINE_RETAIL_STAGING (store (run_incremental_batch env batch_number) w)
    = (ONLINE_RETAIL_STAGING w ++ cand)%list).
  { rewrite run_staging. cbn zeta. fold n. rewrite Hrows. reflexivity. }
  assert (Hhigh :
    high_water (store (run_incremental_batch env batch_number) w) = end_row n).
  { unfold high_water, max_row_number. rewrite Hstaging.
    rewrite <- (map_map STAGING.ROW_NUMBER_IN_FILE (fun x => Some x)).
    assert (Hlast : In (end_row n)
                      (map STAGING.ROW_NUMBER_IN_FILE (ONLINE_RETAIL_STAGING w ++ cand))).
    { rewrite map_app. apply in_or_app. right.
      replace (end_row n)
        with (start_row n
              + Z.of_nat (List.length (filter nonzero_quantity (dropna df))) - 1)
        by (rewrite Hfull; unfold start_row, end_row, batch_size; lia).
      apply add_metadata_last. intros E. rewrite E in Hfull. discriminate Hfull. }
    destruct (SQL.MAX_Z _) as [m|] eqn:E.
    - apply MAX_Z_spec in E. destruct E as [Hin Hup].
      specialize (Hup _ Hlast).
      rewrite map_app in Hin. apply in_app_or in Hin. destruct Hin as [Hin|Hin].
      + apply in_map_iff in Hin. destruct Hin as (r0 & <- & Hr0).
        specialize (Hbelow r0 Hr0). unfold start_row, end_row, batch_size in *. lia.
      + apply in_map_iff in Hin. destruct Hin as (r & <- & Hr).
        unfold cand, candidates in Hr. apply add_metadata_range in Hr.
        rewrite Hfull in Hr. unfold start_row, end_row, batch_size in *. lia.
    - apply MAX_Z_none in E. rewrite E in Hlast. destruct Hlast. }
  split; [exact Hstaging|]. split; [exact Hlen|]. split; [exact Hhigh|].
  unfold outcome. rewrite resolve_window_spec. cbn [fst].
  unfold last_processed. rewrite Hmax. fold (high_water (store (run_incremental_batch env batch_number) w)).
  rewrite Hhigh.
  rewrite (proj1 (next_batch_of (end_row n) (n + 1)))
    by (unfold end_row, batch_size; lia).
  reflexivity.
Qed.

(** An extract of 2000 good lines with text invoice numbers and stock
    codes, and the store after its first batch. *)
Definition two_full_batches : list CSV.row := repeat Scenario.filler 2000.

Definition first_full_batch : Warehouse :=
  store (run_incremental_batch (Scenario.healthy two_full_batches) (Some 1))
    empty_warehouse.

(** Batch 2 of that extract, on the store that holds batch 1. *)
Lemma X16_witness :
  let env := Scenario.healthy two_full_batches in
  let w' := store (run_incremental_batch env (Some 2)) first_full_batch in
  high_water first_full_batch = 1000
  /\ text_keys (read_dtypes (window_rows two_full_batches (start_row 2) (end_row 2)))
  /\ high_water w' = 2000
  /\ outcome (resolve_window env None) w'
     = inr {| batch_number_of := 3; start_row_of := 2001; end_row_of := 3000 |}.
Proof.
  intros env w'.
  assert (Htext : text_keys
            (read_dtypes (window_rows two_full_batches (start_row 2) (end_row 2))))
    by (split; vm_compute; reflexivity).
  assert (Hdf : exists df,
             convert (window_rows two_full_batches (start_row 2) (end_row 2))
             = inr df
             /\ List.length (filter nonzero_quantity (dropna df)) = 1000%nat).
  { destruct (convert (window_rows two_full_batches (start_row 2) (end_row 2)))
      as [e|df] eqn:E.
    - vm_compute in E. discriminate E.
    - exists df. split; [reflexivity|].
      vm_compute in E. injection E as <-. vm_compute. reflexivity. }
  destruct Hdf as (df & Hdf & Hfull).
  assert (Hbelow : forallb (fun r => (STAGING.ROW_NUMBER_IN_FILE r <? start_row 2)%Z)
                     (ONLINE_RETAIL_STAGING first_full_batch) = true)
    by (vm_compute; reflexivity).
  split; [vm_compute; reflexivity|]. split; [exact Htext|].
  destruct (X16_full_clean_window_advances env (Some 2) first_full_batch
              two_full_batches df eq_refl Hdf Hfull (or_intror Htext) eq_refl
              (fun _ => eq_refl) eq_refl)
    as (_ & _ & H3 & H4).
  - intros r Hr. rewrite forallb_forall in Hbelow. apply Z.ltb_lt, Hbelow, Hr.
  - split; [exact H3|exact H4].
Defined.

(* ------------------------------------------------------------------ *)
(** ** Log failures do not reach the data                              *)
(* ------------------------------------------------------------------ *)

Definition is_log_statement (q : Sql) : bool :=
  match q with
  | INSERT_EXECUTION_LOG _ _ _ | UPDATE_EXECUTION_LOG _ _ _ _ => true
  | _ => false
  end.

(** The two stores agree on every table but the execution log. *)
Definition same_data (w1 w2 : Warehouse) : Prop :=
  ONLINE_RETAIL_STAGING w1 = ONLINE_RETAIL_STAGING w2
  /\ PRODUCTS w1 = PRODUCTS w2
  /\ CUSTOMERS w1 = CUSTOMERS w2
  /\ COUNTRIES w1 = COUNTRIES w2
  /\ TRANSACTIONS w1 = TRANSACTIONS w2.

(** The two worlds differ at most in which log statements are refused. *)
Definition same_but_log (env1 env2 : Env) : Prop :=
  csv_file env1 = csv_file env2
  /\ now env1 = now env2
  /\ float64_mul env1 = float64_mul env2
  /\ forall q, is_log_statement q = false -> sql_error env1 q = sql_error env2 q.

Ltac same_data_step :=
  match goal with
  | H : same_data ?a ?b |- _ =>
      destruct a, b; unfold same_data in H; cbn in H;
      destruct H as (? & ? & ? & ? & ?); subst;
      unfold same_data; cbn; repeat split; reflexivity
  end.

Lemma same_data_written (env : Env) (q : Sql) (w : Warehouse) :
  is_log_statement q = true -> same_data (written env q w) w.
Proof.
  intros H. unfold written. destruct (sql_error env q).
  - repeat split.
  - destruct q; try discriminate H; repeat split.
Qed.

Lemma same_data_trans (a b c : Warehouse) :
  same_data a b -> same_data b c -> same_data a c.
Proof.
  intros (A1 & A2 & A3 & A4 & A5) (B1 & B2 & B3 & B4 & B5).
  repeat split; congruence.
Qed.

Lemma same_data_sym (a b : Warehouse) : same_data a b -> same_data b a.
Proof. intros (A1 & A2 & A3 & A4 & A5). repeat split; congruence. Qed.

Lemma same_data_dimensions (env1 env2 : Env) (n : Z) (w1 w2 : Warehouse) :
  same_but_log env1 env2 -> same_data w1 w2 ->
  outcome (update_dimensions_incremental env1 n) w1
  = outcome (update_dimensions_incremental env2 n) w2
  /\ same_data (store (update_dimensions_incremental env1 n) w1)
       (store (update_dimensions_incremental env2 n) w2).
Proof.
  intros (_ & Hnow & _ & Herr) H.
  unfold outcome, store, update_dimensions_incremental,
    try_except, bind, ret, raise, execute_sql.
  rewrite <- Hnow.
  rewrite <- (Herr MERGE_PRODUCTS eq_refl), <- (Herr MERGE_CUSTOMERS eq_refl),
    <- (Herr UPDATE_CUSTOMER_SEGMENTS eq_refl), <- (Herr MERGE_COUNTRIES eq_refl).
  destruct (sql_error env1 MERGE_PRODUCTS); cbn [run_sql fst snd];
    [split; [reflexivity|exact H]|].
  destruct (sql_error env1 MERGE_CUSTOMERS); cbn [run_sql fst snd];
    [split; [reflexivity|same_data_step]|].
  destruct (sql_error env1 UPDATE_CUSTOMER_SEGMENTS); cbn [run_sql fst snd];
    [split; [reflexivity|same_data_step]|].
  destruct (sql_error env1 MERGE_COUNTRIES); cbn [run_sql fst snd];
    (split; [reflexivity|same_data_step]).
Qed.

Lemma same_data_publication (env1 env2 : Env) (n : Z) (w1 w2 : Warehouse) :
  same_but_log env1 env2 -> same_data w1 w2 ->
  outcome (append_to_transactions_fact env1 n) w1
  = outcome (append_to_transactions_fact env2 n) w2
  /\ same_data (store (append_to_transactions_fact env1 n) w1)
       (store (append_to_transactions_fact env2 n) w2).
Proof.
  intros (_ & _ & _ & Herr) H.
  unfold outcome, store, append_to_transactions_fact,
    try_except, bind, ret, raise, execute_sql.
  rewrite <- (Herr (INSERT_TRANSACTIONS n) eq_refl).
  destruct (sql_error env1 (INSERT_TRANSACTIONS n)); cbn [run_sql fst snd];
    (split; [reflexivity|]); [exact H|same_data_step].
Qed.

(** The candidates depend on the clock and on the arithmetic only. *)
Lemma same_candidates (env1 env2 : Env) (n s : Z) (df : list DF.row) :
  now env1 = now env2 -> float64_mul env1 = float64_mul env2 ->
  candidates env1 n s df = candidates env2 n s df.
Proof.
  intros Hnow Hmul. unfold candidates.
  generalize (filter nonzero_quantity (dropna df)) as l. intros l. revert s.
  induction l as [|c l IH]; intros s; cbn [add_metadata]; [reflexivity|].
  rewrite IH. f_equal. unfold staged, multiply. rewrite Hnow, Hmul. reflexivity.
Qed.

Lemma same_new_rows (env1 env2 : Env) (n s e : Z) (staging : list STAGING.row) :
  same_but_log env1 env2 ->
  new_rows env1 n s e staging = new_rows env2 n s e staging.
Proof.
  intros (Hcsv & Hnow & Hmul & Herr). unfold new_rows.
  rewrite <- Hcsv, <- (Herr SELECT_TRANSACTION_KEYS eq_refl).
  destruct (csv_file env1); [|reflexivity].
  destruct (convert _); [reflexivity|].
  destruct (sql_error env1 SELECT_TRANSACTION_KEYS); [reflexivity|].
  cbn zeta. rewrite <- (same_candidates env1 env2 n s l0 Hnow Hmul).
  destruct (key_fails _ _ _); [reflexivity|].
  apply filter_ext. intros r. unfold insertable.
  rewrite (Herr (INSERT_STAGING r) eq_refl). reflexivity.
Qed.

(** X17: a refused log statement never changes what a run does to the
    data.  Two runs of the same batch request, in worlds that differ only
    in which execution-log statements are refused and on stores that agree
    on everything but the log, return the same value and leave staging,
    products, customers, countries and facts equal. *)
Theorem X17_log_failures_do_not_reach_the_data
    (env1 env2 : Env) (batch_number : option Z) (w1 w2 : Warehouse) :
  same_but_log env1 env2 ->
  same_data w1 w2 ->
  outcome (run_incremental_batch env1 batch_number) w1
  = outcome (run_incremental_batch env2 batch_number) w2
  /\ same_data (store (run_incremental_batch env1 batch_number) w1)
       (store (run_incremental_batch env2 batch_number) w2).
Proof.
  intros Henv Hw.
  assert (Hn : resolved env1 batch_number w1 = resolved env2 batch_number w2).
  { destruct Henv as (_ & _ & _ & Herr). destruct Hw as (Hs & _).
    unfold resolved, last_processed, max_row_number.
    rewrite (Herr SELECT_MAX_ROW_NUMBER_IN_FILE eq_refl), Hs. reflexivity. }
  unfold outcome, store. rewrite !run_incremental_batch_eq. cbn zeta.
  rewrite <- Hn. set (n := resolved env1 batch_number w1).
  assert (Hrows :
    new_rows env1 n (start_row n) (end_row n) (ONLINE_RETAIL_STAGING w1)
    = new_rows env2 n (start_row n) (end_row n) (ONLINE_RETAIL_STAGING w2)).
  { destruct Hw as (Hs & _). rewrite Hs. apply same_new_rows, Henv. }
  assert (Hloaded : loaded env1 n w1 = loaded env2 n w2)
    by (rewrite !loaded_eq, Hrows; reflexivity).
  assert (Hload : same_data (after_load env1 n w1) (after_load env2 n w2)).
  { assert (A1 := same_data_written env1
                    (INSERT_EXECUTION_LOG n (start_row n) (end_row n)) w1 eq_refl).
    assert (A2 := same_data_written env2
                    (INSERT_EXECUTION_LOG n (start_row n) (end_row n)) w2 eq_refl).
    fold (after_log_start env1 n w1) in A1. fold (after_log_start env2 n w2) in A2.
    destruct A1 as (A1 & B1 & C1 & D1 & E1), A2 as (A2 & B2 & C2 & D2 & E2),
      Hw as (Hs & Hp & Hc & Hk & Ht).
    unfold after_load, same_data.
    cbn [ONLINE_RETAIL_STAGING PRODUCTS CUSTOMERS COUNTRIES TRANSACTIONS with_staging].
    rewrite A1, A2, Hrows, Hs. repeat split; congruence. }
  rewrite <- Hloaded.
  destruct (loaded env1 n w1 =? 0)%Z.
  { cbn [fst snd]. split; [reflexivity|].
    eapply same_data_trans; [apply same_data_written; reflexivity|].
    eapply same_data_trans; [exact Hload|].
    apply same_data_sym, same_data_written. reflexivity. }
  destruct (same_data_dimensions env1 env2 n _ _ Henv Hload) as [Ho Hd].
  unfold outcome, store in Ho, Hd.
  destruct (update_dimensions_incremental env1 n (after_load env1 n w1)) as [[x1|[]] u1],
    (update_dimensions_incremental env2 n (after_load env2 n w2)) as [[x2|[]] u2];
    cbn [fst snd] in Ho, Hd; try discriminate Ho.
  { cbn [fst snd]. split; [reflexivity|].
    eapply same_data_trans; [apply same_data_written; reflexivity|].
    eapply same_data_trans; [exact Hd|].
    apply same_data_sym, same_data_written. reflexivity. }
  destruct (same_data_publication env1 env2 n _ _ Henv Hd) as [Ho' Hd'].
  unfold outcome, store in Ho', Hd'.
  destruct (append_to_transactions_fact env1 n u1) as [[y1|[]] v1],
    (append_to_transactions_fact env2 n u2) as [[y2|[]] v2];
    cbn [fst snd] in Ho', Hd'; try discriminate Ho';
    cbn [fst snd]; (split; [reflexivity|]);
    (eapply same_data_trans; [apply same_data_written; reflexivity|]);
    (eapply same_data_trans; [exact Hd'|]);
    apply same_data_sym, same_data_written; reflexivity.
Qed.

(** The warehouse refuses every execution-log statement. *)
Definition log_down (csv : list CSV.row) : Env :=
  {| csv_file := Some csv;
     sql_error := fun q => if is_log_statement q then Some "log unavailable" else None;
     now := Scenario.clock;
     float64_mul := Scenario.exact |}.

(** The short extract, with and without a working log. *)
Lemma X17_witness :
  let env1 := Scenario.healthy Scenario.short in
  let env2 := log_down Scenario.short in
  outcome (run_incremental_batch env2 (Some 1)) empty_warehouse = inr true
  /\ PIPELINE_EXECUTION_LOG (store (run_incremental_batch env2 (Some 1)) empty_warehouse)
     = []
  /\ same_data (store (run_incremental_batch env1 (Some 1)) empty_warehouse)
       (store (run_incremental_batch env2 (Some 1)) empty_warehouse).
Proof.
  intros env1 env2.
  split; [vm_compute; reflexivity|]. split; [vm_compute; reflexivity|].
  apply (X17_log_failures_do_not_reach_the_data env1 env2 (Some 1)
           empty_warehouse empty_warehouse).
  - split; [reflexivity|]. split; [reflexivity|]. split; [reflexivity|].
    intros q H. destruct q; try discriminate H; reflexivity.
  - repeat split.
Defined.

(* ------------------------------------------------------------------ *)
(** ** Segments after a merge                                          *)
(* ------------------------------------------------------------------ *)

Lemma current_date_le (now : Z) : SQL.CURRENT_DATE now <= now.
Proof.
  unfold SQL.CURRENT_DATE, SQL.day_of.
  pose proof (Z.mul_div_le now 86400 eq_refl). lia.
Qed.

(** X18: a customer row matched by the customers MERGE is re-classified
    by the segmentation statement that follows it: after both statements
    its spend is the old spend plus the delta and its segment is the
    segment of that sum.  A customer row that the MERGE does not match and
    that was last updated before today keeps its row unchanged, stored
    segment included. *)
Theorem X18_matched_customers_are_resegmented (now : Z) (w : Warehouse) :
  let w' := update_segments now (merge_customers now w) in
  (forall i t d,
      nth_error (CUSTOMERS w) i = Some t ->
      find (customers_on t) (customers_source (ONLINE_RETAIL_STAGING w)) = Some d ->
      exists t',
        nth_error (CUSTOMERS w') i = Some t'
        /\ CUSTOMERS.CUSTOMER_ID t' = CUSTOMERS.CUSTOMER_ID t
        /\ CUSTOMERS.TOTAL_AMOUNT_SPENT t'
           = (CUSTOMERS.TOTAL_AMOUNT_SPENT t + CUSTOMER_DELTA.NEW_AMOUNT_SPENT d)%Q
        /\ CUSTOMERS.CUSTOMER_SEGMENT t'
           = Some (segment_of (CUSTOMERS.TOTAL_AMOUNT_SPENT t
                               + CUSTOMER_DELTA.NEW_AMOUNT_SPENT d)%Q))
  /\ (forall i t,
        nth_error (CUSTOMERS w) i = Some t ->
        find (customers_on t) (customers_source (ONLINE_RETAIL_STAGING w)) = None ->
        CUSTOMERS.UPDATED_AT t < SQL.CURRENT_DATE now ->
        nth_error (CUSTOMERS w') i = Some t).
Proof.
  cbn zeta. unfold update_segments, merge_customers.
  cbn [CUSTOMERS with_customers]. unfold SQL.MERGE. split.
  - intros i t d Ht Hd. rewrite nth_error_map.
    rewrite nth_error_app1 by (rewrite length_map; apply nth_error_Some; congruence).
    rewrite nth_error_map, Ht. cbn [option_map]. rewrite Hd.
    eexists. split; [reflexivity|]. unfold segment_row.
    cbn [customers_update CUSTOMERS.UPDATED_AT].
    pose proof (current_date_le now) as Hle. apply Z.leb_le in Hle. rewrite Hle.
    repeat split.
  - intros i t Ht Hd Hold. rewrite nth_error_map.
    rewrite nth_error_app1 by (rewrite length_map; apply nth_error_Some; congruence).
    rewrite nth_error_map, Ht. cbn [option_map]. rewrite Hd.
    unfold segment_row.
    destruct (Z.leb_spec (SQL.CURRENT_DATE now) (CUSTOMERS.UPDATED_AT t)); [lia|].
    reflexivity.
Qed.

(* ------------------------------------------------------------------ *)
(** ** Merging the same delta twice                                    *)
(* ------------------------------------------------------------------ *)

(** X19: the products MERGE is not idempotent.  The delta is computed
    from staging, which the MERGE does not change, so running it a second
    time adds the same delta again: for a matched row the quantity sold
    and the count of distinct customers grow by twice the delta. *)
Theorem X19_second_merge_adds_the_delta_again
    (now : Z) (w : Warehouse) (i : nat) (t : PRODUCTS.row) (d : PRODUCT_DELTA.row) :
  nth_error (PRODUCTS w) i = Some t ->
  find (products_on t) (products_source (ONLINE_RETAIL_STAGING w)) = Some d ->
  exists t2,
    nth_error (PRODUCTS (merge_products now (merge_products now w))) i = Some t2
    /\ PRODUCTS.STOCK_CODE t2 = PRODUCTS.STOCK_CODE t
    /\ PRODUCTS.TOTAL_QUANTITY_SOLD t2
       = PRODUCTS.TOTAL_QUANTITY_SOLD t + 2 * PRODUCT_DELTA.NEW_QUANTITY_SOLD d
    /\ PRODUCTS.UNIQUE_CUSTOMERS t2
       = PRODUCTS.UNIQUE_CUSTOMERS t + 2 * PRODUCT_DELTA.NEW_UNIQUE_CUSTOMERS d.
Proof.
  intros Ht Hd.
  assert (H1 : nth_error (PRODUCTS (merge_products now w)) i
               = Some (products_update now t d)).
  { unfold merge_products. cbn [PRODUCTS with_products].
    apply MERGE_matched; assumption. }
  assert (H2 : find (products_on (products_update now t d))
                 (products_source (ONLINE_RETAIL_STAGING (merge_products now w)))
               = Some d) by exact Hd.
  exists (products_update now (products_update now t d) d). split.
  { unfold merge_products at 1. cbn [PRODUCTS with_products].
    apply MERGE_matched; assumption. }
  split; [reflexivity|].
  cbn [products_update PRODUCTS.TOTAL_QUANTITY_SOLD PRODUCTS.UNIQUE_CUSTOMERS].
  split; lia.
Qed.

(** Product A of the short extract, merged twice more. *)
Lemma X19_witness :
  exists t d t2,
    nth_error (PRODUCTS Scenario.short_loaded) 0 = Some t
    /\ find (products_on t)
         (products_source (ONLINE_RETAIL_STAGING Scenario.short_loaded)) = Some d
    /\ nth_error
         (PRODUCTS (merge_products 0 (merge_products 0 Scenario.short_loaded))) 0
       = Some t2
    /\ PRODUCTS.TOTAL_QUANTITY_SOLD t2
       = PRODUCTS.TOTAL_QUANTITY_SOLD t + 2 * PRODUCT_DELTA.NEW_QUANTITY_SOLD d.
Proof.
  destruct (nth_error (PRODUCTS Scenario.short_loaded) 0) as [t|] eqn:Et.
  2:{ vm_compute in Et. discriminate Et. }
  destruct (find (products_on t)
              (products_source (ONLINE_RETAIL_STAGING Scenario.short_loaded)))
    as [d|] eqn:Ed.
  2:{ vm_compute in Et. injection Et as <-. vm_compute in Ed. discriminate Ed. }
  destruct (X19_second_merge_adds_the_delta_again 0 Scenario.short_loaded 0 t d Et Ed)
    as (t2 & H1 & _ & H2 & _).
  exists t, d, t2. repeat split; assumption.
Defined.

(* ------------------------------------------------------------------ *)
(** ** Best-effort logging and the load, as seen by the other tables   *)
(* ------------------------------------------------------------------ *)

(** X20: when the INSERT that logs the start of an attempt is refused,
    the closing UPDATE does not find an entry of this attempt; it closes
    instead every entry of the same batch that is still RUNNING and has
    the latest start time among the entries of that batch, that is, the
    entry of an earlier attempt that never finished. *)
Theorem X20_unlogged_attempt_closes_an_older_entry
    (env : Env) (batch_number : option Z) (w : Warehouse)
    (i : nat) (entry : LOG.row) (e : Exception) :
  let n := resolved env batch_number w in
  sql_error env (INSERT_EXECUTION_LOG n (start_row n) (end_row n)) = Some e ->
  (forall st rows clause,
      sql_error env (UPDATE_EXECUTION_LOG n st rows clause) = None) ->
  nth_error (PIPELINE_EXECUTION_LOG w) i = Some entry ->
  of_batch n entry = true ->
  LOG.STATUS entry = RUNNING ->
  latest_start n (PIPELINE_EXECUTION_LOG w) = Some (LOG.START_TIME entry) ->
  exists entry',
    nth_error
      (PIPELINE_EXECUTION_LOG (store (run_incremental_batch env batch_number) w)) i
    = Some entry'
    /\ LOG.STATUS entry' <> RUNNING
    /\ LOG.START_TIME entry' = LOG.START_TIME entry
    /\ LOG.END_TIME entry' = Some (now env)
    /\ List.length
         (PIPELINE_EXECUTION_LOG (store (run_incremental_batch env batch_number) w))
       = List.length (PIPELINE_EXECUTION_LOG w).
Proof.
  cbn zeta. intros Hi Hu Hentry Hof Hrun Hlatest.
  destruct (run_log env batch_number w) as (st & rows & clause & Hst & ->).
  unfold after_log_start, written. rewrite Hi, Hu. cbn [run_sql snd].
  unfold log_update. cbn [PIPELINE_EXECUTION_LOG with_log].
  rewrite nth_error_map, Hentry. cbn [option_map].
  rewrite Hof, Hrun, Hlatest, Z.eqb_refl. cbn [is_running andb].
  eexists. split; [reflexivity|]. cbn.
  split; [exact Hst|]. split; [reflexivity|]. split; [reflexivity|].
  apply length_map.
Qed.

(** An attempt at batch 1 whose start was logged and that never finished,
    then a run of batch 1 of the empty extract whose start INSERT is
    refused. *)
Definition start_refused : Env :=
  {| csv_file := Some [];
     sql_error := fun q => match q with
                           | INSERT_EXECUTION_LOG _ _ _ => Some "log unavailable"
                           | _ => None
                           end;
     now := Scenario.clock + 3600;
     float64_mul := Scenario.exact |}.

Definition unfinished : Warehouse :=
  with_log [started_entry Scenario.clock 1] empty_warehouse.

Lemma X20_witness :
  map LOG.STATUS (PIPELINE_EXECUTION_LOG unfinished) = [RUNNING]
  /\ map (fun entry => (LOG.STATUS entry, LOG.START_TIME entry, LOG.END_TIME entry))
       (PIPELINE_EXECUTION_LOG
          (store (run_incremental_batch start_refused (Some 1)) unfinished))
     = [(COMPLETED, Scenario.clock, Some (Scenario.clock + 3600))]
  /\ exists entry',
       nth_error
         (PIPELINE_EXECUTION_LOG
            (store (run_incremental_batch start_refused (Some 1)) unfinished)) 0
       = Some entry'
       /\ LOG.STATUS entry' <> RUNNING.
Proof.
  split; [reflexivity|]. split; [vm_compute; reflexivity|].
  destruct (X20_unlogged_attempt_closes_an_older_entry
              start_refused (Some 1) unfinished 0
              (started_entry Scenario.clock 1) "log unavailable")
    as (entry' & H1 & H2 & _); try reflexivity.
  exists entry'. split; assumption.
Defined.

(** X21: the staging load never raises and writes to staging only: it
    returns the number of rows by which staging grew, keeps the rows that
    were there in place, and leaves products, customers, countries, facts
    and the execution log as they were. *)
Theorem X21_load_touches_staging_only (env : Env) (n s e : Z) (w : Warehouse) :
  let w' := store (load_batch_to_staging env n s e) w in
  exists rows,
    outcome (load_batch_to_staging env n s e) w = inr (Z.of_nat (List.length rows))
    /\ ONLINE_RETAIL_STAGING w' = (ONLINE_RETAIL_STAGING w ++ rows)%list
    /\ PRODUCTS w' = PRODUCTS w
    /\ CUSTOMERS w' = CUSTOMERS w
    /\ COUNTRIES w' = COUNTRIES w
    /\ TRANSACTIONS w' = TRANSACTIONS w
    /\ PIPELINE_EXECUTION_LOG w' = PIPELINE_EXECUTION_LOG w.
Proof.
  cbn zeta. exists (new_rows env n s e (ONLINE_RETAIL_STAGING w)).
  unfold outcome, store. rewrite load_batch_to_staging_spec.
  repeat split.
Qed.

(** X22: logging is best effort.  [log_batch_start] and [log_batch_end]
    never raise, also when the warehouse refuses their statement, and
    change no table but the execution log; a refused statement leaves the
    whole store as it was. *)
Theorem X22_logging_is_best_effort
    (env : Env) (n s e : Z) (st : Status) (rows : Z) (msg : option string)
    (w : Warehouse) :
  outcome (log_batch_start env n s e) w = inr tt
  /\ outcome (log_batch_end env n st rows msg) w = inr tt
  /\ same_data (store (log_batch_start env n s e) w) w
  /\ same_data (store (log_batch_end env n st rows msg) w) w
  /\ (sql_error env (INSERT_EXECUTION_LOG n s e) <> None ->
      store (log_batch_start env n s e) w = w)
  /\ (sql_error env (UPDATE_EXECUTION_LOG n st rows (error_clause msg)) <> None ->
      store (log_batch_end env n st rows msg) w = w).
Proof.
  unfold outcome, store. rewrite log_batch_start_spec, log_batch_end_spec.
  cbn [fst snd]. split; [reflexivity|]. split; [reflexivity|].
  split; [apply same_data_written; reflexivity|].
  split; [apply same_data_written; reflexivity|].
  unfold written. split; intros H; destruct (sql_error env _); try reflexivity;
    destruct (H eq_refl).
Qed.

(** The first row of the short extract, loaded into an empty warehouse:
    the price column of the window holds 2.5, so the amount is taken in
    binary64. *)
Lemma X2_witness :
  let env := Scenario.healthy Scenario.short in
  In first_row
    (ONLINE_RETAIL_STAGING
       (store (load_batch_to_staging env 1 (start_row 1) (end_row 1)) empty_warehouse))
  /\ STAGING.DATA_SOURCE first_row = "CSV_BATCH_1"
  /\ STAGING.TOTAL_AMOUNT first_row = float64_mul env 2 2.5
  /\ start_row 1 <= STAGING.ROW_NUMBER_IN_FILE first_row <= end_row 1.
Proof.
  intros env.
  assert (Hin : In first_row
                  (ONLINE_RETAIL_STAGING
                     (store (load_batch_to_staging env 1 (start_row 1) (end_row 1))
                        empty_warehouse)))
    by (vm_compute; left; reflexivity).
  split; [exact Hin|].
  destruct (X2_appended_rows_are_stamped env 1 empty_warehouse first_row Hin)
    as [[]|(_ & H2 & _ & _ & _ & _ & (csv & Hcsv & H7 & _) & H8)].
  injection Hcsv as <-.
  split; [exact H2|]. split; [|exact H8].
  apply H7. right. vm_compute. reflexivity.
Defined.

(* ------------------------------------------------------------------ *)
(** ** Key columns that pandas holds as numbers                        *)
(* ------------------------------------------------------------------ *)

Lemma key_fails_numbers (types : Dtypes) (keys : list string) (df : list STAGING.row) :
  keys <> [] -> ~ text_keys types -> df <> [] -> key_fails types keys df = true.
Proof.
  unfold key_fails, key_column, text_keys. intros Hk Ht Hd.
  destruct keys as [|k ks]; [contradiction|].
  destruct df as [|r l]; [contradiction|].
  destruct (INVOICE_NO_dtype types); try reflexivity.
  destruct (STOCK_CODE_dtype types); try reflexivity.
  destruct Ht. split; reflexivity.
Qed.

(** X23: once staging holds a row, a window whose invoice numbers or
    stock codes pandas reads as numbers (every cell a run of digits, say)
    cannot be loaded: the key of line 144 cannot be built, the load
    catches the TypeError, returns 0 and writes nothing, and the run
    returns [False] with staging as it was.  Such a window is only ever
    staged into an empty table. *)
Theorem X23_numeric_keys_need_an_empty_table
    (env : Env) (batch_number : option Z) (w : Warehouse) (csv : list CSV.row) :
  let n := resolved env batch_number w in
  let w' := store (run_incremental_batch env batch_number) w in
  csv_file env = Some csv ->
  ONLINE_RETAIL_STAGING w <> [] ->
  ~ text_keys (read_dtypes (window_rows csv (start_row n) (end_row n))) ->
  load_batch_to_staging env n (start_row n) (end_row n) w = (inr 0, w)
  /\ outcome (run_incremental_batch env batch_number) w = inr false
  /\ ONLINE_RETAIL_STAGING w' = ONLINE_RETAIL_STAGING w
  /\ TRANSACTIONS w' = TRANSACTIONS w
  /\ PRODUCTS w' = PRODUCTS w.
Proof.
  cbn zeta. set (n := resolved env batch_number w). intros Hcsv Hne Htext.
  assert (Hnil : new_rows env n (start_row n) (end_row n) (ONLINE_RETAIL_STAGING w) = []).
  { unfold new_rows. rewrite Hcsv.
    destruct (convert _) as [x|df]; [reflexivity|].
    destruct (sql_error env SELECT_TRANSACTION_KEYS); [reflexivity|]. cbn zeta.
    destruct (candidates env n (start_row n) df) as [|r l] eqn:Ec.
    { destruct (key_fails _ _ _); reflexivity. }
    rewrite key_fails_numbers; [reflexivity| |exact Htext|discriminate].
    destruct (ONLINE_RETAIL_STAGING w) as [|r0 l0]; [contradiction|].
    cbn [map SQL.distinct]. discriminate. }
  split.
  { rewrite load_batch_to_staging_spec, Hnil. cbn [List.length Z.of_nat].
    rewrite app_nil_r, with_staging_same. reflexivity. }
  unfold outcome, store. rewrite (run_zero_rows env batch_number w Hnil).
  cbn [fst snd]. fold n. split; [reflexivity|].
  assert (F := written_log_frame env
                 (UPDATE_EXECUTION_LOG n COMPLETED 0 (Some "No new data to load"))
                 (after_log_start env n w)).
  assert (G := written_log_frame env
                 (INSERT_EXECUTION_LOG n (start_row n) (end_row n)) w).
  cbn zeta in F, G. fold (after_log_start env n w) in G.
  destruct F as (F1 & F2 & _ & _ & F5); [right; eauto 6|].
  destruct G as (G1 & G2 & _ & _ & G5); [left; eauto|].
  repeat split; congruence.
Qed.

(** A two-line extract whose invoice numbers are runs of digits, with a
    warehouse that refuses the INSERT of stock code B: the first attempt
    stages A only, and the second attempt, in a warehouse that accepts
    everything, stages nothing. *)
Definition numbered : list CSV.row :=
  [Scenario.sale "536365" "A" 2 2.5; Scenario.sale "536365" "B" 1 1].

Definition numbered_refuses_B : Env :=
  {| csv_file := Some numbered;
     sql_error := fun q =>
                    match q with
                    | INSERT_STAGING r =>
                        if String.eqb (STAGING.STOCK_CODE r) "B"
                        then Some "insert failed" else None
                    | _ => None
                    end;
     now := Scenario.clock;
     float64_mul := Scenario.exact |}.

Definition numbered_partly_loaded : Warehouse :=
  store (run_incremental_batch numbered_refuses_B (Some 1)) empty_warehouse.

Lemma X23_witness :
  let env := Scenario.later numbered in
  let w' := store (run_incremental_batch env (Some 1)) numbered_partly_loaded in
  map STAGING.STOCK_CODE (ONLINE_RETAIL_STAGING numbered_partly_loaded) = ["A"]
  /\ INVOICE_NO_dtype (read_dtypes (window_rows numbered (start_row 1) (end_row 1)))
     = int64
  /\ outcome (run_incremental_batch env (Some 1)) numbered_partly_loaded = inr false
  /\ ONLINE_RETAIL_STAGING w' = ONLINE_RETAIL_STAGING numbered_partly_loaded.
Proof.
  intros env w'.
  split; [vm_compute; reflexivity|]. split; [vm_compute; reflexivity|].
  destruct (X23_numeric_keys_need_an_empty_table env (Some 1) numbered_partly_loaded
              numbered eq_refl) as (_ & H2 & H3 & _).
  - vm_compute. discriminate.
  - intros [H _]. vm_compute in H. discriminate H.
  - split; [exact H2|exact H3].
Defined.
